(** * Record (SoulLog journal): the analysis / task-normalisation pipeline,
      the entry store and the mood colour resolver

    Shallow embedding of the TypeScript sources
    - [services/storage.ts]        (entry store on [localStorage]),
    - [utils.ts]                   (mood palette, colour resolvers),
    - [services/geminiService.ts]  (credential lookup, provider calls,
                                    [analyzeJournalEntry] and its fallbacks),
    - [components/CalendarView.tsx] ([getTasksForEntry]),
    - [components/RecordView.tsx]   ([normalizeTasks], [handleAnalyze],
                                    mood label rendering),
    followed by the properties stated about them.

    Conventions.  JavaScript strings are modelled as [string] (the UTF-8
    bytes of the source literals); values whose static type is [any] at run
    time (parsed JSON, task arrays read back from storage) are modelled by
    [JsVal]; JSON numbers are modelled as integers.  Effects (the request log,
    the wall clock, [localStorage], [alert]) are threaded through the monad
    [M]; what the browser and the provider decide is collected in [Env]. *)

From Stdlib Require Import String Ascii List ZArith Lia Bool Arith.
From Stdlib Require Import DecimalString DecimalZ DecimalPos.
Import ListNotations.
Local Open Scope string_scope.
Local Open Scope Z_scope.

Set Implicit Arguments.
Set Warnings "-register-all".
Set Warnings "-automation".
Set Warnings "-default".

(* ====================================================================== *)
(** * JavaScript values and the few operators the sources use              *)
(* ====================================================================== *)

(** A run-time value of static type [any]. *)
Inductive JsVal : Type :=
| JUndefined
| JNull
| JBool (b : bool)
| JNum (n : Z)
| JStr (s : string)
| JArr (xs : list JsVal)
| JObj (fields : list (string * JsVal)).

(** The double-quote character, for literals that contain it. *)
Definition dq : string := String (ascii_of_nat 34) EmptyString.
(** Line feed, as written [\n] in the sources. *)
Definition nl : string := String (ascii_of_nat 10) EmptyString.

(** [String(n)] / [`${n}`] for an integer-valued number. *)
Definition Number_toString (n : Z) : string :=
  NilZero.string_of_int (Z.to_int n).

(** [`${i}`] for an array index. *)
Definition index_toString (i : nat) : string :=
  Number_toString (Z.of_nat i).

(** [Array.prototype.join]. *)
Fixpoint join (sep : string) (l : list string) : string :=
  match l with
  | [] => ""
  | [x] => x
  | x :: rest => x ++ sep ++ join sep rest
  end.

(** [ToString], as applied by template literals, [new Error(v)] and
    [JSON.parse(v)].  Arrays join their elements with a comma, [null] and
    [undefined] elements printing as the empty string. *)
Fixpoint ToString (v : JsVal) : string :=
  match v with
  | JUndefined => "undefined"
  | JNull => "null"
  | JBool true => "true"
  | JBool false => "false"
  | JNum n => Number_toString n
  | JStr s => s
  | JArr xs =>
      join ","
        (map (fun x => match x with
                       | JUndefined | JNull => ""
                       | _ => ToString x
                       end) xs)
  | JObj _ => "[object Object]"
  end.

(** [ToBoolean]: what [if (v)], [!v] and [v || d] test. *)
Definition truthy (v : JsVal) : bool :=
  match v with
  | JUndefined | JNull => false
  | JBool b => b
  | JNum n => negb (n =? 0)
  | JStr s => negb (String.eqb s "")
  | JArr _ | JObj _ => true
  end.

(** [a || b]. *)
Definition js_or (a b : JsVal) : JsVal := if truthy a then a else b.

(** [s || d] on strings. *)
Definition str_or (s d : string) : string :=
  if String.eqb s "" then d else s.

(** [typeof v === 'string']. *)
Definition is_string (v : JsVal) : bool :=
  match v with JStr _ => true | _ => false end.

(** [s.startsWith(p)]. *)
Definition startsWith (s p : string) : bool := String.prefix p s.

(** [s.includes(needle)]. *)
Definition includes (s needle : string) : bool :=
  match String.index 0 needle s with
  | Some _ => true
  | None => false
  end.

(** A thrown value.  Everything the sources and the browser raise here is an
    [Error] instance, identified by its [message]. *)
Record JsError : Type := { message : string }.

Inductive Exc (A : Type) : Type :=
| Ok (a : A)
| Throw (e : JsError).
Arguments Ok {A} a.
Arguments Throw {A} e.

Definition own_property (fields : list (string * JsVal)) (k : string) : JsVal :=
  match find (fun p => String.eqb (fst p) k) fields with
  | Some p => snd p
  | None => JUndefined
  end.

Definition TypeError_reading (v : JsVal) (k : string) : JsError :=
  {| message := "Cannot read properties of " ++ ToString v
                ++ " (reading '" ++ k ++ "')" |}.

(** [v.name] for a property name that is not one of the built-in properties
    of arrays, strings or [Object.prototype] (the sources read [error],
    [message], [choices], [content], [text] and the six result fields):
    reading from [undefined] or [null] raises a [TypeError], a JSON object
    yields its own property, every other value yields [undefined]. *)
Definition get_prop (v : JsVal) (k : string) : Exc JsVal :=
  match v with
  | JUndefined | JNull => Throw (TypeError_reading v k)
  | JObj fields => Ok (own_property fields k)
  | _ => Ok JUndefined
  end.

(** [v?.name]: short-circuits to [undefined] on [undefined] and [null]. *)
Definition get_prop_opt (v : JsVal) (k : string) : JsVal :=
  match v with
  | JObj fields => own_property fields k
  | _ => JUndefined
  end.

(** [v[0]].  On a string the result is its first unit as a one-unit string. *)
Definition get_index0 (v : JsVal) : Exc JsVal :=
  match v with
  | JUndefined | JNull => Throw (TypeError_reading v "0")
  | JArr xs => Ok (nth 0 xs JUndefined)
  | JStr s => Ok (match s with
                  | EmptyString => JUndefined
                  | String c _ => JStr (String c EmptyString)
                  end)
  | JObj fields => Ok (own_property fields "0")
  | _ => Ok JUndefined
  end.

(** [xs.map((t, i) => f(t, i))], the index starting at [i]. *)
Fixpoint mapi_from (A B : Type) (f : A -> nat -> B) (i : nat) (xs : list A) : list B :=
  match xs with
  | [] => []
  | x :: rest => f x i :: mapi_from f (S i) rest
  end.

Definition mapi (A B : Type) (f : A -> nat -> B) (xs : list A) : list B :=
  mapi_from f 0 xs.

(* ====================================================================== *)
(** * types.ts                                                             *)
(* ====================================================================== *)

(** The object literal [{ id, text, completed }] of a [TaskItem].  [text] is
    whatever value the producing [map] callback received. *)
Definition TaskItem (id : string) (text : JsVal) (completed : bool) : JsVal :=
  JObj [("id", JStr id); ("text", text); ("completed", JBool completed)].

(** [JournalEntry].  [audioBase64] is optional; [tasks] is declared
    [TaskItem[]] ("Updated from string[]"): entries persisted by earlier
    versions hold plain strings, and both readers test [!tasks], so the field
    is an optional array of run-time values. *)
Record JournalEntry : Type := {
  id : string;
  date : string;
  audioBase64 : option string;
  images : list string;
  transcription : string;
  moodEmoji : string;
  moodDescription : string;
  moodKey : string;
  moodScore : Z;
  tasks : option (list JsVal);
  createdAt : Z
}.

(** [AnalysisResult].  The values come from [JSON.parse] unchecked, hence
    [JsVal] fields. *)
Record AnalysisResult : Type := {
  r_transcription : JsVal;
  r_moodEmoji : JsVal;
  r_moodDescription : JsVal;
  r_moodKey : JsVal;
  r_moodScore : JsVal;
  r_tasks : JsVal
}.

(* ====================================================================== *)
(** * The environment and the effect monad                                 *)
(* ====================================================================== *)

(** What [dataURLtoFile] builds. *)
Record File : Type := { file_bits : string; file_name : string; file_type : string }.

Inductive RequestBody : Type :=
| JsonBody (json : JsVal)                     (* [JSON.stringify(body)] *)
| FormData (file : File) (model : string).    (* multipart upload *)

(** One [fetch] call. *)
Record Request : Type := {
  url : string;
  method : string;
  headers : list (string * string);
  body : RequestBody
}.

(** What a [fetch] call does: the promise rejects (transport failure), or it
    resolves with a response whose [ok] flag and [json()] outcome are given. *)
Inductive FetchOutcome : Type :=
| FetchRejects (e : JsError)
| FetchResolves (ok : bool) (json : Exc JsVal).

(** The mutable world: two [localStorage] slots, the log of [fetch] calls
    (oldest first), the number of [Date.now()] readings taken, and the
    [alert]s shown (oldest first).  A slot holding [None] is one for which
    [getItem] returns [null]; the entries slot is kept in parsed form. *)
Record World : Type := {
  soullog_entries_v1 : option (list JournalEntry);
  openai_api_key : option string;
  requests : list Request;
  ticks : nat;
  alerts : list string
}.

(** What the surroundings decide: the build-time [process.env.API_KEY]
    (vite.config.ts defines it as the empty string), the reading of the k-th
    [Date.now()] call, the provider's answer to a request given the requests
    before it, [JSON.parse], [atob], and whether [localStorage] has room for
    a serialized entry collection. *)
Record Env : Type := {
  process_env_API_KEY : string;
  Date_now_at : nat -> Z;
  network : list Request -> Request -> FetchOutcome;
  JSON_parse : string -> Exc JsVal;
  atob : string -> Exc string;
  setItem_accepts : list JournalEntry -> bool
}.

(** Computations that read and change the world and may raise. A raised
    exception keeps the changes made before it. *)
Definition M (A : Type) : Type := World -> Exc A * World.

Definition ret (A : Type) (a : A) : M A := fun w => (Ok a, w).

Definition bind (A B : Type) (m : M A) (k : A -> M B) : M B :=
  fun w => match m w with
           | (Ok a, w') => k a w'
           | (Throw e, w') => (Throw e, w')
           end.

Definition throw (A : Type) (e : JsError) : M A := fun w => (Throw e, w).
Arguments throw {A} e.

(** [try { m } catch (e) { h e }]. *)
Definition try_catch (A : Type) (m : M A) (h : JsError -> M A) : M A :=
  fun w => match m w with
           | (Ok a, w') => (Ok a, w')
           | (Throw e, w') => h e w'
           end.

(** A pure step that may raise. *)
Definition lift (A : Type) (x : Exc A) : M A := fun w => (x, w).

Declare Scope js_scope.
Delimit Scope js_scope with js.
Notation "x <- m ;; k" := (bind m (fun x => k))
  (at level 61, m at next level, right associativity) : js_scope.
Local Open Scope js_scope.

(** [new Error(msg)]. *)
Definition Error (msg : string) : JsError := {| message := msg |}.

(** [alert(msg)]. *)
Definition alert (msg : string) : M unit := fun w =>
  (Ok tt, {| soullog_entries_v1 := soullog_entries_v1 w;
             openai_api_key := openai_api_key w;
             requests := requests w;
             ticks := ticks w;
             alerts := (alerts w ++ [msg])%list |}).

(** [Date.now()]. *)
Definition Date_now (E : Env) : M Z := fun w =>
  (Ok (Date_now_at E (ticks w)),
   {| soullog_entries_v1 := soullog_entries_v1 w;
      openai_api_key := openai_api_key w;
      requests := requests w;
      ticks := S (ticks w);
      alerts := alerts w |}).

(** [await fetch(url, init)]: logs the request; a rejected promise raises. *)
Definition fetch (E : Env) (req : Request) : M (bool * Exc JsVal) := fun w =>
  let w' := {| soullog_entries_v1 := soullog_entries_v1 w;
               openai_api_key := openai_api_key w;
               requests := (requests w ++ [req])%list;
               ticks := ticks w;
               alerts := alerts w |} in
  match network E (requests w) req with
  | FetchRejects e => (Throw e, w')
  | FetchResolves ok json => (Ok (ok, json), w')
  end.

(* ====================================================================== *)
(** * services/storage.ts                                                  *)
(* ====================================================================== *)

(** [localStorage.setItem(STORAGE_KEY, JSON.stringify(l))]: raises (quota
    exceeded) and leaves the slot as it was when there is no room. *)
Definition setItem_entries (E : Env) (l : list JournalEntry) : M unit := fun w =>
  if setItem_accepts E l
  then (Ok tt, {| soullog_entries_v1 := Some l;
                  openai_api_key := openai_api_key w;
                  requests := requests w;
                  ticks := ticks w;
                  alerts := alerts w |})
  else (Throw (Error "QuotaExceededError"), w).

Definition getEntries : M (list JournalEntry) := fun w =>
  (Ok (match soullog_entries_v1 w with
       | Some data => data
       | None => []
       end), w).

Definition saveEntry (E : Env) (entry : JournalEntry) : M unit :=
  existing <- getEntries ;;
  let filtered := filter (fun e => negb (String.eqb (date e) (date entry))) existing in
  let filtered := (filtered ++ [entry])%list in
  try_catch (setItem_entries E filtered)
            (fun _ => alert "存储空间已满，无法保存更多录音或图片。请清理浏览器缓存。").

Definition getEntryByDate (d : string) : M (option JournalEntry) :=
  entries <- getEntries ;;
  ret (find (fun e => String.eqb (date e) d) entries).

Definition deleteEntry (E : Env) (d : string) : M unit :=
  existing <- getEntries ;;
  let filtered := filter (fun e => negb (String.eqb (date e) d)) existing in
  setItem_entries E filtered.

(* ====================================================================== *)
(** * utils.ts: the mood palette                                           *)
(* ====================================================================== *)

Inductive MoodIntensity : Type := Light | Medium | Strong.

Record MoodColorDefinition : Type := {
  light : string;
  medium : string;
  strong : string
}.

Definition MOOD_PALETTE : list (string * MoodColorDefinition) :=
  [ ("happy",   {| light := "#FFF5D1"; medium := "#FFD166"; strong := "#F4B942" |});
    ("calm",    {| light := "#E0F5F5"; medium := "#A8DADC"; strong := "#457B9D" |});
    ("neutral", {| light := "#F2F0E9"; medium := "#A3A398"; strong := "#5C5C54" |});
    ("sad",     {| light := "#E3E6F5"; medium := "#7D8CC4"; strong := "#5C6AA8" |});
    ("anxious", {| light := "#FFEBD6"; medium := "#F4A261"; strong := "#E76F51" |});
    ("angry",   {| light := "#FFE0DB"; medium := "#E76F51"; strong := "#C0392B" |});
    ("tired",   {| light := "#E8EDF2"; medium := "#94A3B8"; strong := "#475569" |}) ].

Definition MOOD_LABELS : list (string * string) :=
  [ ("happy", "开心"); ("calm", "平静"); ("neutral", "平淡"); ("sad", "低落");
    ("anxious", "焦虑"); ("angry", "生气"); ("tired", "疲惫") ].

(** The property names every object literal inherits from
    [Object.prototype]. *)
Definition Object_prototype_names : list string :=
  [ "constructor"; "__proto__"; "hasOwnProperty"; "isPrototypeOf";
    "propertyIsEnumerable"; "toLocaleString"; "toString"; "valueOf";
    "__defineGetter__"; "__defineSetter__"; "__lookupGetter__";
    "__lookupSetter__" ].

(** The result of [obj[key]] on an object literal used as a table: an own
    entry, an inherited member (a truthy built-in that is no table entry),
    or [undefined]. *)
Inductive Slot (A : Type) : Type :=
| Own (a : A)
| Inherited
| Absent.
Arguments Own {A} a.
Arguments Inherited {A}.
Arguments Absent {A}.

Definition table_get (A : Type) (table : list (string * A)) (key : string) : Slot A :=
  match find (fun p => String.eqb (fst p) key) table with
  | Some p => Own (snd p)
  | None =>
      if existsb (String.eqb key) Object_prototype_names then Inherited else Absent
  end.

(** Truthiness of a slot: own entries (objects, non-empty strings) and
    inherited members are truthy, [undefined] is not. *)
Definition slot_truthy (A : Type) (s : Slot A) : bool :=
  match s with
  | Own _ | Inherited => true
  | Absent => false
  end.

(** [def[type]]. *)
Definition shade (def : MoodColorDefinition) (type : MoodIntensity) : string :=
  match type with
  | Light => light def
  | Medium => medium def
  | Strong => strong def
  end.

(** [MOOD_PALETTE[safeKey][type]]; [None] is [undefined] (an inherited member
    has no shade). An absent slot, where JavaScript would raise, is never
    indexed: [safeKey] is a key with a truthy slot or ["neutral"]. *)
Definition palette_shade (safeKey : string) (type : MoodIntensity) : option string :=
  match table_get MOOD_PALETTE safeKey with
  | Own def => Some (shade def type)
  | Inherited | Absent => None
  end.

Definition safeKey_of (key : string) : string :=
  if slot_truthy (table_get MOOD_PALETTE key) then key else "neutral".

(** [getMoodColor(key, score, type)]; [score] is not used by the source, and
    [type], which defaults to ['medium'], is passed by every caller. *)
Definition getMoodColor (key : string) (score : Z) (type : MoodIntensity) : option string :=
  let safeKey := safeKey_of key in
  palette_shade safeKey type.

Definition getMoodColorByScore (key : string) (score : Z) : option string :=
  let safeKey := safeKey_of key in
  if score >=? 8 then palette_shade safeKey Strong
  else if score >=? 4 then palette_shade safeKey Medium
  else palette_shade safeKey Light.

(* ====================================================================== *)
(** * services/geminiService.ts                                            *)
(* ====================================================================== *)

Definition DEFAULT_KEY : string := "".
Definition OPENAI_BASE_URL : string := "https://api.openai.com/v1".

Definition getApiKey (E : Env) : M string := fun w =>
  (Ok (match openai_api_key w with
       | Some local =>
           if negb (String.eqb local "") && startsWith local "sk-"
           then local
           else str_or (process_env_API_KEY E) DEFAULT_KEY
       | None => str_or (process_env_API_KEY E) DEFAULT_KEY
       end), w).

(** The fixed demo transcription of the mock. *)
Definition demo_transcription : string :=
  "今天天气真不错，心情也很好。虽然工作有点忙，但还是抽出时间去公园散步了。感觉到久违的放松。".

(** Mock data returned on quota errors. *)
Definition getMockAnalysis (text : string) : AnalysisResult :=
  {| r_transcription :=
       JStr (str_or text demo_transcription);
     r_moodEmoji := JStr "🌤️";
     r_moodDescription := JStr "演示模式(需配置Key)";
     r_moodKey := JStr "happy";
     r_moodScore := JNum 8;
     r_tasks := JArr [JStr "Go to Settings"; JStr "Enter OpenAI API Key"] |}.

Definition isQuotaError (error : JsError) : bool :=
  let msg := message error in
  includes msg "quota" || includes msg "429" || includes msg "billing"
  || includes msg "insufficient_quota".

(** [s.split(',')]. *)
Fixpoint split_comma (s : string) : list string :=
  match s with
  | EmptyString => [EmptyString]
  | String c rest =>
      if Ascii.eqb c ","%char then EmptyString :: split_comma rest
      else match split_comma rest with
           | piece :: pieces => String c piece :: pieces
           | [] => [String c EmptyString]
           end
  end.

(** Whether [s] starts with a line terminator, which [.] does not match:
    LF, CR, U+2028 or U+2029. *)
Definition at_line_terminator (s : string) : bool :=
  match s with
  | String c rest =>
      if (Ascii.eqb c (ascii_of_nat 10) || Ascii.eqb c (ascii_of_nat 13))%bool then true
      else match rest with
           | String c1 (String c2 _) =>
               (Ascii.eqb c (ascii_of_nat 226) && Ascii.eqb c1 (ascii_of_nat 128)
                && (Ascii.eqb c2 (ascii_of_nat 168) || Ascii.eqb c2 (ascii_of_nat 169)))%bool
           | _ => false
           end
  | EmptyString => false
  end.

(** [(.*?);] anchored at the start of [s]: the text up to the first [;]. *)
Fixpoint lazy_upto_semicolon (s : string) : option string :=
  match s with
  | EmptyString => None
  | String c rest =>
      if Ascii.eqb c ";"%char then Some EmptyString
      else if at_line_terminator s then None
      else option_map (String c) (lazy_upto_semicolon rest)
  end.

(** [s.match(/:(.*?);/)?.[1]]: the group of the leftmost match, if any. *)
Fixpoint match_mime (s : string) : option string :=
  match s with
  | EmptyString => None
  | String c rest =>
      if Ascii.eqb c ":"%char
      then match lazy_upto_semicolon rest with
           | Some g => Some g
           | None => match_mime rest
           end
      else match_mime rest
  end.

(** A character from U+0020 to U+007E. *)
Definition is_printable (c : ascii) : bool :=
  let n := nat_of_ascii c in ((32 <=? n) && (n <=? 126))%nat.

(** ASCII lower case of one character. *)
Definition to_ascii_lower (c : ascii) : ascii :=
  let n := nat_of_ascii c in
  if ((65 <=? n) && (n <=? 90))%nat then ascii_of_nat (n + 32) else c.

Fixpoint string_map (f : ascii -> ascii) (s : string) : string :=
  match s with
  | EmptyString => EmptyString
  | String c rest => String (f c) (string_map f rest)
  end.

(** The [type] that [new File(bits, name, {type})] keeps: the empty string
    when the given type holds a character outside U+0020 to U+007E, and its
    ASCII lower case otherwise. *)
Definition File_type (type : string) : string :=
  if forallb is_printable (list_ascii_of_string type)
  then string_map to_ascii_lower type
  else "".

(** [new File([u8arr], filename, {type})]. *)
Definition new_File (bits filename type : string) : File :=
  {| file_bits := bits; file_name := filename; file_type := File_type type |}.

(** Convert a data URL to a [File] for the transcription upload.  A missing
    second piece reaches [atob] as the string ["undefined"]. *)
Definition dataURLtoFile (E : Env) (dataurl filename : string) : M File :=
  let arr := split_comma dataurl in
  let mime := match match_mime (nth 0 arr EmptyString) with
              | Some g => str_or g "audio/webm"
              | None => "audio/webm"
              end in
  bstr <- lift (atob E (nth 1 arr "undefined")) ;;
  ret (new_File bstr filename mime).

(** Call the chat-completion endpoint. *)
Definition callGPT (E : Env) (messages : JsVal) (model : string) (jsonMode : bool) : M JsVal :=
  apiKey <- getApiKey E ;;
  if String.eqb apiKey ""
  then throw (Error "API Key missing. Please set it in Settings.")
  else
    let headers := [("Content-Type", "application/json");
                    ("Authorization", "Bearer " ++ apiKey)] in
    let body := JObj ([("model", JStr model); ("messages", messages)]
                      ++ (if jsonMode
                          then [("response_format", JObj [("type", JStr "json_object")])]
                          else []))%list in
    response <- fetch E {| url := OPENAI_BASE_URL ++ "/chat/completions";
                           method := "POST";
                           headers := headers;
                           body := JsonBody body |} ;;
    if negb (fst response)
    then
      err <- lift (snd response) ;;
      error <- lift (get_prop err "error") ;;
      throw (Error (ToString (js_or (get_prop_opt error "message")
                                    (JStr "OpenAI API Error"))))
    else
      data <- lift (snd response) ;;
      choices <- lift (get_prop data "choices") ;;
      choice <- lift (get_index0 choices) ;;
      msg <- lift (get_prop choice "message") ;;
      lift (get_prop msg "content").

(** Call the audio transcription endpoint. *)
Definition callWhisper (E : Env) (audioBase64 : string) : M JsVal :=
  apiKey <- getApiKey E ;;
  if String.eqb apiKey ""
  then throw (Error "API Key missing. Please set it in Settings.")
  else
    file <- dataURLtoFile E audioBase64 "audio.webm" ;;
    response <- fetch E {| url := OPENAI_BASE_URL ++ "/audio/transcriptions";
                           method := "POST";
                           headers := [("Authorization", "Bearer " ++ apiKey)];
                           body := FormData file "whisper-1" |} ;;
    if negb (fst response)
    then
      err <- lift (snd response) ;;
      error <- lift (get_prop err "error") ;;
      throw (Error (ToString (js_or (get_prop_opt error "message")
                                    (JStr "Whisper Transcription Error"))))
    else
      data <- lift (snd response) ;;
      lift (get_prop data "text").

(** [analyzeJournalEntry], step 1: the composed text [finalTranscription].
    A failed transcription appends a note to the text input. *)
Definition finalTranscription_of (E : Env) (audioBase64 : option string)
    (textInput : string) : M JsVal :=
  let finalTranscription := JStr textInput in
  match audioBase64 with
  | Some audio =>
      if String.eqb audio "" then ret finalTranscription
      else
        try_catch
          (audioText <- callWhisper E audio ;;
           if truthy finalTranscription
           then ret (JStr (textInput ++ nl ++ nl ++ "[语音记录]: " ++ ToString audioText))
           else ret audioText)
          (fun err =>
             if isQuotaError err
             then ret (JStr (textInput ++ nl ++ "(语音转文字演示：API额度已耗尽)"))
             else ret (JStr (textInput ++ nl ++ "(语音转文字失败：请检查Key)")))
  | None => ret finalTranscription
  end.

Definition instruction_block : string :=
  "Return a JSON object with the following fields:" ++ nl ++
  "        - moodEmoji: a single emoji representing the mood." ++ nl ++
  "        - moodDescription: a very short, poetic 3-5 word summary in Chinese (e.g. "
    ++ dq ++ "静谧的午后时光" ++ dq ++ ")." ++ nl ++
  "        - moodKey: one of [" ++ dq ++ "happy" ++ dq ++ ", " ++ dq ++ "calm" ++ dq
    ++ ", " ++ dq ++ "neutral" ++ dq ++ ", " ++ dq ++ "sad" ++ dq ++ ", " ++ dq
    ++ "anxious" ++ dq ++ ", " ++ dq ++ "angry" ++ dq ++ ", " ++ dq ++ "tired" ++ dq
    ++ "]." ++ nl ++
  "        - moodScore: integer 1-10." ++ nl ++
  "        - tasks: an array of strings strings (extract actionable items or key takeaways)." ++ nl ++
  "        - transcription: the full cleaned up text of the journal entry in Chinese (merge user text and speech).".

(** Step 2: the multi-part content and the message list. *)
Definition contentPayload_of (finalTranscription : JsVal) (imageUserBase64 : list string) : JsVal :=
  JArr ([JObj [("type", JStr "text");
               ("text", JStr ("Analyze this journal entry. The user text/transcription is: "
                              ++ dq ++ ToString finalTranscription ++ dq ++ "."))]]
        ++ map (fun img => JObj [("type", JStr "image_url");
                                 ("image_url", JObj [("url", JStr img)])])
               imageUserBase64
        ++ [JObj [("type", JStr "text"); ("text", JStr instruction_block)]])%list.

Definition messages_of (contentPayload : JsVal) : JsVal :=
  JArr [JObj [("role", JStr "system");
              ("content", JStr "You are a helpful AI assistant that outputs raw JSON.")];
        JObj [("role", JStr "user"); ("content", contentPayload)]].

(** Step 3: the result built from the parsed response, every field defaulted
    with [||]. *)
Definition result_of_parsed (parsed finalTranscription : JsVal) : M AnalysisResult :=
  p_transcription <- lift (get_prop parsed "transcription") ;;
  p_moodEmoji <- lift (get_prop parsed "moodEmoji") ;;
  p_moodDescription <- lift (get_prop parsed "moodDescription") ;;
  p_moodKey <- lift (get_prop parsed "moodKey") ;;
  p_moodScore <- lift (get_prop parsed "moodScore") ;;
  p_tasks <- lift (get_prop parsed "tasks") ;;
  ret {| r_transcription := js_or p_transcription finalTranscription;
         r_moodEmoji := js_or p_moodEmoji (JStr "📝");
         r_moodDescription := js_or p_moodDescription (JStr "记录中");
         r_moodKey := js_or p_moodKey (JStr "neutral");
         r_moodScore := js_or p_moodScore (JNum 5);
         r_tasks := js_or p_tasks (JArr []) |}.

(** The generic fallback of the [catch] block. *)
Definition generic_fallback (textInput : string) : AnalysisResult :=
  {| r_transcription := JStr (str_or textInput "[分析未完成]");
     r_moodEmoji := JStr "⚙️";
     r_moodDescription := JStr "请配置Key";
     r_moodKey := JStr "neutral";
     r_moodScore := JNum 5;
     r_tasks := JArr [] |}.

Definition analyzeJournalEntry (E : Env) (audioBase64 : option string)
    (textInput : string) (imageUserBase64 : list string)
    (audioMimeType : string) : M AnalysisResult :=
  try_catch
    (finalTranscription <- finalTranscription_of E audioBase64 textInput ;;
     let contentPayload := contentPayload_of finalTranscription imageUserBase64 in
     let messages := messages_of contentPayload in
     jsonStr <- callGPT E messages "gpt-4o" true ;;
     parsed <- lift (JSON_parse E (ToString jsonStr)) ;;
     result_of_parsed parsed finalTranscription)
    (fun error =>
       if isQuotaError error
       then ret (getMockAnalysis textInput)
       else ret (generic_fallback textInput)).

(* ====================================================================== *)
(** * components/CalendarView.tsx                                          *)
(* ====================================================================== *)

(** Safely get tasks, converting legacy string arrays. *)
Definition getTasksForEntry (entry : JournalEntry) : list JsVal :=
  match tasks entry with
  | None => []
  | Some ts =>
      if (0 <? length ts)%nat && is_string (nth 0 ts JUndefined)
      then mapi (fun t i =>
                   TaskItem ("legacy-" ++ date entry ++ "-" ++ index_toString i) t false)
                ts
      else ts
  end.

(* ====================================================================== *)
(** * components/RecordView.tsx                                            *)
(* ====================================================================== *)

(** [xs.map((t, i) => ...)] with an effectful callback, run left to right. *)
Fixpoint mapiM_from (A B : Type) (f : A -> nat -> M B) (i : nat) (xs : list A) : M (list B) :=
  match xs with
  | [] => ret []
  | x :: rest =>
      y <- f x i ;;
      ys <- mapiM_from f (S i) rest ;;
      ret (y :: ys)
  end.

Definition mapiM (A B : Type) (f : A -> nat -> M B) (xs : list A) : M (list B) :=
  mapiM_from f 0 xs.

(** Normalization helper for tasks. *)
Definition normalizeTasks (E : Env) (tasks : option (list JsVal)) : M (list JsVal) :=
  match tasks with
  | None => ret []
  | Some ts =>
      if (length ts =? 0)%nat then ret []
      else if is_string (nth 0 ts JUndefined)
      then mapiM (fun t i =>
                    now <- Date_now E ;;
                    ret (TaskItem ("legacy-" ++ Number_toString now ++ "-" ++ index_toString i)
                                  t false))
                 ts
      else ret ts
  end.

(** The component's mood state. *)
Record MoodData : Type := {
  emoji : JsVal;
  desc : JsVal;
  key : JsVal;
  score : JsVal;
  md_tasks : list JsVal
}.

(** [v.map(f)] on a run-time value: only arrays have [map]. *)
Definition js_map (v : JsVal) (f : JsVal -> nat -> M JsVal) : M (list JsVal) :=
  match v with
  | JArr xs => mapiM f xs
  | JUndefined | JNull => throw (TypeError_reading v "map")
  | _ => throw (Error "analysis.tasks.map is not a function")
  end.

(** [handleAnalyze], after the analysis has returned: the new tasks. *)
Definition aiTasks (E : Env) (analysis : AnalysisResult) : M (list JsVal) :=
  js_map (r_tasks analysis)
         (fun t i =>
            now <- Date_now E ;;
            ret (TaskItem ("ai-" ++ Number_toString now ++ "-" ++ index_toString i) t false)).

(** [moodData?.tasks || []]. *)
Definition prevTasks (moodData : option MoodData) : list JsVal :=
  match moodData with
  | Some md => md_tasks md
  | None => []
  end.

Definition mergedTasks (E : Env) (moodData : option MoodData)
    (analysis : AnalysisResult) : M (list JsVal) :=
  ai <- aiTasks E analysis ;;
  ret (prevTasks moodData ++ ai)%list.

(** The [setMoodData] call that ends the merge. *)
Definition handleAnalyze_moodData (E : Env) (moodData : option MoodData)
    (analysis : AnalysisResult) : M MoodData :=
  merged <- mergedTasks E moodData analysis ;;
  ret {| emoji := js_or (r_moodEmoji analysis) (JStr "📝");
         desc := js_or (r_moodDescription analysis) (JStr "");
         key := js_or (r_moodKey analysis) (JStr "neutral");
         score := js_or (r_moodScore analysis) (JNum 5);
         md_tasks := merged |}.

(** The interface language, [lang: 'en' | 'zh']. *)
Inductive Lang : Type := en | zh.

(** [MOOD_LABELS[key] || key].  [None] stands for the text of an inherited
    built-in, which the table lookup yields for the names of
    [Object_prototype_names]. *)
Definition label_or_key (key : string) : option string :=
  match table_get MOOD_LABELS key with
  | Own label => Some (str_or label key)
  | Inherited => None
  | Absent => Some key
  end.

(** The bilingual mood label of the record view. *)
Definition moodLabel (lang : Lang) (key : string) (score : Z) : option string :=
  match lang with
  | en => Some (key ++ " · INTENSITY " ++ Number_toString score)
  | zh => option_map (fun l => l ++ " · 强度 " ++ Number_toString score)
                     (label_or_key key)
  end.

(* ====================================================================== *)
(** * Observations and sample data used in the statements                  *)
(* ====================================================================== *)

(** What [getEntries()] returns in a world. *)
Definition stored_entries (w : World) : list JournalEntry :=
  match fst (getEntries w) with
  | Ok l => l
  | Throw _ => []
  end.

(** The entries stored for a date, in storage order. *)
Definition entries_for (d : string) (w : World) : list JournalEntry :=
  filter (fun e => String.eqb (date e) d) (stored_entries w).

(** The fixed enumeration of mood keys. *)
Definition mood_keys : list string := map fst MOOD_PALETTE.

(** [{ ...entry, tasks: ts }]. *)
Definition with_tasks (entry : JournalEntry) (ts : list JsVal) : JournalEntry :=
  {| id := id entry; date := date entry; audioBase64 := audioBase64 entry;
     images := images entry; transcription := transcription entry;
     moodEmoji := moodEmoji entry; moodDescription := moodDescription entry;
     moodKey := moodKey entry; moodScore := moodScore entry;
     tasks := Some ts; createdAt := createdAt entry |}.

(** The world after [n] more [Date.now()] readings. *)
Definition tick_by (n : nat) (w : World) : World :=
  {| soullog_entries_v1 := soullog_entries_v1 w;
     openai_api_key := openai_api_key w;
     requests := requests w;
     ticks := (n + ticks w)%nat;
     alerts := alerts w |}.

(** The items a time-stamping [map] callback produces: element [j] of [xs]
    (counting from index [i]) is built from reading number [k + j]. *)
Fixpoint stamped (A B : Type) (E : Env) (g : Z -> A -> nat -> B)
    (k i : nat) (xs : list A) : list B :=
  match xs with
  | [] => []
  | x :: rest => g (Date_now_at E k) x i :: stamped E g (S k) (S i) rest
  end.

(** A fresh browser profile: nothing stored, nothing requested. *)
Definition fresh_world : World :=
  {| soullog_entries_v1 := None; openai_api_key := None;
     requests := []; ticks := 0; alerts := [] |}.

(** The same profile after the user saved a key in the settings dialog. *)
Definition keyed_world : World :=
  {| soullog_entries_v1 := None; openai_api_key := Some "sk-test";
     requests := []; ticks := 0; alerts := [] |}.

(** A profile whose stored key lacks the provider prefix. *)
Definition malformed_key_world : World :=
  {| soullog_entries_v1 := None; openai_api_key := Some "my-key";
     requests := []; ticks := 0; alerts := [] |}.

Definition SyntaxError : JsError := Error "Unexpected end of JSON input".

(** Surroundings in which the network is unreachable, the clock reads
    1704412800000 ms and advances by one per reading, and storage has room. *)
Definition offline_env : Env :=
  {| process_env_API_KEY := "";
     Date_now_at := fun k => 1704412800000 + Z.of_nat k;
     network := fun _ _ => FetchRejects (Error "Failed to fetch");
     JSON_parse := fun _ => Throw SyntaxError;
     atob := fun _ => Throw (Error "InvalidCharacterError");
     setItem_accepts := fun _ => true |}.

(** The same surroundings with no room left in storage. *)
Definition full_storage_env : Env :=
  {| process_env_API_KEY := "";
     Date_now_at := fun k => 1704412800000 + Z.of_nat k;
     network := fun _ _ => FetchRejects (Error "Failed to fetch");
     JSON_parse := fun _ => Throw SyntaxError;
     atob := fun _ => Throw (Error "InvalidCharacterError");
     setItem_accepts := fun _ => false |}.

(** The same surroundings with a storage that has room for twenty
    characters of journal text. *)
Definition small_quota_env : Env :=
  {| process_env_API_KEY := "";
     Date_now_at := fun k => 1704412800000 + Z.of_nat k;
     network := fun _ _ => FetchRejects (Error "Failed to fetch");
     JSON_parse := fun _ => Throw SyntaxError;
     atob := fun _ => Throw (Error "InvalidCharacterError");
     setItem_accepts := fun l =>
       (list_sum (map (fun e => String.length (transcription e)) l) <=? 20)%nat |}.

(** The provider's error envelope for an exhausted quota. *)
Definition quota_envelope : JsVal :=
  JObj [("error",
         JObj [("message", JStr "You exceeded your current quota (insufficient_quota).");
               ("type", JStr "insufficient_quota")])].

(** A chat-completion response whose message content is [content]. *)
Definition completion_envelope (content : string) : JsVal :=
  JObj [("choices", JArr [JObj [("message", JObj [("role", JStr "assistant");
                                                   ("content", JStr content)])]])].

(** Surroundings in which every provider call is refused for quota. *)
Definition quota_env : Env :=
  {| process_env_API_KEY := "";
     Date_now_at := fun k => 1704412800000 + Z.of_nat k;
     network := fun _ _ => FetchResolves false (Ok quota_envelope);
     JSON_parse := fun _ => Throw SyntaxError;
     atob := fun s => Ok s;
     setItem_accepts := fun _ => true |}.




Definition sample_entry (d text : string) (ts : option (list JsVal)) : JournalEntry :=
  {| id := "1704412800000"; date := d; audioBase64 := None; images := [];
     transcription := text; moodEmoji := "📝"; moodDescription := "未分析";
     moodKey := "neutral"; moodScore := 5; tasks := ts;
     createdAt := 1704412800000 |}.

(** Sample entries and task lists. *)
Definition entry_jan4 : JournalEntry := sample_entry "2024-01-04" "yesterday" None.
Definition draft1_jan5 : JournalEntry := sample_entry "2024-01-05" "first draft" None.
Definition draft2_jan5 : JournalEntry := sample_entry "2024-01-05" "second draft" None.

Definition legacy_jan5 : JournalEntry :=
  sample_entry "2024-01-05" "" (Some [JStr "buy milk"; JStr "call mom"]).

Definition structured_items : list JsVal :=
  [ TaskItem "ai-1704412800000-0" (JStr "buy milk") true;
    TaskItem "manual-1704412800005" (JStr "call mom") false ].

Definition structured_jan5 : JournalEntry :=
  sample_entry "2024-01-05" "" (Some structured_items).

(** A store holding an entry for each of two days. *)
Definition two_day_world : World :=
  snd (saveEntry offline_env draft1_jan5 (snd (saveEntry offline_env entry_jan4 fresh_world))).

(** A mood state with two tasks, one of them added by hand. *)
Definition sample_moodData : MoodData :=
  {| emoji := JStr "📝"; desc := JStr ""; key := JStr "neutral"; score := JNum 5;
     md_tasks := [ TaskItem "manual-1704412700000" (JStr "Go to Settings") true;
                   TaskItem "ai-1704412600000-0" (JStr "buy milk") false ] |}.

(** The error raised for the envelope [quota_envelope]. *)
Definition quota_error : JsError :=
  Error "You exceeded your current quota (insufficient_quota).".

Definition sample_audio : string := "data:audio/webm;base64,AAAA".



(* ====================================================================== *)
(** * services/geminiService.ts: the chat helpers                          *)
(* ====================================================================== *)

(** One turn of the chat, [{role, text}]. *)
Record ChatTurn : Type := { role : string; text : string }.

Definition summarizeChatSession (E : Env) (chatHistory : list ChatTurn) : M JsVal :=
  try_catch
    (let transcript :=
       join nl (map (fun m => (if String.eqb (role m) "user" then "Me" else "AI")
                              ++ ": " ++ text m)
                    chatHistory) in
     let messages :=
       JArr [JObj [("role", JStr "system");
                   ("content", JStr "You are an expert writer. Rewrite the following conversation into a cohesive, natural, first-person journal entry in Chinese. Keep it within 300 words.")];
             JObj [("role", JStr "user"); ("content", JStr transcript)]] in
     reply <- callGPT E messages "gpt-4o" false ;;
     ret (js_or reply (JStr "")))
    (fun e =>
       if isQuotaError e
       then ret (JStr "【演示摘要】今天和AI聊得很开心，虽然API额度用完了，但我体验了整个流程。")
       else ret (JStr "无法生成摘要，请稍后再试。")).

Definition getChatReply (E : Env) (history : list ChatTurn) (lastMessage : string) : M JsVal :=
  try_catch
    (let gptHistory :=
       map (fun h => JObj [("role", JStr (if String.eqb (role h) "model"
                                          then "assistant" else "user"));
                           ("content", JStr (text h))])
           history in
     let messages :=
       JArr ([JObj [("role", JStr "system");
                    ("content", JStr "You are an empathetic, soft-spoken journaling companion. Ask ONE simple, open-ended follow-up question in Chinese. Be brief and warm.")]]
             ++ gptHistory
             ++ [JObj [("role", JStr "user"); ("content", JStr lastMessage)]])%list in
     callGPT E messages "gpt-4o" false)
    (fun e =>
       if isQuotaError e
       then ret (JStr "（模拟回复）看来你今天过得很充实呢！能多跟我说说那个细节吗？[API额度已耗尽，这是自动回复]")
       else ret (JStr "（AI 连接中断，请检查网络或配置Key）")).

(* ====================================================================== *)
(** * components/CalendarView.tsx: settings and task editing               *)
(* ====================================================================== *)

(** The state of the settings dialog. *)
Record SettingsState : Type := {
  apiKeyInput : string;
  hasKey : bool;
  showSettings : bool
}.

(** [localStorage.setItem("openai_api_key", k)]; [room k] tells whether the
    storage accepts the write, which raises otherwise. *)
Definition setItem_api_key (room : string -> bool) (k : string) : M unit := fun w =>
  if room k
  then (Ok tt, {| soullog_entries_v1 := soullog_entries_v1 w;
                  openai_api_key := Some k;
                  requests := requests w;
                  ticks := ticks w;
                  alerts := alerts w |})
  else (Throw (Error "QuotaExceededError"), w).

(** [localStorage.removeItem("openai_api_key")]. *)
Definition removeItem_api_key : M unit := fun w =>
  (Ok tt, {| soullog_entries_v1 := soullog_entries_v1 w;
             openai_api_key := None;
             requests := requests w;
             ticks := ticks w;
             alerts := alerts w |}).

(** The check made when the calendar mounts: whether a stored key with the
    prefix exists. *)
Definition stored_key_present (w : World) : bool :=
  match openai_api_key w with
  | Some stored => negb (String.eqb stored "") && startsWith stored "sk-"
  | None => false
  end.

Definition saveApiKey (room : string -> bool) (st : SettingsState) : M SettingsState :=
  if startsWith (apiKeyInput st) "sk-"
  then
    _ <- setItem_api_key room (apiKeyInput st) ;;
    _ <- alert "API Key Saved!" ;;
    ret {| apiKeyInput := apiKeyInput st; hasKey := true; showSettings := false |}
  else
    _ <- alert "Invalid API Key format (must start with sk-)" ;;
    ret st.

Definition clearApiKey (st : SettingsState) : M SettingsState :=
  _ <- removeItem_api_key ;;
  _ <- alert "API Key Removed. Using default/demo mode." ;;
  ret {| apiKeyInput := ""; hasKey := false; showSettings := showSettings st |}.

(** [entryMap.get(d)] for the map filled by [entries.forEach(e =>
    map.set(e.date, e))]: the last entry of that date. *)
Definition entryMap_get (entries : list JournalEntry) (d : string) : option JournalEntry :=
  fold_left (fun found e => if String.eqb (date e) d then Some e else found)
            entries None.

(** Today's tasks. *)
Definition todayTasks (entries : list JournalEntry) (todayStr : string) : list JsVal :=
  match entryMap_get entries todayStr with
  | None => []
  | Some entry => getTasksForEntry entry
  end.

(** [t.id === id] for a string [id]: reading [id] from [null] or
    [undefined] raises; only an object can hold a matching id. *)
Definition id_is (t : JsVal) (id : string) : Exc bool :=
  match t with
  | JUndefined | JNull => Throw (TypeError_reading t "id")
  | JObj fields =>
      Ok (match own_property fields "id" with
          | JStr s => String.eqb s id
          | _ => false
          end)
  | _ => Ok false
  end.

(** [{ ...obj, k: v }] on the properties of an object: the value of [k] is
    replaced where it stands, or added at the end. *)
Fixpoint set_prop (fields : list (string * JsVal)) (k : string) (v : JsVal)
    : list (string * JsVal) :=
  match fields with
  | [] => [(k, v)]
  | (k', v') :: rest =>
      if String.eqb k' k then (k, v) :: rest else (k', v') :: set_prop rest k v
  end.

(** [{ ...t, k: v }] for an element [t] whose id matched (an object). *)
Definition spread_with (t : JsVal) (k : string) (v : JsVal) : JsVal :=
  match t with
  | JObj fields => JObj (set_prop fields k v)
  | _ => JObj [(k, v)]
  end.

(** [!t.completed] for an element whose id matched. *)
Definition not_completed (t : JsVal) : JsVal :=
  JBool (negb (truthy (get_prop_opt t "completed"))).

(** [xs.map(f)] and [xs.filter(p)] with a callback that may raise. *)
Fixpoint map_exc (A B : Type) (f : A -> Exc B) (xs : list A) : Exc (list B) :=
  match xs with
  | [] => Ok []
  | x :: rest =>
      match f x with
      | Throw e => Throw e
      | Ok y => match map_exc f rest with
                | Throw e => Throw e
                | Ok ys => Ok (y :: ys)
                end
      end
  end.

Fixpoint filter_exc (A : Type) (p : A -> Exc bool) (xs : list A) : Exc (list A) :=
  match xs with
  | [] => Ok []
  | x :: rest =>
      match p x with
      | Throw e => Throw e
      | Ok b => match filter_exc p rest with
                | Throw e => Throw e
                | Ok ys => Ok (if b then x :: ys else ys)
                end
      end
  end.

(** [tasks.filter(t => t.id !== id)]. *)
Definition tasks_without (id : string) (ts : list JsVal) : Exc (list JsVal) :=
  filter_exc (fun t => match id_is t id with
                       | Ok b => Ok (negb b)
                       | Throw e => Throw e
                       end) ts.


(** [tasks.map(t => t.id === id ? { ...t, completed: !t.completed } : t)]. *)
Definition tasks_toggled (id : string) (ts : list JsVal) : Exc (list JsVal) :=
  map_exc (fun t => match id_is t id with
                    | Ok true => Ok (spread_with t "completed" (not_completed t))
                    | Ok false => Ok t
                    | Throw e => Throw e
                    end) ts.



(* ====================================================================== *)
(** * components/RecordView.tsx: task management and the analyze handler   *)
(* ====================================================================== *)

(** [{ ...moodData, tasks: ts }]. *)
Definition with_md_tasks (md : MoodData) (ts : list JsVal) : MoodData :=
  {| emoji := emoji md; desc := desc md; key := key md; score := score md;
     md_tasks := ts |}.

(** [toggleTask(id)]: the new mood state; nothing changes without one. *)
Definition toggleTask (moodData : option MoodData) (id : string) : Exc (option MoodData) :=
  match moodData with
  | None => Ok None
  | Some md =>
      match tasks_toggled id (md_tasks md) with
      | Ok ts => Ok (Some (with_md_tasks md ts))
      | Throw e => Throw e
      end
  end.

Definition deleteTask (moodData : option MoodData) (id : string) : Exc (option MoodData) :=
  match moodData with
  | None => Ok None
  | Some md =>
      match tasks_without id (md_tasks md) with
      | Ok ts => Ok (Some (with_md_tasks md ts))
      | Throw e => Throw e
      end
  end.

(** Whether [s] starts with a white space or line terminator character, and
    what follows it: TAB, LF, VT, FF, CR, SP, U+00A0, U+1680, U+2000 to
    U+200A, U+2028, U+2029, U+202F, U+205F, U+3000, U+FEFF. *)
Definition after_white_space (s : string) : option string :=
  match s with
  | EmptyString => None
  | String c rest =>
      let n := nat_of_ascii c in
      if ((9 <=? n) && (n <=? 13) || (n =? 32))%nat%bool then Some rest
      else
        match rest with
        | EmptyString => None
        | String c1 rest1 =>
            let n1 := nat_of_ascii c1 in
            if ((n =? 194) && (n1 =? 160))%nat%bool then Some rest1
            else
              match rest1 with
              | EmptyString => None
              | String c2 rest2 =>
                  let n2 := nat_of_ascii c2 in
                  if ((n =? 225) && (n1 =? 154) && (n2 =? 128)
                      || (n =? 226) && (n1 =? 128)
                         && ((128 <=? n2) && (n2 <=? 138) || (n2 =? 168)
                             || (n2 =? 169) || (n2 =? 175))
                      || (n =? 226) && (n1 =? 129) && (n2 =? 159)
                      || (n =? 227) && (n1 =? 128) && (n2 =? 128)
                      || (n =? 239) && (n1 =? 187) && (n2 =? 191))%nat%bool
                  then Some rest2
                  else None
              end
        end
  end.

(** [!s.trim()]: [s] holds white space only.  The fuel is the length of [s],
    which every step shortens. *)
Fixpoint white_space_only (fuel : nat) (s : string) : bool :=
  match s with
  | EmptyString => true
  | _ =>
      match fuel with
      | O => false
      | S fuel' =>
          match after_white_space s with
          | Some rest => white_space_only fuel' rest
          | None => false
          end
      end
  end.

Definition trim_is_empty (s : string) : bool := white_space_only (String.length s) s.



(** [s.padStart(n, '0')]. *)
Fixpoint zeros (n : nat) : string :=
  match n with
  | O => EmptyString
  | S n' => String "0" (zeros n')
  end.

Definition padStart0 (s : string) (n : nat) : string :=
  zeros (n - String.length s) ++ s.

(** [formatDuration(sec)]: [Math.floor(sec / 60)] and [sec % 60]. *)
Definition formatDuration (sec : Z) : string :=
  let m := sec / 60 in
  let s := Z.rem sec 60 in
  Number_toString m ++ ":" ++ padStart0 (Number_toString s) 2.

(** What the analyze handler works on.  A recorded [Blob] is given by what
    reading it yields: its data URL, or a failed read. *)
Record AnalyzeInput : Type := {
  audioBlob : option (Exc string);
  audioUrl : option string;
  audioMimeType : string;
  textInput : string;
  in_images : list string;
  in_moodData : option MoodData;
  existingEntry : option JournalEntry
}.

(** The state the handler leaves: [None] is a state variable it did not
    set. *)
Record AnalyzeOutcome : Type := {
  set_textInput : option JsVal;
  set_moodData : option MoodData;
  isAnalyzing : bool
}.

(** The audio handed to the analysis: the fresh recording, or the stored
    audio of the entry when it is still the one being played. *)
Definition audio_for_analysis (st : AnalyzeInput) : M (option string) :=
  match audioBlob st with
  | Some blob => data <- lift blob ;; ret (Some data)
  | None =>
      match existingEntry st with
      | Some entry =>
          match audioBase64 entry, audioUrl st with
          | Some stored, Some playing =>
              if negb (String.eqb stored "") && String.eqb playing stored
              then ret (Some stored) else ret None
          | _, _ => ret None
          end
      | None => ret None
      end
  end.

Definition handleAnalyze (E : Env) (st : AnalyzeInput) : M (option AnalyzeOutcome) :=
  if match audioBlob st with None => true | Some _ => false end
     && String.eqb (textInput st) ""
     && (length (in_images st) =? 0)%nat
  then ret None
  else fun w =>
    let run := audioBase64 <- audio_for_analysis st ;;
               analyzeJournalEntry E audioBase64 (textInput st) (in_images st)
                                   (audioMimeType st) in
    match run w with
    | (Throw _, w1) =>
        match alert "AI 分析出错" w1 with
        | (_, w2) => (Ok (Some {| set_textInput := None; set_moodData := None;
                                  isAnalyzing := false |}), w2)
        end
    | (Ok analysis, w1) =>
        let new_text := js_or (r_transcription analysis) (JStr "") in
        match handleAnalyze_moodData E (in_moodData st) analysis w1 with
        | (Ok md, w2) =>
            (Ok (Some {| set_textInput := Some new_text; set_moodData := Some md;
                         isAnalyzing := false |}), w2)
        | (Throw _, w2) =>
            match alert "AI 分析出错" w2 with
            | (_, w3) => (Ok (Some {| set_textInput := Some new_text;
                                      set_moodData := None;
                                      isAnalyzing := false |}), w3)
            end
        end
    end.

(* ====================================================================== *)
(** * utils.ts: colours and dates                                          *)
(* ====================================================================== *)

(** The value of a hexadecimal digit. *)
Definition hex_digit (c : ascii) : option Z :=
  let n := nat_of_ascii c in
  if ((48 <=? n) && (n <=? 57))%nat then Some (Z.of_nat (n - 48))
  else if ((65 <=? n) && (n <=? 70))%nat then Some (Z.of_nat (n - 55))
  else if ((97 <=? n) && (n <=? 102))%nat then Some (Z.of_nat (n - 87))
  else None.

Definition is_hex_digit (c : ascii) : bool :=
  match hex_digit c with Some _ => true | None => false end.

(** [/^#([A-Fa-f0-9]{3}){1,2}$/.test(hex)]. *)
Definition test_hex_color (hex : string) : bool :=
  match hex with
  | String c rest =>
      Ascii.eqb c "#"%char
      && ((String.length rest =? 3)%nat || (String.length rest =? 6)%nat)
      && forallb is_hex_digit (list_ascii_of_string rest)
  | EmptyString => false
  end.

(** The number denoted by ['0x' + c.join('')]. *)
Definition hex_number (digits : list ascii) : Z :=
  fold_left (fun acc c => acc * 16 + match hex_digit c with
                                     | Some v => v
                                     | None => 0
                                     end)
            digits 0.

(** [hexToRgba(hex, alpha)]; [alpha] enters through its text only, given
    here as [alpha_text]. *)
Definition hexToRgba (hex : string) (alpha_text : string) : string :=
  if test_hex_color hex
  then
    let c := list_ascii_of_string (String.substring 1 (String.length hex - 1) hex) in
    let c := match c with
             | [c0; c1; c2] => [c0; c0; c1; c1; c2; c2]
             | _ => c
             end in
    let n := hex_number c in
    "rgba(" ++ join "," [ Number_toString (Z.land (Z.shiftr n 16) 255);
                          Number_toString (Z.land (Z.shiftr n 8) 255);
                          Number_toString (Z.land n 255) ]
            ++ "," ++ alpha_text ++ ")"
  else hex.

(** A [Date] by its local calendar fields: full year, month (0 to 11) and
    day of the month, as [getFullYear], [getMonth] and [getDate] read
    them. *)
Record JsDate : Type := { FullYear : Z; Month : Z; DayOfMonth : Z }.

Definition is_leap_year (y : Z) : bool :=
  ((y mod 4 =? 0) && negb (y mod 100 =? 0)) || (y mod 400 =? 0).

Definition days_in_month (y m : Z) : Z :=
  if m =? 1 then (if is_leap_year y then 29 else 28)
  else if (m =? 3) || (m =? 5) || (m =? 8) || (m =? 10) then 30
  else 31.

(** The day after [d] in the calendar. *)
Definition calendar_next (d : JsDate) : JsDate :=
  if DayOfMonth d + 1 <=? days_in_month (FullYear d) (Month d)
  then {| FullYear := FullYear d; Month := Month d; DayOfMonth := DayOfMonth d + 1 |}
  else if Month d =? 11
       then {| FullYear := FullYear d + 1; Month := 0; DayOfMonth := 1 |}
       else {| FullYear := FullYear d; Month := Month d + 1; DayOfMonth := 1 |}.

(** The time zone of the browser, as far as calendar days go: the days its
    local time lacks.  A zone that moved east to west across the date line
    lost one day (Pacific/Apia has no 2011-12-30); a shift of the clock by
    an hour loses none. *)
Definition TimeZone : Type := JsDate -> bool.

(** The local date of a [Date] set to the calendar day [d].  A time that
    the zone lacks is read with the offset before the gap, which lands
    behind the gap: on the next day. *)
Definition local_date (zone : TimeZone) (d : JsDate) : JsDate :=
  if zone d then calendar_next d else d.

(** [new Date(year, month, 1)], in local time: a year from 0 to 99 means
    1900 + year, and a month outside 0 to 11 carries into the year.  The
    model covers the dates that are time values, which every day of the
    years -271820 to 275759 is; [new Date] gives an invalid date beyond
    them. *)
Definition new_Date_first (zone : TimeZone) (year month : Z) : JsDate :=
  let yr := if (0 <=? year) && (year <=? 99) then 1900 + year else year in
  local_date zone {| FullYear := yr + month / 12; Month := month mod 12; DayOfMonth := 1 |}.

(** [date.setDate(date.getDate() + 1)], in local time. *)
Definition next_day (zone : TimeZone) (d : JsDate) : JsDate :=
  local_date zone (calendar_next d).

Definition formatDate (d : JsDate) : string :=
  let y := FullYear d in
  let m := padStart0 (Number_toString (Month d + 1)) 2 in
  let dd := padStart0 (Number_toString (DayOfMonth d)) 2 in
  Number_toString y ++ "-" ++ m ++ "-" ++ dd.

(** The loop of [getMonthDays]; [None] when the fuel runs out before the
    loop condition fails. *)
Fixpoint getMonthDays_loop (zone : TimeZone) (fuel : nat) (month : Z) (d : JsDate)
    (days : list JsDate) : option (list JsDate) :=
  if Month d =? month
  then match fuel with
       | O => None
       | S fuel' =>
           getMonthDays_loop zone fuel' month (next_day zone d) (days ++ [d])%list
       end
  else Some days.

Definition getMonthDays (zone : TimeZone) (year month : Z) : option (list JsDate) :=
  getMonthDays_loop zone 32 month (new_Date_first zone year month) [].

(* ====================================================================== *)
(** * Further observations                                                 *)
(* ====================================================================== *)

(** The world after the requests [extra] have been logged, nothing else
    having changed. *)
Definition log_requests (extra : list Request) (w : World) : World :=
  {| soullog_entries_v1 := soullog_entries_v1 w;
     openai_api_key := openai_api_key w;
     requests := (requests w ++ extra)%list;
     ticks := ticks w;
     alerts := alerts w |}.

(** The credential [getApiKey()] yields in a world. *)
Definition api_key_of (E : Env) (w : World) : string :=
  match fst (getApiKey E w) with
  | Ok k => k
  | Throw _ => ""
  end.

(** The chat-completion request [callGPT] sends. *)
Definition chat_request (apiKey : string) (messages : JsVal) (model : string)
    (jsonMode : bool) : Request :=
  {| url := OPENAI_BASE_URL ++ "/chat/completions";
     method := "POST";
     headers := [("Content-Type", "application/json");
                 ("Authorization", "Bearer " ++ apiKey)];
     body := JsonBody
               (JObj ([("model", JStr model); ("messages", messages)]
                      ++ (if jsonMode
                          then [("response_format", JObj [("type", JStr "json_object")])]
                          else []))%list) |}.

(** The messages [getChatReply] sends. *)
Definition reply_messages (history : list ChatTurn) (lastMessage : string) : JsVal :=
  JArr ([JObj [("role", JStr "system");
               ("content", JStr "You are an empathetic, soft-spoken journaling companion. Ask ONE simple, open-ended follow-up question in Chinese. Be brief and warm.")]]
        ++ map (fun h => JObj [("role", JStr (if String.eqb (role h) "model"
                                              then "assistant" else "user"));
                               ("content", JStr (text h))])
               history
        ++ [JObj [("role", JStr "user"); ("content", JStr lastMessage)]])%list.

(** The messages [summarizeChatSession] sends. *)
Definition summary_messages (chatHistory : list ChatTurn) : JsVal :=
  JArr [JObj [("role", JStr "system");
              ("content", JStr "You are an expert writer. Rewrite the following conversation into a cohesive, natural, first-person journal entry in Chinese. Keep it within 300 words.")];
        JObj [("role", JStr "user");
              ("content",
               JStr (join nl (map (fun m => (if String.eqb (role m) "user"
                                             then "Me" else "AI")
                                            ++ ": " ++ text m)
                                  chatHistory)))]].

(** A well-formed task: the object [{ id, text, completed }] with a string
    id and a boolean flag. *)
Definition is_task_item (t : JsVal) : Prop :=
  exists i x c, t = TaskItem i x c.

(** The id of a task, [undefined] for a value without one. *)
Definition task_id (t : JsVal) : JsVal := get_prop_opt t "id".

(** Whether a task carries the string id [id]. *)
Definition has_id (id : string) (t : JsVal) : bool :=
  match task_id t with
  | JStr s => String.eqb s id
  | _ => false
  end.

(** The task with its flag negated when it carries [id], the task itself
    otherwise. *)
Definition flipped_if (id : string) (t : JsVal) : JsVal :=
  if has_id id t then spread_with t "completed" (not_completed t) else t.





(** The collection [saveEntry(entry)] hands to [setItem]. *)
Definition saveEntry_write (entry : JournalEntry) (w : World) : list JournalEntry :=
  (filter (fun e => negb (String.eqb (date e) (date entry))) (stored_entries w)
     ++ [entry])%list.

(** The collection [deleteEntry(d)] hands to [setItem]. *)
Definition deleteEntry_write (d : string) (w : World) : list JournalEntry :=
  filter (fun e => negb (String.eqb (date e) d)) (stored_entries w).


(** A text without the separator [-]. *)
Definition no_dash (s : string) : bool :=
  forallb (fun c => negb (Ascii.eqb c "-"%char)) (list_ascii_of_string s).

(** The text [rgba(r,g,b,alpha)]. *)
Definition rgba_text (r g b : Z) (alpha_text : string) : string :=
  "rgba(" ++ join "," [Number_toString r; Number_toString g; Number_toString b]
          ++ "," ++ alpha_text ++ ")".

(** A colour text of six digits, and its three-digit shorthand. *)
Definition hex6 (c1 c2 c3 c4 c5 c6 : ascii) : string :=
  String "#" (String c1 (String c2 (String c3 (String c4 (String c5 (String c6 EmptyString)))))).

Definition hex3 (c1 c2 c3 : ascii) : string :=
  String "#" (String c1 (String c2 (String c3 EmptyString))).

(** The days [k], [k + 1], ... ([n] of them) of a month. *)
Fixpoint days_from (y m k : Z) (n : nat) : list JsDate :=
  match n with
  | O => []
  | S n' => {| FullYear := y; Month := m; DayOfMonth := k |} :: days_from y m (k + 1) n'
  end.

Definition same_day (a b : JsDate) : bool :=
  (FullYear a =? FullYear b) && (Month a =? Month b) && (DayOfMonth a =? DayOfMonth b).

(** A zone that has every day. *)
Definition every_day : TimeZone := fun _ => false.

(** Pacific/Apia, which went from 2011-12-29 to 2011-12-31. *)
Definition Pacific_Apia : TimeZone :=
  fun d => same_day d {| FullYear := 2011; Month := 11; DayOfMonth := 30 |}.

(** The days of a month that the zone has, in order. *)
Definition local_days (zone : TimeZone) (y m : Z) : list JsDate :=
  filter (fun d => negb (zone d)) (days_from y m 1 (Z.to_nat (days_in_month y m))).

(** What the analyze handler passes through: the audio it picks, then the
    analysis. *)
Definition analysis_run (E : Env) (st : AnalyzeInput) : M AnalysisResult :=
  audioBase64 <- audio_for_analysis st ;;
  analyzeJournalEntry E audioBase64 (textInput st) (in_images st) (audioMimeType st).

(** Whether the handler has anything to analyze. *)
Definition has_input (st : AnalyzeInput) : Prop :=
  audioBlob st <> None \/ textInput st <> "" \/ in_images st <> [].

(** Surroundings in which the chat completion answers with an object whose
    tasks are one string instead of an array. *)
Definition string_tasks_env : Env :=
  {| process_env_API_KEY := "";
     Date_now_at := fun k => 1704412800000 + Z.of_nat k;
     network := fun _ _ => FetchResolves true (Ok (completion_envelope "{ }"));
     JSON_parse := fun s =>
       if String.eqb s "{ }"
       then Ok (JObj [("transcription", JStr "Walked the dog.");
                      ("moodKey", JStr "calm");
                      ("tasks", JStr "buy milk")])
       else Throw SyntaxError;
     atob := fun s => Ok s;
     setItem_accepts := fun _ => true |}.

(** A draft with text only, on top of the sample mood state. *)
Definition text_draft : AnalyzeInput :=
  {| audioBlob := None; audioUrl := None; audioMimeType := "audio/webm";
     textInput := "walked the dog"; in_images := [];
     in_moodData := Some sample_moodData; existingEntry := None |}.

(** An empty draft. *)
Definition empty_draft : AnalyzeInput :=
  {| audioBlob := None; audioUrl := None; audioMimeType := "audio/webm";
     textInput := ""; in_images := [];
     in_moodData := None; existingEntry := None |}.

(** A draft whose recording cannot be read. *)
Definition unreadable_draft : AnalyzeInput :=
  {| audioBlob := Some (Throw (Error "NotReadableError")); audioUrl := None;
     audioMimeType := "audio/webm"; textInput := "walked the dog"; in_images := [];
     in_moodData := Some sample_moodData; existingEntry := None |}.

(** A lower-case media type character: U+0020 to U+007E without the
    capital letters. *)
Definition is_lower_printable (c : ascii) : bool :=
  let n := nat_of_ascii c in
  ((32 <=? n) && (n <=? 126) && negb ((65 <=? n) && (n <=? 90)))%nat.

(** A character a media type may hold here: ASCII other than [;], [,], LF
    and CR. *)
Definition mime_char (c : ascii) : bool :=
  let n := nat_of_ascii c in
  ((n <? 128) && negb (n =? 59) && negb (n =? 44) && negb (n =? 10) && negb (n =? 13))%nat.

Definition no_comma (s : string) : bool :=
  forallb (fun c => negb (Ascii.eqb c ","%char)) (list_ascii_of_string s).

(* ====================================================================== *)
(** * Further sample data                                                  *)
(* ====================================================================== *)

(** Surroundings in which the chat completion answers with a question. *)
Definition chatty_env : Env :=
  {| process_env_API_KEY := "";
     Date_now_at := fun k => 1704412800000 + Z.of_nat k;
     network := fun _ _ => FetchResolves true (Ok (completion_envelope "And then?"));
     JSON_parse := fun _ => Throw SyntaxError;
     atob := fun s => Ok s;
     setItem_accepts := fun _ => true |}.

Definition sample_chat : list ChatTurn :=
  [ {| role := "model"; text := "How was your day?" |};
    {| role := "user"; text := "I walked the dog." |} ].

(* ====================================================================== *)
(** * Properties: basic facts about the operators                          *)
(* ====================================================================== *)

Example includes_quota : includes "You exceeded your current quota" "quota" = true.
Proof. reflexivity. Qed.

Example Number_toString_ms : Number_toString 1704412800000 = "1704412800000".
Proof. reflexivity. Qed.

Example includes_needs_whole_needle :
  includes "quot" "quota" = false /\ includes "error 42" "429" = false
  /\ includes "HTTP 429" "429" = true /\ includes "" "quota" = false.
Proof. repeat split; reflexivity. Qed.

Example startsWith_prefix :
  startsWith "sk-test" "sk-" = true /\ startsWith "my-key" "sk-" = false
  /\ startsWith "" "sk-" = false.
Proof. repeat split; reflexivity. Qed.

Example split_comma_data_url :
  split_comma "data:audio/webm;base64,AAAA" = ["data:audio/webm;base64"; "AAAA"].
Proof. reflexivity. Qed.

Example match_mime_data_url : match_mime "data:audio/webm;base64" = Some "audio/webm".
Proof. reflexivity. Qed.

Lemma eqb_false_of_neq (a b : string) : a <> b -> String.eqb a b = false.
Proof. intro H. apply String.eqb_neq. exact H. Qed.

(* ====================================================================== *)
(** * Properties of the entry store                                        *)
(* ====================================================================== *)

Section StoreFacts.
Variable E : Env.

Lemma getEntries_stored (w : World) : getEntries w = (Ok (stored_entries w), w).
Proof. reflexivity. Qed.

(** A save either writes the filtered collection followed by the entry, or
    (no room) leaves the stored collection as it was. *)
Lemma saveEntry_stored (entry : JournalEntry) (w : World) :
  stored_entries (snd (saveEntry E entry w)) =
    if setItem_accepts E
         (filter (fun e => negb (String.eqb (date e) (date entry))) (stored_entries w)
            ++ [entry])%list
    then (filter (fun e => negb (String.eqb (date e) (date entry))) (stored_entries w)
            ++ [entry])%list
    else stored_entries w.
Proof.
  unfold saveEntry, bind, try_catch, setItem_entries, alert, stored_entries, getEntries.
  simpl.
  destruct (setItem_accepts E _); reflexivity.
Qed.

Lemma deleteEntry_stored (d : string) (w : World) :
  stored_entries (snd (deleteEntry E d w)) =
    if setItem_accepts E
         (filter (fun e => negb (String.eqb (date e) d)) (stored_entries w))
    then filter (fun e => negb (String.eqb (date e) d)) (stored_entries w)
    else stored_entries w.
Proof.
  unfold deleteEntry, bind, setItem_entries, stored_entries, getEntries.
  simpl.
  destruct (setItem_accepts E _); reflexivity.
Qed.

Lemma filter_same_date_removed (d : string) (l : list JournalEntry) :
  filter (fun e => String.eqb (date e) d)
         (filter (fun e => negb (String.eqb (date e) d)) l) = [].
Proof.
  induction l as [|a l IH]; simpl; [reflexivity|].
  destruct (String.eqb (date a) d) eqn:Ha; simpl; [exact IH|].
  rewrite Ha. exact IH.
Qed.

Lemma filter_other_date_kept (d d' : string) (l : list JournalEntry) :
  d' <> d ->
  filter (fun e => String.eqb (date e) d')
         (filter (fun e => negb (String.eqb (date e) d)) l)
  = filter (fun e => String.eqb (date e) d') l.
Proof.
  intro Hne.
  induction l as [|a l IH]; simpl; [reflexivity|].
  destruct (String.eqb (date a) d) eqn:Ha; simpl.
  - apply String.eqb_eq in Ha.
    rewrite (eqb_false_of_neq (a := date a) (b := d')) by congruence.
    exact IH.
  - destruct (String.eqb (date a) d'); [f_equal|]; exact IH.
Qed.

Lemma filter_other_dates_idem (d : string) (l : list JournalEntry) :
  filter (fun e => negb (String.eqb (date e) d))
         (filter (fun e => negb (String.eqb (date e) d)) l)
  = filter (fun e => negb (String.eqb (date e) d)) l.
Proof.
  induction l as [|a l IH]; simpl; [reflexivity|].
  destruct (negb (String.eqb (date a) d)) eqn:Ha; simpl; [|exact IH].
  rewrite Ha. f_equal. exact IH.
Qed.


Lemma find_of_filter_head (d : string) (l : list JournalEntry) :
  find (fun e => String.eqb (date e) d) l
  = hd_error (filter (fun e => String.eqb (date e) d) l).
Proof.
  induction l as [|a l IH]; simpl; [reflexivity|].
  destruct (String.eqb (date a) d); [reflexivity|exact IH].
Qed.

Lemma getEntryByDate_entries_for (d : string) (w : World) :
  getEntryByDate d w = (Ok (hd_error (entries_for d w)), w).
Proof.
  unfold getEntryByDate, bind, ret, entries_for.
  rewrite getEntries_stored, find_of_filter_head. reflexivity.
Qed.

End StoreFacts.



(** A save that finds no room leaves the collection as it was: the earlier
    entry for the date stays. *)
Example save_without_room_keeps_store :
  stored_entries (snd (saveEntry full_storage_env draft2_jan5 two_day_world))
  = [entry_jan4; draft1_jan5]
  /\ alerts (snd (saveEntry full_storage_env draft2_jan5 two_day_world)) <> [].
Proof. split; [reflexivity|discriminate]. Qed.


(** C10. Frame property of the store.  Saving [e] leaves the entries of every
    other date [d'] as they were (same entries, same order), and so the entry
    looked up for [d']; deleting [d] likewise leaves the entries of every
    other date as they were, and, when the rewrite is accepted, leaves no
    entry for [d]. *)
Theorem store_frame (E : Env) (w : World) (e : JournalEntry) (d d' : string) :
  (d' <> date e ->
     entries_for d' (snd (saveEntry E e w)) = entries_for d' w
     /\ fst (getEntryByDate d' (snd (saveEntry E e w))) = fst (getEntryByDate d' w))
  /\ (d' <> d ->
        entries_for d' (snd (deleteEntry E d w)) = entries_for d' w
        /\ fst (getEntryByDate d' (snd (deleteEntry E d w))) = fst (getEntryByDate d' w))
  /\ (fst (deleteEntry E d w) = Ok tt -> entries_for d (snd (deleteEntry E d w)) = []).
Proof.
  split; [|split].
  - intro Hne.
    assert (Hfor : entries_for d' (snd (saveEntry E e w)) = entries_for d' w).
    { unfold entries_for. rewrite saveEntry_stored.
      destruct (setItem_accepts E _); [|reflexivity].
      rewrite filter_app, filter_other_date_kept by exact Hne.
      simpl. rewrite (eqb_false_of_neq (a := date e) (b := d')) by congruence.
      apply app_nil_r. }
    split; [exact Hfor|].
    rewrite !getEntryByDate_entries_for, Hfor. reflexivity.
  - intro Hne.
    assert (Hfor : entries_for d' (snd (deleteEntry E d w)) = entries_for d' w).
    { unfold entries_for. rewrite deleteEntry_stored.
      destruct (setItem_accepts E _); [|reflexivity].
      apply filter_other_date_kept. exact Hne. }
    split; [exact Hfor|].
    rewrite !getEntryByDate_entries_for, Hfor. reflexivity.
  - unfold entries_for. rewrite deleteEntry_stored.
    unfold deleteEntry, bind, setItem_entries. rewrite getEntries_stored.
    destruct (setItem_accepts E _); simpl; [|discriminate].
    intros _. apply filter_same_date_removed.
Qed.

Lemma store_frame_witness :
  (entries_for "2024-01-04" (snd (saveEntry offline_env draft2_jan5 two_day_world))
   = entries_for "2024-01-04" two_day_world
   /\ fst (getEntryByDate "2024-01-04" (snd (saveEntry offline_env draft2_jan5 two_day_world)))
      = fst (getEntryByDate "2024-01-04" two_day_world))
  /\ (entries_for "2024-01-04" (snd (deleteEntry offline_env "2024-01-05" two_day_world))
      = entries_for "2024-01-04" two_day_world
      /\ fst (getEntryByDate "2024-01-04"
                (snd (deleteEntry offline_env "2024-01-05" two_day_world)))
         = fst (getEntryByDate "2024-01-04" two_day_world))
  /\ entries_for "2024-01-05" (snd (deleteEntry offline_env "2024-01-05" two_day_world)) = [].
Proof.
  destruct (@store_frame offline_env two_day_world draft2_jan5 "2024-01-05" "2024-01-04")
    as (Hsave & Hdel & Hgone).
  split; [|split].
  - apply Hsave. intro H. discriminate H.
  - apply Hdel. intro H. discriminate H.
  - apply Hgone. reflexivity.
Defined.

Example store_frame_two_days :
  entries_for "2024-01-04" two_day_world = [entry_jan4]
  /\ stored_entries (snd (saveEntry offline_env draft2_jan5 two_day_world))
     = [entry_jan4; draft2_jan5]
  /\ stored_entries (snd (deleteEntry offline_env "2024-01-05" two_day_world))
     = [entry_jan4].
Proof. repeat split; reflexivity. Qed.

(* ====================================================================== *)
(** * Properties of the mood colour resolver                               *)
(* ====================================================================== *)

Section TableFacts.
Variable A : Type.

Lemma find_key_none (table : list (string * A)) (k : string) :
  ~ In k (map fst table) ->
  find (fun p => String.eqb (fst p) k) table = None.
Proof.
  induction table as [|p t IH]; simpl; intro Hnot; [reflexivity|].
  rewrite eqb_false_of_neq by tauto.
  apply IH. tauto.
Qed.

Lemma existsb_eqb_false (k : string) (names : list string) :
  ~ In k names -> existsb (String.eqb k) names = false.
Proof.
  induction names as [|n ns IH]; simpl; intro Hnot; [reflexivity|].
  rewrite eqb_false_of_neq by (intro Heq; apply Hnot; left; congruence).
  apply IH. tauto.
Qed.

(** A key that is neither a table entry nor an inherited name reads as
    [undefined]. *)
Lemma table_get_absent (table : list (string * A)) (k : string) :
  ~ In k (map fst table) -> ~ In k Object_prototype_names ->
  table_get table k = Absent.
Proof.
  intros Hkeys Hproto. unfold table_get.
  rewrite find_key_none by exact Hkeys.
  rewrite existsb_eqb_false by exact Hproto.
  reflexivity.
Qed.
End TableFacts.

(** Each of the seven keys reads its own palette entry. *)
Lemma palette_own (k : string) (def : MoodColorDefinition) :
  In (k, def) MOOD_PALETTE -> table_get MOOD_PALETTE k = Own def.
Proof.
  simpl. intros [H|[H|[H|[H|[H|[H|[H|[]]]]]]]];
    injection H as <- <-; reflexivity.
Qed.

Lemma safeKey_of_own (k : string) (def : MoodColorDefinition) :
  In (k, def) MOOD_PALETTE -> safeKey_of k = k.
Proof.
  intro H. unfold safeKey_of. rewrite (palette_own H). reflexivity.
Qed.

Lemma safeKey_of_unknown (k : string) :
  ~ In k mood_keys -> ~ In k Object_prototype_names -> safeKey_of k = "neutral".
Proof.
  intros Hk Hp. unfold safeKey_of.
  rewrite (table_get_absent MOOD_PALETTE Hk Hp). reflexivity.
Qed.

(** The key [safeKey] always has a slot, so indexing it never raises. *)
Lemma safeKey_has_slot (k : string) :
  slot_truthy (table_get MOOD_PALETTE (safeKey_of k)) = true.
Proof.
  unfold safeKey_of.
  destruct (slot_truthy (table_get MOOD_PALETTE k)) eqn:Hk; [exact Hk|reflexivity].
Qed.

(** C8, as the code has it.  For a key that is neither one of the seven mood
    keys nor a name inherited from [Object.prototype], both colour resolvers
    give what they give for ["neutral"], for every tier and score; the label
    lookup [MOOD_LABELS[key] || key] gives the key itself, not the label of
    ["neutral"]. *)
Theorem unknown_key_fallback (k : string) (score : Z) (type : MoodIntensity) :
  ~ In k mood_keys -> ~ In k Object_prototype_names ->
  getMoodColor k score type = getMoodColor "neutral" score type
  /\ getMoodColorByScore k score = getMoodColorByScore "neutral" score
  /\ label_or_key k = Some k.
Proof.
  intros Hk Hp. unfold getMoodColor, getMoodColorByScore.
  rewrite (safeKey_of_unknown Hk Hp).
  repeat split.
  unfold label_or_key.
  rewrite (table_get_absent MOOD_LABELS Hk Hp). reflexivity.
Qed.

Lemma unknown_key_fallback_witness :
  getMoodColor "unknown_key" 7 Strong = getMoodColor "neutral" 7 Strong
  /\ getMoodColorByScore "unknown_key" 7 = getMoodColorByScore "neutral" 7
  /\ label_or_key "unknown_key" = Some "unknown_key".
Proof.
  apply (@unknown_key_fallback "unknown_key" 7 Strong);
    simpl; intro H; repeat (destruct H as [H|H]; [discriminate H|]); exact H.
Defined.

(** C8 as stated fails: the label of an unknown key is the key itself and
    not the label of ["neutral"]; and a key naming a member inherited from
    [Object.prototype] is taken as known, so that its colour is [undefined]
    and not the colour of ["neutral"]. *)
Lemma unknown_key_label_is_not_neutral :
  (~ In "unknown_key" mood_keys
   /\ label_or_key "unknown_key" = Some "unknown_key"
   /\ label_or_key "neutral" = Some "平淡"
   /\ label_or_key "unknown_key" <> label_or_key "neutral")
  /\ (~ In "constructor" mood_keys
      /\ getMoodColor "constructor" 5 Strong = None
      /\ getMoodColor "neutral" 5 Strong = Some "#5C5C54").
Proof.
  repeat split; try discriminate;
    simpl; intro H; repeat (destruct H as [H|H]; [discriminate H|]); exact H.
Qed.

(** C9. The score-based resolver picks, from the palette entry of the key
    (the entry of ["neutral"] for a key without one), the strong shade for
    scores 8 to 10, the medium shade for scores 4 to 7 and the light shade
    for scores 1 to 3; for each of the seven keys these are the shades of
    its own palette entry. *)
Theorem score_tier_boundaries (k : string) (score : Z) :
  (8 <= score <= 10 ->
     getMoodColorByScore k score = getMoodColor k score Strong
     /\ forall def, In (k, def) MOOD_PALETTE ->
                    getMoodColorByScore k score = Some (strong def))
  /\ (4 <= score <= 7 ->
        getMoodColorByScore k score = getMoodColor k score Medium
        /\ forall def, In (k, def) MOOD_PALETTE ->
                       getMoodColorByScore k score = Some (medium def))
  /\ (1 <= score <= 3 ->
        getMoodColorByScore k score = getMoodColor k score Light
        /\ forall def, In (k, def) MOOD_PALETTE ->
                       getMoodColorByScore k score = Some (light def)).
Proof.
  unfold getMoodColorByScore, getMoodColor.
  split; [|split]; intro Hs.
  - assert (H8 : (score >=? 8) = true) by (apply Z.geb_le; lia).
    rewrite H8. split; [reflexivity|].
    intros def Hin. rewrite (safeKey_of_own Hin).
    unfold palette_shade. rewrite (palette_own Hin). reflexivity.
  - assert (H8 : (score >=? 8) = false) by (rewrite Z.geb_leb; apply Z.leb_gt; lia).
    assert (H4 : (score >=? 4) = true) by (apply Z.geb_le; lia).
    rewrite H8, H4. split; [reflexivity|].
    intros def Hin. rewrite (safeKey_of_own Hin).
    unfold palette_shade. rewrite (palette_own Hin). reflexivity.
  - assert (H8 : (score >=? 8) = false) by (rewrite Z.geb_leb; apply Z.leb_gt; lia).
    assert (H4 : (score >=? 4) = false) by (rewrite Z.geb_leb; apply Z.leb_gt; lia).
    rewrite H8, H4. split; [reflexivity|].
    intros def Hin. rewrite (safeKey_of_own Hin).
    unfold palette_shade. rewrite (palette_own Hin). reflexivity.
Qed.

Lemma score_tier_boundaries_witness :
  getMoodColorByScore "happy" 8 = Some "#F4B942"
  /\ getMoodColorByScore "happy" 7 = Some "#FFD166"
  /\ getMoodColorByScore "happy" 3 = Some "#FFF5D1".
Proof.
  pose (happy := {| light := "#FFF5D1"; medium := "#FFD166"; strong := "#F4B942" |}).
  assert (Hin : In ("happy", happy) MOOD_PALETTE) by (left; reflexivity).
  split; [|split].
  - destruct (@score_tier_boundaries "happy" 8) as (H & _ & _).
    destruct H as [_ H]; [lia|]. exact (H happy Hin).
  - destruct (@score_tier_boundaries "happy" 7) as (_ & H & _).
    destruct H as [_ H]; [lia|]. exact (H happy Hin).
  - destruct (@score_tier_boundaries "happy" 3) as (_ & _ & H).
    destruct H as [_ H]; [lia|]. exact (H happy Hin).
Defined.

Example score_boundaries_neutral :
  map (getMoodColorByScore "neutral") [1; 3; 4; 7; 8; 10]
  = map Some ["#F2F0E9"; "#F2F0E9"; "#A3A398"; "#A3A398"; "#5C5C54"; "#5C5C54"].
Proof. reflexivity. Qed.

(* ====================================================================== *)
(** * Properties of task normalization and of the merge                    *)
(* ====================================================================== *)

Section MapFacts.
Variables A B C : Type.

Lemma mapi_from_length (f : A -> nat -> B) (i : nat) (xs : list A) :
  length (mapi_from f i xs) = length xs.
Proof.
  revert i. induction xs as [|x xs IH]; intro i; simpl; [reflexivity|].
  f_equal. apply IH.
Qed.

Lemma mapi_from_nth_error (f : A -> nat -> B) (xs : list A) :
  forall i n, nth_error (mapi_from f i xs) n
              = option_map (fun x => f x (i + n)%nat) (nth_error xs n).
Proof.
  induction xs as [|x xs IH]; intros i n; destruct n as [|n]; simpl;
    try reflexivity.
  - rewrite Nat.add_0_r. reflexivity.
  - rewrite IH. rewrite Nat.add_succ_r. reflexivity.
Qed.

Lemma mapi_from_map (g : C -> A) (f : A -> nat -> B) (xs : list C) :
  forall i, mapi_from f i (map g xs) = mapi_from (fun c j => f (g c) j) i xs.
Proof.
  induction xs as [|x xs IH]; intro i; simpl; [reflexivity|].
  f_equal. apply IH.
Qed.

Lemma stamped_length (E : Env) (g : Z -> A -> nat -> B) (xs : list A) :
  forall k i, length (stamped E g k i xs) = length xs.
Proof.
  induction xs as [|x xs IH]; intros k i; simpl; [reflexivity|].
  f_equal. apply IH.
Qed.


Lemma stamped_map (E : Env) (h : C -> A) (g : Z -> A -> nat -> B) (xs : list C) :
  forall k i, stamped E g k i (map h xs) = stamped E (fun z c j => g z (h c) j) k i xs.
Proof.
  induction xs as [|x xs IH]; intros k i; simpl; [reflexivity|].
  f_equal. apply IH.
Qed.

(** A [map] whose callback reads the clock once per element never raises;
    it takes one reading per element, in order. *)
Lemma mapiM_from_stamped (E : Env) (g : Z -> A -> nat -> B) (xs : list A) :
  forall i w,
    mapiM_from (fun t j => now <- Date_now E ;; ret (g now t j)) i xs w
    = (Ok (stamped E g (ticks w) i xs), tick_by (length xs) w).
Proof.
  induction xs as [|x xs IH]; intros i w; simpl.
  - unfold ret, tick_by. destruct w; reflexivity.
  - unfold bind at 1. unfold bind at 1. unfold Date_now at 1. unfold ret at 1.
    unfold bind at 1. rewrite IH. unfold ret, tick_by. simpl.
    rewrite Nat.add_succ_r. reflexivity.
Qed.
End MapFacts.

(** The calendar view normalizes a legacy list as C1 says: element [i]
    becomes the item with id [legacy-<date>-<i>], the original string as
    text, and [completed = false]. *)
Lemma getTasksForEntry_legacy (entry : JournalEntry) (s0 : string) (ss : list string) :
  tasks entry = Some (map JStr (s0 :: ss)) ->
  getTasksForEntry entry
  = mapi (fun s i => TaskItem ("legacy-" ++ date entry ++ "-" ++ index_toString i)
                              (JStr s) false)
         (s0 :: ss).
Proof.
  intro Ht. unfold getTasksForEntry. rewrite Ht. simpl.
  unfold mapi. simpl. f_equal.
  apply (mapi_from_map JStr
           (fun t i => TaskItem ("legacy-" ++ date entry ++ "-" ++ index_toString i) t false)).
Qed.

Lemma getTasksForEntry_legacy_nth (entry : JournalEntry) (s0 : string) (ss : list string)
    (i : nat) (s : string) :
  tasks entry = Some (map JStr (s0 :: ss)) ->
  nth_error (s0 :: ss) i = Some s ->
  length (getTasksForEntry entry) = length (s0 :: ss)
  /\ nth_error (getTasksForEntry entry) i
     = Some (TaskItem ("legacy-" ++ date entry ++ "-" ++ index_toString i) (JStr s) false).
Proof.
  intros Ht Hi. rewrite (getTasksForEntry_legacy entry Ht). unfold mapi. split.
  - apply mapi_from_length.
  - rewrite mapi_from_nth_error, Hi. reflexivity.
Qed.

Example getTasksForEntry_buy_milk :
  getTasksForEntry legacy_jan5
  = [ TaskItem "legacy-2024-01-05-0" (JStr "buy milk") false;
      TaskItem "legacy-2024-01-05-1" (JStr "call mom") false ].
Proof. reflexivity. Qed.

(** The record view stamps a legacy list with clock readings instead:
    element [i] gets the id [legacy-<Date.now()>-<i>]. *)
Lemma normalizeTasks_legacy (E : Env) (w : World) (s0 : string) (ss : list string) :
  normalizeTasks E (Some (map JStr (s0 :: ss))) w
  = (Ok (stamped E
           (fun now s i =>
              TaskItem ("legacy-" ++ Number_toString now ++ "-" ++ index_toString i)
                       (JStr s) false)
           (ticks w) 0 (s0 :: ss)),
     tick_by (length (s0 :: ss)) w).
Proof.
  unfold normalizeTasks.
  assert (Hlen : (length (map JStr (s0 :: ss)) =? 0)%nat = false) by reflexivity.
  assert (Hstr : is_string (nth 0 (map JStr (s0 :: ss)) JUndefined) = true) by reflexivity.
  rewrite Hlen, Hstr. unfold mapiM.
  rewrite (mapiM_from_stamped E
             (fun now t i =>
                TaskItem ("legacy-" ++ Number_toString now ++ "-" ++ index_toString i) t false)).
  rewrite (stamped_map E JStr), length_map. reflexivity.
Qed.

(** C1 on the record view.  For the entry of 2024-01-05 holding
    ["buy milk", "call mom"], opened when the clock reads 1704412800000,
    [normalizeTasks] yields ids built from the clock readings, not
    [legacy-2024-01-05-0] and [legacy-2024-01-05-1]; normalizing the same
    list again yields other ids. *)
Theorem normalizeTasks_ids_follow_clock :
  fst (normalizeTasks offline_env (tasks legacy_jan5) fresh_world)
  = Ok [ TaskItem "legacy-1704412800000-0" (JStr "buy milk") false;
         TaskItem "legacy-1704412800001-1" (JStr "call mom") false ]
  /\ fst (normalizeTasks offline_env (tasks legacy_jan5) fresh_world)
     <> Ok [ TaskItem "legacy-2024-01-05-0" (JStr "buy milk") false;
             TaskItem "legacy-2024-01-05-1" (JStr "call mom") false ]
  /\ fst (normalizeTasks offline_env (tasks legacy_jan5) fresh_world)
     <> Ok (getTasksForEntry legacy_jan5)
  /\ fst (normalizeTasks offline_env (tasks legacy_jan5)
            (snd (normalizeTasks offline_env (tasks legacy_jan5) fresh_world)))
     <> fst (normalizeTasks offline_env (tasks legacy_jan5) fresh_world).
Proof.
  repeat split; try reflexivity; intro H; vm_compute in H; discriminate H.
Qed.

(** A list whose first element is no plain string is returned as it is. *)
Lemma getTasksForEntry_structured (entry : JournalEntry) (ts : list JsVal) :
  tasks entry = Some ts ->
  is_string (nth 0 ts JUndefined) = false ->
  getTasksForEntry entry = ts.
Proof.
  intros Ht Hs. unfold getTasksForEntry. rewrite Ht, Hs, andb_false_r. reflexivity.
Qed.

Lemma normalizeTasks_structured (E : Env) (w : World) (ts : list JsVal) :
  is_string (nth 0 ts JUndefined) = false ->
  normalizeTasks E (Some ts) w = (Ok ts, w).
Proof.
  intro Hs. unfold normalizeTasks.
  destruct ts as [|t ts]; [reflexivity|].
  rewrite Hs. reflexivity.
Qed.

(** What [getTasksForEntry] returns never starts with a plain string. *)
Lemma getTasksForEntry_head (entry : JournalEntry) :
  is_string (nth 0 (getTasksForEntry entry) JUndefined) = false.
Proof.
  unfold getTasksForEntry.
  destruct (tasks entry) as [ts|]; [|reflexivity].
  destruct ts as [|t ts]; [reflexivity|].
  simpl. destruct (is_string t) eqn:Ht; [reflexivity|exact Ht].
Qed.

(** [normalizeTasks] never raises, and what it returns starts with no plain
    string. *)
Lemma normalizeTasks_head (E : Env) (w : World) (x : option (list JsVal)) :
  exists l w1, normalizeTasks E x w = (Ok l, w1)
               /\ is_string (nth 0 l JUndefined) = false.
Proof.
  unfold normalizeTasks.
  destruct x as [ts|]; [|exists [], w; split; reflexivity].
  destruct ts as [|t ts]; [exists [], w; split; reflexivity|].
  cbn [length Nat.eqb nth].
  destruct (is_string t) eqn:Ht.
  - unfold mapiM.
    rewrite (mapiM_from_stamped E
               (fun now t i =>
                  TaskItem ("legacy-" ++ Number_toString now ++ "-" ++ index_toString i)
                           t false)).
    eexists. eexists. split; [reflexivity|]. reflexivity.
  - exists (t :: ts), w. split; [reflexivity|exact Ht].
Qed.

(** C6. Normalization is idempotent.  A task list whose first element is no
    plain string (an already structured list, or the empty list) is returned
    identical, by the calendar view's [getTasksForEntry] and by the record
    view's [normalizeTasks] alike; and normalizing the outcome of a
    normalization returns that outcome, for every input, present or absent,
    whatever the clock reads in between. *)
Theorem normalization_idempotent :
  (forall entry ts,
      tasks entry = Some ts -> is_string (nth 0 ts JUndefined) = false ->
      getTasksForEntry entry = ts)
  /\ (forall E w ts,
         is_string (nth 0 ts JUndefined) = false ->
         normalizeTasks E (Some ts) w = (Ok ts, w))
  /\ (forall entry,
         getTasksForEntry (with_tasks entry (getTasksForEntry entry))
         = getTasksForEntry entry)
  /\ (forall E w x,
         exists l w1,
           normalizeTasks E x w = (Ok l, w1)
           /\ forall E' w', normalizeTasks E' (Some l) w' = (Ok l, w')).
Proof.
  split; [|split; [|split]].
  - exact getTasksForEntry_structured.
  - exact normalizeTasks_structured.
  - intro entry.
    apply getTasksForEntry_structured; [reflexivity|].
    apply getTasksForEntry_head.
  - intros E w x.
    destruct (normalizeTasks_head E w x) as (l & w1 & Hrun & Hhead).
    exists l, w1. split; [exact Hrun|].
    intros E' w'. apply normalizeTasks_structured. exact Hhead.
Qed.

Lemma normalization_idempotent_witness :
  getTasksForEntry structured_jan5 = structured_items
  /\ normalizeTasks offline_env (Some structured_items) fresh_world
     = (Ok structured_items, fresh_world).
Proof.
  destruct normalization_idempotent as (Hcal & Hrec & _ & _).
  split.
  - apply (Hcal structured_jan5 structured_items); reflexivity.
  - apply (Hrec offline_env fresh_world structured_items); reflexivity.
Defined.

Example normalize_twice_legacy :
  match normalizeTasks offline_env (tasks legacy_jan5) fresh_world with
  | (Ok l, w1) => normalizeTasks offline_env (Some l) w1 = (Ok l, w1)
  | (Throw _, _) => False
  end.
Proof. reflexivity. Qed.

(** The new tasks of an analysis whose [tasks] field is an array: one item
    per element, stamped with one clock reading each. *)
Lemma aiTasks_stamped (E : Env) (w : World) (analysis : AnalysisResult) (xs : list JsVal) :
  r_tasks analysis = JArr xs ->
  aiTasks E analysis w
  = (Ok (stamped E
           (fun now t i =>
              TaskItem ("ai-" ++ Number_toString now ++ "-" ++ index_toString i) t false)
           (ticks w) 0 xs),
     tick_by (length xs) w).
Proof.
  intro Ht. unfold aiTasks. rewrite Ht. unfold js_map, mapiM.
  apply (mapiM_from_stamped E
           (fun now t i =>
              TaskItem ("ai-" ++ Number_toString now ++ "-" ++ index_toString i) t false)).
Qed.



(** The merge does not look at texts: a task already present is appended
    again. *)
Example merge_keeps_duplicates :
  fst (mergedTasks offline_env (Some sample_moodData) (getMockAnalysis "") fresh_world)
  = Ok [ TaskItem "manual-1704412700000" (JStr "Go to Settings") true;
         TaskItem "ai-1704412600000-0" (JStr "buy milk") false;
         TaskItem "ai-1704412800000-0" (JStr "Go to Settings") false;
         TaskItem "ai-1704412800001-1" (JStr "Enter OpenAI API Key") false ].
Proof. reflexivity. Qed.

(* ====================================================================== *)
(** * Properties of the analysis client                                    *)
(* ====================================================================== *)

Section MonadFacts.
Variables A B : Type.


End MonadFacts.





(** Step 1 never raises: a failed transcription is turned into a note. *)
Lemma finalTranscription_total (E : Env) (audioBase64 : option string)
    (textInput : string) (w : World) :
  exists ft w1, finalTranscription_of E audioBase64 textInput w = (Ok ft, w1).
Proof.
  unfold finalTranscription_of.
  destruct audioBase64 as [audio|]; [|eexists; eexists; reflexivity].
  destruct (String.eqb audio ""); [eexists; eexists; reflexivity|].
  unfold try_catch, bind.
  destruct (callWhisper E audio w) as [[audioText|err] w1].
  - destruct (truthy (JStr textInput)); eexists; eexists; reflexivity.
  - destruct (isQuotaError err); eexists; eexists; reflexivity.
Qed.

(** The result built from a parsed response that is neither [undefined] nor
    [null]: each field is the response's when truthy and the default
    otherwise.  The world is not touched. *)
Lemma result_of_parsed_Ok_inv (parsed ft : JsVal) (w w' : World) (r : AnalysisResult) :
  result_of_parsed parsed ft w = (Ok r, w') ->
  w' = w
  /\ exists v1 v2 v3 v4 v5 v6,
       get_prop parsed "transcription" = Ok v1
       /\ get_prop parsed "moodEmoji" = Ok v2
       /\ get_prop parsed "moodDescription" = Ok v3
       /\ get_prop parsed "moodKey" = Ok v4
       /\ get_prop parsed "moodScore" = Ok v5
       /\ get_prop parsed "tasks" = Ok v6
       /\ r = {| r_transcription := js_or v1 ft;
                 r_moodEmoji := js_or v2 (JStr "📝");
                 r_moodDescription := js_or v3 (JStr "记录中");
                 r_moodKey := js_or v4 (JStr "neutral");
                 r_moodScore := js_or v5 (JNum 5);
                 r_tasks := js_or v6 (JArr []) |}.
Proof.
  unfold result_of_parsed, bind, lift, ret.
  destruct (get_prop parsed "transcription") as [v1|] eqn:H1; [|discriminate].
  destruct (get_prop parsed "moodEmoji") as [v2|] eqn:H2; [|discriminate].
  destruct (get_prop parsed "moodDescription") as [v3|] eqn:H3; [|discriminate].
  destruct (get_prop parsed "moodKey") as [v4|] eqn:H4; [|discriminate].
  destruct (get_prop parsed "moodScore") as [v5|] eqn:H5; [|discriminate].
  destruct (get_prop parsed "tasks") as [v6|] eqn:H6; [|discriminate].
  intro H. injection H as <- <-.
  split; [reflexivity|].
  exists v1, v2, v3, v4, v5, v6. repeat split; reflexivity.
Qed.






(** With no usable credential every provider helper raises before any
    request is made. *)
Lemma getApiKey_unconfigured (E : Env) (w : World) :
  (forall k, openai_api_key w = Some k -> startsWith k "sk-" = false) ->
  process_env_API_KEY E = "" ->
  getApiKey E w = (Ok "", w).
Proof.
  intros Hstored Henv. unfold getApiKey. rewrite Henv.
  destruct (openai_api_key w) as [local|]; [|reflexivity].
  rewrite (Hstored local eq_refl), andb_false_r. reflexivity.
Qed.

Lemma callGPT_unconfigured (E : Env) (w : World) (messages : JsVal) (model : string)
    (jsonMode : bool) :
  getApiKey E w = (Ok "", w) ->
  callGPT E messages model jsonMode w
  = (Throw (Error "API Key missing. Please set it in Settings."), w).
Proof. intro Hkey. unfold callGPT, bind. rewrite Hkey. reflexivity. Qed.

Lemma callWhisper_unconfigured (E : Env) (w : World) (audio : string) :
  getApiKey E w = (Ok "", w) ->
  callWhisper E audio w
  = (Throw (Error "API Key missing. Please set it in Settings."), w).
Proof. intro Hkey. unfold callWhisper, bind. rewrite Hkey. reflexivity. Qed.

(** C5. With no stored key carrying the provider prefix and an empty
    build-time default, [analyzeJournalEntry] issues no request (the request
    log, and the whole world, is as before) and returns the generic
    fallback, whose mood key is ["neutral"]. *)
Theorem no_credential_short_circuits (E : Env) (audioBase64 : option string)
    (textInput : string) (imageUserBase64 : list string) (audioMimeType : string)
    (w : World) :
  (forall k, openai_api_key w = Some k -> startsWith k "sk-" = false) ->
  process_env_API_KEY E = "" ->
  exists r w',
    analyzeJournalEntry E audioBase64 textInput imageUserBase64 audioMimeType w = (Ok r, w')
    /\ requests w' = requests w
    /\ w' = w
    /\ r_moodKey r = JStr "neutral"
    /\ r = generic_fallback textInput.
Proof.
  intros Hstored Henv.
  pose proof (@getApiKey_unconfigured E w Hstored Henv) as Hkey.
  assert (Hft : exists ft, finalTranscription_of E audioBase64 textInput w = (Ok ft, w)).
  { unfold finalTranscription_of.
    destruct audioBase64 as [audio|]; [|eexists; reflexivity].
    destruct (String.eqb audio ""); [eexists; reflexivity|].
    unfold try_catch, bind. rewrite (@callWhisper_unconfigured E w audio Hkey).
    eexists. reflexivity. }
  destruct Hft as (ft & Hft).
  exists (generic_fallback textInput), w.
  split; [|repeat split].
  unfold analyzeJournalEntry, try_catch, bind at 1. rewrite Hft.
  unfold bind at 1. rewrite (@callGPT_unconfigured E w _ _ _ Hkey).
  reflexivity.
Qed.

Lemma no_credential_short_circuits_witness :
  exists r w',
    analyzeJournalEntry offline_env (Some sample_audio) "walked the dog"
                        [] "audio/webm" fresh_world = (Ok r, w')
    /\ requests w' = []
    /\ r_moodKey r = JStr "neutral".
Proof.
  destruct (@no_credential_short_circuits offline_env (Some sample_audio)
              "walked the dog" [] "audio/webm" fresh_world)
    as (r & w' & Hrun & Hreq & _ & Hkey & _).
  - intros k Hk. discriminate Hk.
  - reflexivity.
  - exists r, w'. split; [exact Hrun|]. split; [exact Hreq|exact Hkey].
Defined.

(** A stored key without the prefix is no credential either. *)
Example malformed_key_short_circuits :
  analyzeJournalEntry quota_env None "walked the dog" [] "audio/webm" malformed_key_world
  = (Ok (generic_fallback "walked the dog"), malformed_key_world).
Proof. reflexivity. Qed.




(* ====================================================================== *)
(** * Further properties of the entry store                                *)
(* ====================================================================== *)

Section StoreMore.
Variable E : Env.

(** What a save does to the world, by whether the storage takes the write. *)
Lemma saveEntry_run (entry : JournalEntry) (w : World) :
  saveEntry E entry w =
    if setItem_accepts E
         (filter (fun e => negb (String.eqb (date e) (date entry))) (stored_entries w)
            ++ [entry])%list
    then (Ok tt,
          {| soullog_entries_v1 :=
               Some (filter (fun e => negb (String.eqb (date e) (date entry)))
                            (stored_entries w) ++ [entry])%list;
             openai_api_key := openai_api_key w;
             requests := requests w;
             ticks := ticks w;
             alerts := alerts w |})
    else (Ok tt,
          {| soullog_entries_v1 := soullog_entries_v1 w;
             openai_api_key := openai_api_key w;
             requests := requests w;
             ticks := ticks w;
             alerts := (alerts w
                        ++ ["存储空间已满，无法保存更多录音或图片。请清理浏览器缓存。"])%list |}).
Proof.
  unfold saveEntry, bind, try_catch, setItem_entries, alert, stored_entries, getEntries.
  simpl. destruct (setItem_accepts E _); reflexivity.
Qed.

Lemma deleteEntry_run (d : string) (w : World) :
  deleteEntry E d w =
    if setItem_accepts E
         (filter (fun e => negb (String.eqb (date e) d)) (stored_entries w))
    then (Ok tt,
          {| soullog_entries_v1 :=
               Some (filter (fun e => negb (String.eqb (date e) d)) (stored_entries w));
             openai_api_key := openai_api_key w;
             requests := requests w;
             ticks := ticks w;
             alerts := alerts w |})
    else (Throw (Error "QuotaExceededError"), w).
Proof.
  unfold deleteEntry, bind, setItem_entries, stored_entries, getEntries.
  simpl. destruct (setItem_accepts E _); reflexivity.
Qed.

Lemma filter_absent_date (d : string) (l : list JournalEntry) :
  ~ In d (map date l) ->
  filter (fun e => negb (String.eqb (date e) d)) l = l.
Proof.
  induction l as [|a l IH]; simpl; intro Hnot; [reflexivity|].
  rewrite (eqb_false_of_neq (a := date a) (b := d)) by tauto.
  simpl. f_equal. apply IH. tauto.
Qed.

Lemma dates_of_filter (d : string) (l : list JournalEntry) :
  forall x, In x (map date (filter (fun e => negb (String.eqb (date e) d)) l)) ->
            In x (map date l) /\ x <> d.
Proof.
  intros x Hx. apply in_map_iff in Hx. destruct Hx as (e & <- & He).
  apply filter_In in He. destruct He as [Hin Hneq].
  split; [apply in_map; exact Hin|].
  apply String.eqb_neq. destruct (String.eqb (date e) d); [discriminate Hneq|reflexivity].
Qed.

Lemma NoDup_dates_filter (d : string) (l : list JournalEntry) :
  NoDup (map date l) ->
  NoDup (map date (filter (fun e => negb (String.eqb (date e) d)) l)).
Proof.
  induction l as [|a l IH]; simpl; intro Hnd; [constructor|].
  inversion Hnd as [|x xs Hnotin Hrest]; subst.
  destruct (negb (String.eqb (date a) d)); simpl; [|apply IH; exact Hrest].
  constructor; [|apply IH; exact Hrest].
  intro Hin. apply Hnotin. apply (dates_of_filter d l _ Hin).
Qed.

End StoreMore.

(** X1. Save, then look up.  After a save that the storage accepts, looking
    up the date of the saved entry returns that entry, it is the only entry
    of its date and the last of the collection, and no alert is shown. *)
Theorem save_then_lookup (E : Env) (w : World) (e : JournalEntry) :
  setItem_accepts E
    (filter (fun x => negb (String.eqb (date x) (date e))) (stored_entries w) ++ [e])%list
  = true ->
  fst (saveEntry E e w) = Ok tt
  /\ fst (getEntryByDate (date e) (snd (saveEntry E e w))) = Ok (Some e)
  /\ entries_for (date e) (snd (saveEntry E e w)) = [e]
  /\ last (stored_entries (snd (saveEntry E e w))) e = e
  /\ alerts (snd (saveEntry E e w)) = alerts w.
Proof.
  intro Hroom. rewrite saveEntry_run, Hroom. cbn [fst snd alerts].
  assert (Hfor : entries_for (date e)
                   {| soullog_entries_v1 :=
                        Some (filter (fun x => negb (String.eqb (date x) (date e)))
                                     (stored_entries w) ++ [e])%list;
                      openai_api_key := openai_api_key w; requests := requests w;
                      ticks := ticks w; alerts := alerts w |} = [e]).
  { unfold entries_for, stored_entries. cbn [getEntries fst soullog_entries_v1].
    rewrite filter_app, filter_same_date_removed. simpl.
    rewrite String.eqb_refl. reflexivity. }
  split; [reflexivity|]. split; [|split; [exact Hfor|split; [|reflexivity]]].
  - rewrite getEntryByDate_entries_for, Hfor. reflexivity.
  - unfold stored_entries. cbn [getEntries fst soullog_entries_v1].
    apply last_last.
Qed.

Lemma save_then_lookup_witness :
  fst (getEntryByDate "2024-01-05" (snd (saveEntry offline_env draft2_jan5 two_day_world)))
  = Ok (Some draft2_jan5)
  /\ entries_for "2024-01-05" (snd (saveEntry offline_env draft2_jan5 two_day_world))
     = [draft2_jan5].
Proof.
  destruct (@save_then_lookup offline_env two_day_world draft2_jan5 eq_refl)
    as (_ & Hget & Hfor & _).
  split; [exact Hget|exact Hfor].
Defined.

(** X2. A refused write is swallowed.  When the storage refuses the write
    of [saveEntry] on a collection it has read, the save returns normally
    all the same: both storage slots are left as they were, the entry is not
    stored, and the storage-full alert is added, once, as the only
    change. *)
Theorem save_refused_keeps_store (E : Env) (w : World) (e : JournalEntry) :
  setItem_accepts E
    (filter (fun x => negb (String.eqb (date x) (date e))) (stored_entries w) ++ [e])%list
  = false ->
  saveEntry E e w
  = (Ok tt, snd (alert "存储空间已满，无法保存更多录音或图片。请清理浏览器缓存。" w))
  /\ soullog_entries_v1 (snd (saveEntry E e w)) = soullog_entries_v1 w
  /\ openai_api_key (snd (saveEntry E e w)) = openai_api_key w
  /\ stored_entries (snd (saveEntry E e w)) = stored_entries w
  /\ requests (snd (saveEntry E e w)) = requests w
  /\ alerts (snd (saveEntry E e w))
     = (alerts w ++ ["存储空间已满，无法保存更多录音或图片。请清理浏览器缓存。"])%list.
Proof.
  intro Hfull. rewrite saveEntry_run, Hfull.
  repeat split.
Qed.

Lemma save_refused_keeps_store_witness :
  stored_entries (snd (saveEntry full_storage_env draft2_jan5 two_day_world))
  = stored_entries two_day_world
  /\ length (alerts (snd (saveEntry full_storage_env draft2_jan5 two_day_world))) = 1%nat.
Proof.
  destruct (@save_refused_keeps_store full_storage_env two_day_world draft2_jan5 eq_refl)
    as (_ & _ & _ & Hst & _ & Hal).
  split; [exact Hst|]. rewrite Hal. reflexivity.
Defined.

(** X3. One entry per date is an invariant of the store: when the stored
    dates are pairwise distinct, they still are after a save and after a
    delete, whether or not the storage takes the write. *)
Theorem unique_dates_invariant (E : Env) (w : World) (e : JournalEntry) (d : string) :
  NoDup (map date (stored_entries w)) ->
  NoDup (map date (stored_entries (snd (saveEntry E e w))))
  /\ NoDup (map date (stored_entries (snd (deleteEntry E d w)))).
Proof.
  intro Hnd. split.
  - rewrite saveEntry_stored. destruct (setItem_accepts E _); [|exact Hnd].
    rewrite map_app. simpl.
    apply NoDup_app.
    + apply NoDup_dates_filter. exact Hnd.
    + constructor; [intros []|constructor].
    + intros x Hx [Hy|[]]. subst x.
      apply (dates_of_filter (date e) (stored_entries w) _ Hx). reflexivity.
  - rewrite deleteEntry_stored. destruct (setItem_accepts E _); [|exact Hnd].
    apply NoDup_dates_filter. exact Hnd.
Qed.

Lemma unique_dates_invariant_witness :
  NoDup (map date (stored_entries (snd (saveEntry offline_env draft2_jan5 two_day_world))))
  /\ NoDup (map date (stored_entries (snd (deleteEntry offline_env "2024-01-04" two_day_world)))).
Proof.
  apply (@unique_dates_invariant offline_env two_day_world draft2_jan5 "2024-01-04").
  repeat constructor; simpl; intuition discriminate.
Defined.

(** X4. Delete.  A delete that the storage refuses raises to its caller and
    changes nothing (no alert, unlike a save).  An accepted delete leaves no
    entry to look up for the date and shows no alert; when the date had no
    entry, the collection read back is the one before. *)
Theorem delete_behaviour (E : Env) (w : World) (d : string) :
  (setItem_accepts E (filter (fun x => negb (String.eqb (date x) d)) (stored_entries w))
   = false ->
   exists err, deleteEntry E d w = (Throw err, w))
  /\ (setItem_accepts E (filter (fun x => negb (String.eqb (date x) d)) (stored_entries w))
      = true ->
      fst (deleteEntry E d w) = Ok tt
      /\ fst (getEntryByDate d (snd (deleteEntry E d w))) = Ok None
      /\ alerts (snd (deleteEntry E d w)) = alerts w
      /\ (~ In d (map date (stored_entries w)) ->
          stored_entries (snd (deleteEntry E d w)) = stored_entries w)).
Proof.
  rewrite deleteEntry_run. split; intro Hroom; rewrite Hroom.
  - eexists. reflexivity.
  - split; [reflexivity|]. split; [|split; [reflexivity|]].
    + rewrite getEntryByDate_entries_for. unfold entries_for, stored_entries.
      cbn [snd getEntries fst soullog_entries_v1].
      fold (stored_entries w). rewrite filter_same_date_removed. reflexivity.
    + intro Habs. unfold stored_entries at 1.
      cbn [snd getEntries fst soullog_entries_v1].
      apply filter_absent_date. exact Habs.
Qed.

Lemma delete_behaviour_witness :
  (exists err, deleteEntry full_storage_env "2024-01-05" two_day_world
               = (Throw err, two_day_world))
  /\ fst (getEntryByDate "2024-01-05" (snd (deleteEntry offline_env "2024-01-05" two_day_world)))
     = Ok None
  /\ stored_entries (snd (deleteEntry offline_env "2024-02-01" two_day_world))
     = stored_entries two_day_world.
Proof.
  split; [|split].
  - destruct (@delete_behaviour full_storage_env two_day_world "2024-01-05") as (H & _).
    apply H. reflexivity.
  - destruct (@delete_behaviour offline_env two_day_world "2024-01-05") as (_ & H).
    destruct (H eq_refl) as (_ & Hget & _). exact Hget.
  - destruct (@delete_behaviour offline_env two_day_world "2024-02-01") as (_ & H).
    destruct (H eq_refl) as (_ & _ & _ & Habs). apply Habs.
    simpl. intuition discriminate.
Defined.

(** X5. Delete undoes save.  Saving an entry and then deleting its date,
    the two writes being accepted, leaves the collection that deleting the
    date alone leaves: the entries of the other dates, in their order. *)
Theorem save_then_delete (E : Env) (w : World) (e : JournalEntry) :
  setItem_accepts E (saveEntry_write e w) = true ->
  setItem_accepts E (deleteEntry_write (date e) (snd (saveEntry E e w))) = true ->
  stored_entries (snd (deleteEntry E (date e) (snd (saveEntry E e w))))
  = filter (fun x => negb (String.eqb (date x) (date e))) (stored_entries w)
  /\ stored_entries (snd (deleteEntry E (date e) (snd (saveEntry E e w))))
     = stored_entries (snd (deleteEntry E (date e) w)).
Proof.
  unfold saveEntry_write, deleteEntry_write. intros Hsave Hdelete.
  assert (Hwritten : filter (fun x => negb (String.eqb (date x) (date e)))
                            (stored_entries (snd (saveEntry E e w)))
                     = filter (fun x => negb (String.eqb (date x) (date e)))
                              (stored_entries w)).
  { rewrite saveEntry_stored, Hsave.
    rewrite filter_app, filter_other_dates_idem. simpl.
    rewrite String.eqb_refl. simpl. apply app_nil_r. }
  assert (H1 : stored_entries (snd (deleteEntry E (date e) (snd (saveEntry E e w))))
               = filter (fun x => negb (String.eqb (date x) (date e))) (stored_entries w)).
  { rewrite deleteEntry_stored, Hdelete. exact Hwritten. }
  split; [exact H1|].
  rewrite Hwritten in Hdelete.
  rewrite H1, deleteEntry_stored, Hdelete. reflexivity.
Qed.

Lemma save_then_delete_witness :
  stored_entries (snd (deleteEntry small_quota_env "2024-01-05"
                         (snd (saveEntry small_quota_env draft1_jan5 two_day_world))))
  = [entry_jan4].
Proof.
  destruct (@save_then_delete small_quota_env two_day_world draft1_jan5) as (H & _).
  - reflexivity.
  - reflexivity.
  - exact H.
Defined.

(* ====================================================================== *)
(** * Further properties of the provider client                            *)
(* ====================================================================== *)

Lemma log_requests_nil (w : World) : log_requests [] w = w.
Proof. unfold log_requests. rewrite app_nil_r. destruct w; reflexivity. Qed.

Lemma log_requests_app (a b : list Request) (w : World) :
  log_requests b (log_requests a w) = log_requests (a ++ b) w.
Proof. unfold log_requests. simpl. rewrite app_assoc. reflexivity. Qed.

Lemma getApiKey_run (E : Env) (w : World) : getApiKey E w = (Ok (api_key_of E w), w).
Proof. reflexivity. Qed.

Lemma api_key_of_log (E : Env) (extra : list Request) (w : World) :
  api_key_of E (log_requests extra w) = api_key_of E w.
Proof. reflexivity. Qed.

Lemma fetch_run (E : Env) (req : Request) (w : World) :
  snd (fetch E req w) = log_requests [req] w.
Proof. unfold fetch. destruct (network E (requests w) req); reflexivity. Qed.

(** Tactic: split on every value a [match] of the goal inspects. *)
Ltac split_matches :=
  repeat match goal with
         | |- context [match ?x with _ => _ end] => destruct x
         end.

(** With a credential, [callGPT] logs the one request it sends, whatever
    the provider does with it. *)
Lemma callGPT_with_key (E : Env) (w : World) (messages : JsVal) (model : string)
    (jsonMode : bool) :
  api_key_of E w <> "" ->
  snd (callGPT E messages model jsonMode w)
  = log_requests [chat_request (api_key_of E w) messages model jsonMode] w.
Proof.
  intro Hk. unfold callGPT, bind at 1. rewrite getApiKey_run.
  rewrite (eqb_false_of_neq Hk).
  unfold bind at 1, fetch, chat_request.
  destruct (network E (requests w) _) as [e|ok json]; [reflexivity|].
  destruct ok; simpl; unfold bind, lift, throw; split_matches; reflexivity.
Qed.

Lemma callGPT_without_key (E : Env) (w : World) (messages : JsVal) (model : string)
    (jsonMode : bool) :
  api_key_of E w = "" ->
  callGPT E messages model jsonMode w
  = (Throw (Error "API Key missing. Please set it in Settings."), w).
Proof.
  intro Hk. unfold callGPT, bind at 1. rewrite getApiKey_run, Hk. reflexivity.
Qed.

(** [callGPT] logs at most one request and touches nothing else. *)
Lemma callGPT_effect (E : Env) (w : World) (messages : JsVal) (model : string)
    (jsonMode : bool) :
  exists extra, snd (callGPT E messages model jsonMode w) = log_requests extra w
                /\ (length extra <= 1)%nat.
Proof.
  destruct (String.eqb (api_key_of E w) "") eqn:Hk.
  - apply String.eqb_eq in Hk. exists [].
    rewrite (callGPT_without_key E w messages model jsonMode Hk), log_requests_nil.
    split; [reflexivity|simpl; lia].
  - apply String.eqb_neq in Hk. eexists.
    rewrite (callGPT_with_key E w messages model jsonMode Hk).
    split; [reflexivity|simpl; lia].
Qed.

Lemma callWhisper_effect (E : Env) (w : World) (audio : string) :
  exists extra, snd (callWhisper E audio w) = log_requests extra w
                /\ (length extra <= 1)%nat.
Proof.
  unfold callWhisper, bind at 1. rewrite getApiKey_run.
  destruct (String.eqb (api_key_of E w) "").
  - exists []. rewrite log_requests_nil. split; [reflexivity|simpl; lia].
  - unfold bind at 1, dataURLtoFile, bind at 1, lift.
    destruct (atob E _) as [bits|e].
    + eexists [_]. split; [|simpl; lia].
      unfold ret, bind at 1, fetch.
      destruct (network E (requests w) _) as [e|ok json]; [reflexivity|].
      destruct ok; simpl; unfold bind, lift, throw; split_matches; reflexivity.
    + exists []. rewrite log_requests_nil. split; [reflexivity|simpl; lia].
Qed.

Lemma finalTranscription_effect (E : Env) (w : World) (audioBase64 : option string)
    (textInput : string) :
  exists extra,
    snd (finalTranscription_of E audioBase64 textInput w) = log_requests extra w
    /\ (length extra <= 1)%nat
    /\ (audioBase64 = None -> extra = []).
Proof.
  unfold finalTranscription_of.
  destruct audioBase64 as [audio|].
  - destruct (String.eqb audio "").
    + exists []. rewrite log_requests_nil.
      split; [reflexivity|split; [simpl; lia|discriminate]].
    + destruct (callWhisper_effect E w audio) as (extra & Hw & Hlen).
      exists extra. split; [|split; [exact Hlen|discriminate]].
      unfold try_catch, bind.
      destruct (callWhisper E audio w) as [[audioText|err] w1]; simpl in Hw; subst w1.
      * destruct (truthy (JStr textInput)); reflexivity.
      * destruct (isQuotaError err); reflexivity.
  - exists []. rewrite log_requests_nil.
    split; [reflexivity|split; [simpl; lia|reflexivity]].
Qed.

(** X6. The analysis has no side effect beyond its requests: both storage
    slots, the clock and the alerts are as before, and the request log is
    the old log followed by at most two new requests, at most one when no
    audio is given. *)
Theorem analysis_only_logs_requests (E : Env) (audioBase64 : option string)
    (textInput : string) (imageUserBase64 : list string) (audioMimeType : string)
    (w : World) :
  exists extra,
    snd (analyzeJournalEntry E audioBase64 textInput imageUserBase64 audioMimeType w)
    = log_requests extra w
    /\ (length extra <= 2)%nat
    /\ (audioBase64 = None -> (length extra <= 1)%nat).
Proof.
  destruct (finalTranscription_effect E w audioBase64 textInput) as (x1 & H1 & L1 & N1).
  destruct (finalTranscription_total E audioBase64 textInput w) as (ft & w1 & Hft).
  rewrite Hft in H1. simpl in H1. subst w1.
  destruct (callGPT_effect E (log_requests x1 w)
              (messages_of (contentPayload_of ft imageUserBase64)) "gpt-4o" true)
    as (x2 & H2 & L2).
  exists (x1 ++ x2)%list. rewrite length_app.
  split; [|split; [lia|intro Hn; rewrite (N1 Hn); simpl; lia]].
  rewrite <- log_requests_app, <- H2.
  unfold analyzeJournalEntry, try_catch, bind at 1. rewrite Hft.
  unfold bind at 1.
  destruct (callGPT E _ "gpt-4o" true (log_requests x1 w)) as [[content|err] w2]; simpl.
  - unfold bind at 1, lift at 1.
    destruct (JSON_parse E (ToString content)) as [parsed|err].
    + destruct (result_of_parsed parsed ft w2) as [[r|err] w3] eqn:Hres.
      * destruct (result_of_parsed_Ok_inv _ _ _ Hres) as (-> & _). reflexivity.
      * assert (w3 = w2) as ->.
        { revert Hres. unfold result_of_parsed, bind, lift, ret.
          split_matches; intro H; injection H as _ <-; reflexivity. }
        destruct (isQuotaError err); reflexivity.
    + destruct (isQuotaError err); reflexivity.
  - destruct (isQuotaError err); reflexivity.
Qed.

(** X7. With a credential, [callGPT] sends exactly one request, a POST to
    the chat-completion endpoint carrying the credential as bearer token,
    whatever the provider answers; without one it sends none and raises. *)
Theorem callGPT_sends_one_request (E : Env) (w : World) (messages : JsVal)
    (model : string) (jsonMode : bool) :
  (api_key_of E w = "" ->
     callGPT E messages model jsonMode w
     = (Throw (Error "API Key missing. Please set it in Settings."), w))
  /\ (api_key_of E w <> "" ->
        exists req,
          requests (snd (callGPT E messages model jsonMode w)) = (requests w ++ [req])%list
          /\ url req = "https://api.openai.com/v1/chat/completions"
          /\ method req = "POST"
          /\ In ("Authorization", "Bearer " ++ api_key_of E w) (headers req)).
Proof.
  split; intro Hk.
  - apply callGPT_without_key. exact Hk.
  - exists (chat_request (api_key_of E w) messages model jsonMode).
    rewrite (callGPT_with_key E w messages model jsonMode Hk).
    split; [reflexivity|]. split; [reflexivity|]. split; [reflexivity|].
    right. left. reflexivity.
Qed.

Lemma callGPT_sends_one_request_witness :
  exists req,
    requests (snd (callGPT quota_env (JArr []) "gpt-4o" false keyed_world)) = [req]
    /\ In ("Authorization", "Bearer sk-test") (headers req).
Proof.
  destruct (@callGPT_sends_one_request quota_env keyed_world (JArr []) "gpt-4o" false)
    as (_ & H).
  destruct H as (req & Hreq & _ & _ & Hauth); [discriminate|].
  exists req. split; [exact Hreq|exact Hauth].
Defined.

Lemma analysis_only_logs_requests_witness :
  exists extra,
    snd (analyzeJournalEntry quota_env None "walked the dog" [] "audio/webm" keyed_world)
    = log_requests extra keyed_world
    /\ (length extra <= 1)%nat.
Proof.
  destruct (@analysis_only_logs_requests quota_env None "walked the dog" [] "audio/webm"
              keyed_world) as (extra & Hrun & _ & Hone).
  exists extra. split; [exact Hrun|apply Hone; reflexivity].
Defined.

Lemma missing_key_is_no_quota_error :
  isQuotaError (Error "API Key missing. Please set it in Settings.") = false.
Proof. reflexivity. Qed.

(** Without a credential the analysis returns the generic fallback and the
    world is as before. *)
Lemma analysis_without_key (E : Env) (w : World) (audioBase64 : option string)
    (textInput : string) (imageUserBase64 : list string) (audioMimeType : string) :
  api_key_of E w = "" ->
  analyzeJournalEntry E audioBase64 textInput imageUserBase64 audioMimeType w
  = (Ok (generic_fallback textInput), w).
Proof.
  intro Hk.
  assert (Hft : exists ft, finalTranscription_of E audioBase64 textInput w = (Ok ft, w)).
  { unfold finalTranscription_of.
    destruct audioBase64 as [audio|]; [|eexists; reflexivity].
    destruct (String.eqb audio ""); [eexists; reflexivity|].
    unfold try_catch, bind, callWhisper, bind. rewrite getApiKey_run, Hk. simpl.
    eexists. reflexivity. }
  destruct Hft as (ft & Hft).
  unfold analyzeJournalEntry, try_catch, bind at 1. rewrite Hft.
  unfold bind at 1. rewrite (callGPT_without_key E w _ _ _ Hk).
  reflexivity.
Qed.

(** The two chat helpers share their shape: one [callGPT] inside a [try]
    whose [catch] picks a scripted text. *)
Lemma guarded_call (E : Env) (w : World) (messages : JsVal) (k : JsVal -> JsVal)
    (on_quota on_failure : string) :
  exists v extra,
    try_catch (reply <- callGPT E messages "gpt-4o" false ;; ret (k reply))
              (fun e => if isQuotaError e then ret (JStr on_quota)
                        else ret (JStr on_failure)) w
    = (Ok v, log_requests extra w)
    /\ (length extra <= 1)%nat
    /\ (api_key_of E w = "" -> v = JStr on_failure /\ extra = [])
    /\ (forall content w1,
          callGPT E messages "gpt-4o" false w = (Ok content, w1) -> v = k content)
    /\ (forall err w1,
          callGPT E messages "gpt-4o" false w = (Throw err, w1) ->
          v = JStr (if isQuotaError err then on_quota else on_failure)).
Proof.
  unfold try_catch, bind.
  destruct (String.eqb (api_key_of E w) "") eqn:Hk.
  - apply String.eqb_eq in Hk.
    rewrite (callGPT_without_key E w messages "gpt-4o" false Hk).
    rewrite missing_key_is_no_quota_error.
    exists (JStr on_failure), []. rewrite log_requests_nil.
    split; [reflexivity|]. split; [simpl; lia|]. split; [split; reflexivity|].
    split; intros x w1 Hrun; [discriminate Hrun|].
    injection Hrun as <- _. reflexivity.
  - apply String.eqb_neq in Hk.
    pose proof (callGPT_with_key E w messages "gpt-4o" false Hk) as Hw.
    destruct (callGPT E messages "gpt-4o" false w) as [[content|err] w1];
      simpl in Hw; subst w1.
    + exists (k content), [chat_request (api_key_of E w) messages "gpt-4o" false].
      split; [reflexivity|]. split; [simpl; lia|].
      split; [intro H; contradiction|].
      split; intros x w1 Hrun; [|discriminate Hrun].
      injection Hrun as <- _. reflexivity.
    + exists (JStr (if isQuotaError err then on_quota else on_failure)),
             [chat_request (api_key_of E w) messages "gpt-4o" false].
      split; [destruct (isQuotaError err); reflexivity|]. split; [simpl; lia|].
      split; [intro H; contradiction|].
      split; intros x w1 Hrun; [discriminate Hrun|].
      injection Hrun as <- _. reflexivity.
Qed.

(** X8. [getChatReply] never raises and sends at most one request.  It
    returns what the chat completion answered, as it came; the scripted
    quota reply when the call failed with a quota marker; the connection
    notice for every other failure, which includes a missing credential
    (no request is sent then). *)
Theorem getChatReply_never_raises (E : Env) (w : World) (history : list ChatTurn)
    (lastMessage : string) :
  exists v extra,
    getChatReply E history lastMessage w = (Ok v, log_requests extra w)
    /\ (length extra <= 1)%nat
    /\ (api_key_of E w = "" ->
        v = JStr "（AI 连接中断，请检查网络或配置Key）" /\ extra = [])
    /\ (forall content w1,
          callGPT E (reply_messages history lastMessage) "gpt-4o" false w = (Ok content, w1) ->
          v = content)
    /\ (forall err w1,
          callGPT E (reply_messages history lastMessage) "gpt-4o" false w = (Throw err, w1) ->
          v = JStr (if isQuotaError err
                    then "（模拟回复）看来你今天过得很充实呢！能多跟我说说那个细节吗？[API额度已耗尽，这是自动回复]"
                    else "（AI 连接中断，请检查网络或配置Key）")).
Proof.
  destruct (guarded_call E w (reply_messages history lastMessage) (fun v => v)
              "（模拟回复）看来你今天过得很充实呢！能多跟我说说那个细节吗？[API额度已耗尽，这是自动回复]"
              "（AI 连接中断，请检查网络或配置Key）")
    as (v & extra & Hrun & Hlen & Hnokey & Hok & Herr).
  exists v, extra. split; [|repeat split; assumption || apply Hnokey; assumption].
  rewrite <- Hrun. unfold getChatReply, reply_messages, try_catch, bind, ret.
  destruct (callGPT E _ "gpt-4o" false w) as [[c|e] w1]; reflexivity.
Qed.

Lemma getChatReply_never_raises_witness :
  getChatReply offline_env sample_chat "And you?" fresh_world
  = (Ok (JStr "（AI 连接中断，请检查网络或配置Key）"), fresh_world).
Proof.
  destruct (@getChatReply_never_raises offline_env fresh_world sample_chat "And you?")
    as (v & extra & Hrun & _ & Hnokey & _).
  destruct (Hnokey eq_refl) as [-> ->].
  rewrite Hrun, log_requests_nil. reflexivity.
Defined.

(** X9. [summarizeChatSession] never raises and sends at most one request.
    Its result is the answer of the chat completion when that is truthy and
    the empty string otherwise, so never [undefined] or [null]; after a
    failure it is one of the two scripted sentences. *)
Theorem summarizeChatSession_never_raises (E : Env) (w : World)
    (chatHistory : list ChatTurn) :
  exists v extra,
    summarizeChatSession E chatHistory w = (Ok v, log_requests extra w)
    /\ (length extra <= 1)%nat
    /\ (api_key_of E w = "" -> v = JStr "无法生成摘要，请稍后再试。" /\ extra = [])
    /\ (forall content w1,
          callGPT E (summary_messages chatHistory) "gpt-4o" false w = (Ok content, w1) ->
          v = js_or content (JStr ""))
    /\ (forall err w1,
          callGPT E (summary_messages chatHistory) "gpt-4o" false w = (Throw err, w1) ->
          v = JStr (if isQuotaError err
                    then "【演示摘要】今天和AI聊得很开心，虽然API额度用完了，但我体验了整个流程。"
                    else "无法生成摘要，请稍后再试。"))
    /\ v <> JUndefined /\ v <> JNull.
Proof.
  destruct (guarded_call E w (summary_messages chatHistory) (fun v => js_or v (JStr ""))
              "【演示摘要】今天和AI聊得很开心，虽然API额度用完了，但我体验了整个流程。"
              "无法生成摘要，请稍后再试。")
    as (v & extra & Hrun & Hlen & Hnokey & Hok & Herr).
  exists v, extra.
  split; [exact Hrun|]. split; [exact Hlen|]. split; [exact Hnokey|].
  split; [exact Hok|]. split; [exact Herr|].
  destruct (callGPT E (summary_messages chatHistory) "gpt-4o" false w)
    as [[content|err] w1] eqn:Hcall.
  - rewrite (Hok content w1 eq_refl). unfold js_or.
    destruct content; simpl; split; try discriminate;
      match goal with |- (if ?b then _ else _) <> _ => destruct b; discriminate end.
  - rewrite (Herr err w1 eq_refl). split; discriminate.
Qed.

Lemma summarizeChatSession_never_raises_witness :
  summarizeChatSession quota_env sample_chat keyed_world
  = (Ok (JStr "【演示摘要】今天和AI聊得很开心，虽然API额度用完了，但我体验了整个流程。"),
     snd (summarizeChatSession quota_env sample_chat keyed_world)).
Proof.
  destruct (@summarizeChatSession_never_raises quota_env keyed_world sample_chat)
    as (v & extra & Hrun & _ & _ & _ & Herr & _).
  rewrite Hrun. simpl. f_equal.
  rewrite (Herr quota_error (snd (callGPT quota_env (summary_messages sample_chat)
                                         "gpt-4o" false keyed_world)));
    reflexivity.
Defined.

(* ====================================================================== *)
(** * Properties of the settings dialog                                    *)
(* ====================================================================== *)

Lemma startsWith_sk_nonempty (k : string) :
  startsWith k "sk-" = true -> String.eqb k "" = false.
Proof. destruct k; [discriminate|reflexivity]. Qed.

(** X10. Saving a key, then using it.  A key that starts with [sk-] and
    that the storage accepts is from then on the credential [getApiKey]
    yields, whatever the build-time default; the settings dialog closes with
    the key marked present, and the stored entries are not touched. *)
Theorem saveApiKey_round_trip (E : Env) (room : string -> bool) (st : SettingsState)
    (w : World) :
  startsWith (apiKeyInput st) "sk-" = true ->
  room (apiKeyInput st) = true ->
  exists st' w',
    saveApiKey room st w = (Ok st', w')
    /\ api_key_of E w' = apiKeyInput st
    /\ stored_key_present w' = true
    /\ hasKey st' = true /\ showSettings st' = false
    /\ soullog_entries_v1 w' = soullog_entries_v1 w
    /\ requests w' = requests w.
Proof.
  intros Hprefix Hroom.
  unfold saveApiKey. rewrite Hprefix.
  unfold bind, setItem_api_key. rewrite Hroom. simpl.
  eexists. eexists. split; [reflexivity|].
  unfold api_key_of, getApiKey, stored_key_present. simpl.
  rewrite (startsWith_sk_nonempty _ Hprefix), Hprefix. simpl.
  repeat split.
Qed.

Lemma saveApiKey_round_trip_witness :
  exists st' w',
    saveApiKey (fun _ => true)
               {| apiKeyInput := "sk-test"; hasKey := false; showSettings := true |}
               fresh_world = (Ok st', w')
    /\ api_key_of offline_env w' = "sk-test"
    /\ hasKey st' = true.
Proof.
  destruct (@saveApiKey_round_trip offline_env (fun _ => true)
              {| apiKeyInput := "sk-test"; hasKey := false; showSettings := true |}
              fresh_world eq_refl eq_refl)
    as (st' & w' & Hrun & Hkey & _ & Hhas & _).
  exists st', w'. split; [exact Hrun|]. split; [exact Hkey|exact Hhas].
Defined.

(** X11. What [saveApiKey] never stores.  An input without the [sk-] prefix
    is refused: the dialog state and the stored key stay as they were, so
    the credential in use does not change, and one alert is shown.  A
    well-formed input that the storage refuses raises and changes
    nothing. *)
Theorem saveApiKey_refusals (E : Env) (room : string -> bool) (st : SettingsState)
    (w : World) :
  (startsWith (apiKeyInput st) "sk-" = false ->
     exists w',
       saveApiKey room st w = (Ok st, w')
       /\ openai_api_key w' = openai_api_key w
       /\ api_key_of E w' = api_key_of E w
       /\ alerts w' = (alerts w ++ ["Invalid API Key format (must start with sk-)"])%list)
  /\ (startsWith (apiKeyInput st) "sk-" = true -> room (apiKeyInput st) = false ->
        exists err, saveApiKey room st w = (Throw err, w)).
Proof.
  split.
  - intro Hprefix. unfold saveApiKey. rewrite Hprefix.
    eexists. split; [reflexivity|]. repeat split.
  - intros Hprefix Hroom. unfold saveApiKey. rewrite Hprefix.
    unfold bind, setItem_api_key. rewrite Hroom. eexists. reflexivity.
Qed.

Lemma saveApiKey_refusals_witness :
  (exists w',
      saveApiKey (fun _ => true)
                 {| apiKeyInput := "my-key"; hasKey := true; showSettings := true |}
                 keyed_world
      = (Ok {| apiKeyInput := "my-key"; hasKey := true; showSettings := true |}, w')
      /\ api_key_of offline_env w' = "sk-test")
  /\ (exists err,
         saveApiKey (fun _ => false)
                    {| apiKeyInput := "sk-new"; hasKey := true; showSettings := true |}
                    keyed_world = (Throw err, keyed_world)).
Proof.
  split.
  - destruct (@saveApiKey_refusals offline_env (fun _ => true)
                {| apiKeyInput := "my-key"; hasKey := true; showSettings := true |}
                keyed_world) as (H & _).
    destruct (H eq_refl) as (w' & Hrun & _ & Hkey & _).
    exists w'. split; [exact Hrun|]. rewrite Hkey. reflexivity.
  - destruct (@saveApiKey_refusals offline_env (fun _ => false)
                {| apiKeyInput := "sk-new"; hasKey := true; showSettings := true |}
                keyed_world) as (_ & H).
    apply H; reflexivity.
Defined.

(** X12. Clearing the key switches the provider off.  After [clearApiKey],
    with the empty build-time default, there is no credential: the next
    analysis sends no request and returns the generic fallback, and the next
    chat reply is the connection notice. *)
Theorem clearApiKey_disables_provider (E : Env) (st : SettingsState) (w : World)
    (audioBase64 : option string) (textInput : string) (imageUserBase64 : list string)
    (audioMimeType : string) (history : list ChatTurn) (lastMessage : string) :
  process_env_API_KEY E = "" ->
  exists st' w',
    clearApiKey st w = (Ok st', w')
    /\ hasKey st' = false /\ apiKeyInput st' = ""
    /\ stored_key_present w' = false
    /\ api_key_of E w' = ""
    /\ soullog_entries_v1 w' = soullog_entries_v1 w
    /\ analyzeJournalEntry E audioBase64 textInput imageUserBase64 audioMimeType w'
       = (Ok (generic_fallback textInput), w')
    /\ getChatReply E history lastMessage w'
       = (Ok (JStr "（AI 连接中断，请检查网络或配置Key）"), w').
Proof.
  intro Henv.
  eexists. eexists. split; [reflexivity|].
  match goal with
  | |- context [api_key_of E ?w0] =>
      assert (Hk : api_key_of E w0 = "")
        by (unfold api_key_of, getApiKey; simpl; rewrite Henv; reflexivity)
  end.
  split; [reflexivity|]. split; [reflexivity|]. split; [reflexivity|].
  split; [exact Hk|]. split; [reflexivity|]. split.
  - apply analysis_without_key. exact Hk.
  - unfold getChatReply, try_catch.
    rewrite (callGPT_without_key E _ _ "gpt-4o" false Hk).
    reflexivity.
Qed.

Lemma clearApiKey_disables_provider_witness :
  exists st' w',
    clearApiKey {| apiKeyInput := "sk-test"; hasKey := true; showSettings := true |}
                keyed_world = (Ok st', w')
    /\ api_key_of quota_env w' = ""
    /\ analyzeJournalEntry quota_env None "walked the dog" [] "audio/webm" w'
       = (Ok (generic_fallback "walked the dog"), w').
Proof.
  destruct (@clearApiKey_disables_provider quota_env
              {| apiKeyInput := "sk-test"; hasKey := true; showSettings := true |}
              keyed_world None "walked the dog" [] "audio/webm" sample_chat "And you?"
              eq_refl)
    as (st' & w' & Hrun & _ & _ & _ & Hk & _ & Han & _).
  exists st', w'. split; [exact Hrun|]. split; [exact Hk|exact Han].
Defined.

(* ====================================================================== *)
(** * Properties of the composed text and of the audio upload              *)
(* ====================================================================== *)

(** X13. The composed text keeps the caller's text.  Whatever the
    transcription call does, step 1 of the analysis returns normally, and
    the text it composes starts with the text input; when the transcription
    call raises, the composed text is the text input followed by a line
    holding one of the two failure notes. *)
Theorem composed_text_keeps_input (E : Env) (audioBase64 : option string)
    (textInput : string) (w : World) :
  exists ft w1 suffix,
    finalTranscription_of E audioBase64 textInput w = (Ok ft, w1)
    /\ ToString ft = textInput ++ suffix
    /\ (textInput <> "" -> ft = JStr (textInput ++ suffix))
    /\ (audioBase64 = None -> ft = JStr textInput)
    /\ (forall audio err w0,
          audioBase64 = Some audio -> audio <> "" ->
          callWhisper E audio w = (Throw err, w0) ->
          ft = JStr (textInput ++ nl
                     ++ (if isQuotaError err
                         then "(语音转文字演示：API额度已耗尽)"
                         else "(语音转文字失败：请检查Key)"))).
Proof.
  assert (Hnil : forall s : string, s = s ++ "")
    by (induction s as [|c s IH]; simpl; [reflexivity|f_equal; exact IH]).
  unfold finalTranscription_of.
  destruct audioBase64 as [audio|].
  - destruct (String.eqb audio "") eqn:Ha.
    + apply String.eqb_eq in Ha. subst audio.
      exists (JStr textInput), w, "".
      split; [reflexivity|]. split; [apply Hnil|].
      split; [intros _; f_equal; apply Hnil|]. split; [discriminate|].
      intros audio err w0 [= <-] Hne. contradiction.
    + unfold try_catch, bind.
      destruct (callWhisper E audio w) as [[audioText|err] w1] eqn:Hcall.
      * unfold truthy. destruct (String.eqb textInput "") eqn:Ht;
          cbv beta iota delta [negb ret].
        -- apply String.eqb_eq in Ht. subst textInput.
           exists audioText, w1, (ToString audioText).
           split; [reflexivity|]. split; [reflexivity|].
           split; [intro H; contradiction|]. split; [discriminate|].
           intros a e w0 [= <-] _ Hrun. rewrite Hcall in Hrun. discriminate Hrun.
        -- eexists. exists w1. eexists.
           split; [reflexivity|]. split; [reflexivity|].
           split; [reflexivity|]. split; [discriminate|].
           intros a e w0 [= <-] _ Hrun. rewrite Hcall in Hrun. discriminate Hrun.
      * exists (JStr (textInput ++ nl
                      ++ (if isQuotaError err
                          then "(语音转文字演示：API额度已耗尽)"
                          else "(语音转文字失败：请检查Key)"))), w1.
        eexists.
        split; [destruct (isQuotaError err); reflexivity|].
        split; [reflexivity|]. split; [reflexivity|]. split; [discriminate|].
        intros a e w0 [= <-] _ Hrun. rewrite Hcall in Hrun.
        injection Hrun as <- _. reflexivity.
  - exists (JStr textInput), w, "".
    split; [reflexivity|]. split; [apply Hnil|].
    split; [intros _; f_equal; apply Hnil|]. split; [reflexivity|].
    intros audio err w0 Hsome. discriminate Hsome.
Qed.

Lemma composed_text_keeps_input_witness :
  exists ft w1,
    finalTranscription_of offline_env (Some sample_audio) "walked the dog" fresh_world
    = (Ok ft, w1)
    /\ ft = JStr ("walked the dog" ++ nl ++ "(语音转文字失败：请检查Key)").
Proof.
  destruct (@composed_text_keeps_input offline_env (Some sample_audio) "walked the dog"
              fresh_world) as (ft & w1 & suffix & Hrun & _ & _ & _ & Hfail).
  exists ft, w1. split; [exact Hrun|].
  apply (Hfail sample_audio (Error "API Key missing. Please set it in Settings.")
               fresh_world eq_refl).
  - discriminate.
  - reflexivity.
Defined.

Lemma ascii_eqb_code (c : ascii) (k : nat) :
  (k < 256)%nat -> Ascii.eqb c (ascii_of_nat k) = (nat_of_ascii c =? k)%nat.
Proof.
  intro Hk.
  destruct (Ascii.eqb_spec c (ascii_of_nat k)) as [->|Hne].
  - rewrite nat_ascii_embedding by exact Hk. symmetry. apply Nat.eqb_refl.
  - symmetry. apply Nat.eqb_neq. intro Heq. apply Hne.
    rewrite <- Heq. symmetry. apply ascii_nat_embedding.
Qed.

Lemma mime_char_facts (c : ascii) :
  mime_char c = true ->
  Ascii.eqb c ";"%char = false /\ Ascii.eqb c ","%char = false
  /\ Ascii.eqb c (ascii_of_nat 10) = false /\ Ascii.eqb c (ascii_of_nat 13) = false
  /\ Ascii.eqb c (ascii_of_nat 226) = false.
Proof.
  unfold mime_char. intro H.
  change ";"%char with (ascii_of_nat 59). change ","%char with (ascii_of_nat 44).
  rewrite !ascii_eqb_code by lia.
  apply andb_prop in H. destruct H as [H H13].
  apply andb_prop in H. destruct H as [H H10].
  apply andb_prop in H. destruct H as [H H44].
  apply andb_prop in H. destruct H as [H128 H59].
  apply Nat.ltb_lt in H128.
  apply negb_true_iff in H13, H10, H44, H59.
  repeat split; try assumption.
  apply Nat.eqb_neq. lia.
Qed.

Lemma lazy_upto_semicolon_mime (mime rest : string) :
  forallb mime_char (list_ascii_of_string mime) = true ->
  lazy_upto_semicolon (mime ++ String ";" rest) = Some mime.
Proof.
  induction mime as [|c mime IH]; intro H; [reflexivity|].
  simpl in H. apply andb_prop in H. destruct H as [Hc Hrest].
  destruct (mime_char_facts c Hc) as (Hsemi & _ & Hlf & Hcr & Hbig).
  cbn [append lazy_upto_semicolon]. rewrite Hsemi.
  unfold at_line_terminator. rewrite Hlf, Hcr, Hbig. cbn [orb andb].
  assert (Hno : (match mime ++ String ";" rest with
                 | String _ (String _ _) => false
                 | _ => false
                 end) = false)
    by (destruct (mime ++ String ";" rest) as [|? [|? ?]]; reflexivity).
  rewrite Hno, (IH Hrest). reflexivity.
Qed.

Lemma split_comma_piece (a b : string) :
  no_comma a = true ->
  split_comma (a ++ String "," b) = a :: split_comma b.
Proof.
  unfold no_comma.
  induction a as [|c a IH]; intro H; [reflexivity|].
  simpl in H. apply andb_prop in H. destruct H as [Hc Hrest].
  apply negb_true_iff in Hc.
  cbn [append split_comma]. rewrite Hc, (IH Hrest). reflexivity.
Qed.

Lemma split_comma_last (b : string) :
  no_comma b = true -> split_comma b = [b].
Proof.
  unfold no_comma.
  induction b as [|c b IH]; intro H; [reflexivity|].
  simpl in H. apply andb_prop in H. destruct H as [Hc Hrest].
  apply negb_true_iff in Hc.
  cbn [split_comma]. rewrite Hc, (IH Hrest). reflexivity.
Qed.

Lemma no_comma_mime (mime tail : string) :
  forallb mime_char (list_ascii_of_string mime) = true ->
  no_comma tail = true ->
  no_comma (mime ++ tail) = true.
Proof.
  unfold no_comma.
  induction mime as [|c mime IH]; intros H Ht; [exact Ht|].
  simpl in H. apply andb_prop in H. destruct H as [Hc Hrest].
  destruct (mime_char_facts c Hc) as (_ & Hcomma & _).
  simpl. rewrite Hcomma. simpl. apply IH; assumption.
Qed.

Lemma string_app_assoc (a b c : string) : (a ++ b) ++ c = a ++ (b ++ c).
Proof. induction a as [|x a IH]; simpl; [reflexivity|f_equal; exact IH]. Qed.

Lemma string_app_nil_r (a : string) : a ++ "" = a.
Proof. induction a as [|x a IH]; simpl; [reflexivity|f_equal; exact IH]. Qed.

Lemma File_type_lower_printable (type : string) :
  forallb is_lower_printable (list_ascii_of_string type) = true ->
  forallb is_printable (list_ascii_of_string type) = true
  /\ string_map to_ascii_lower type = type.
Proof.
  induction type as [|c type IH]; intro H; [split; reflexivity|].
  simpl in H. apply andb_prop in H. destruct H as [Hc Hrest].
  destruct (IH Hrest) as [Hp Hm].
  unfold is_lower_printable in Hc.
  apply andb_prop in Hc. destruct Hc as [Hrange Hcase].
  apply negb_true_iff in Hcase.
  split.
  - cbn [list_ascii_of_string forallb]. rewrite Hp.
    unfold is_printable. cbv zeta. rewrite Hrange. reflexivity.
  - cbn [string_map]. rewrite Hm. unfold to_ascii_lower. cbv zeta.
    rewrite Hcase. reflexivity.
Qed.

(** X14. The upload built from a recording.  For a data URL
    [data:<mime>;base64,<payload>] whose media type is ASCII without [;],
    [,], LF and CR and whose payload holds no comma, [dataURLtoFile] decodes
    exactly the payload and gives the file the given name and, as its type,
    what the [File] constructor keeps of the media type of the URL: the
    media type itself when it is printable and without capital letters, its
    lower case when it is printable, the empty string otherwise.  It raises
    exactly when [atob] does. *)
Theorem dataURLtoFile_of_data_url (E : Env) (w : World) (mime payload filename : string) :
  mime <> "" ->
  forallb mime_char (list_ascii_of_string mime) = true ->
  no_comma payload = true ->
  dataURLtoFile E ("data:" ++ mime ++ ";base64," ++ payload) filename w
  = (match atob E payload with
     | Ok bits => Ok {| file_bits := bits; file_name := filename;
                        file_type := File_type mime |}
     | Throw e => Throw e
     end, w)
  /\ (forallb is_lower_printable (list_ascii_of_string mime) = true ->
      File_type mime = mime)
  /\ (forallb is_printable (list_ascii_of_string mime) = true ->
      File_type mime = string_map to_ascii_lower mime)
  /\ (forallb is_printable (list_ascii_of_string mime) = false ->
      File_type mime = "").
Proof.
  intros Hne Hmime Hpayload.
  assert (Hshape : "data:" ++ mime ++ ";base64," ++ payload
                   = ("data:" ++ mime ++ ";base64") ++ String "," payload).
  { rewrite !string_app_assoc. reflexivity. }
  assert (Hsplit : split_comma ("data:" ++ mime ++ ";base64," ++ payload)
                   = ["data:" ++ mime ++ ";base64"; payload]).
  { rewrite Hshape, split_comma_piece.
    - rewrite (split_comma_last payload Hpayload). reflexivity.
    - unfold no_comma. simpl.
      apply (no_comma_mime mime ";base64" Hmime). reflexivity. }
  assert (Hmatch : match_mime ("data:" ++ mime ++ ";base64") = Some mime).
  { cbn [append match_mime Ascii.eqb Bool.eqb].
    rewrite (lazy_upto_semicolon_mime mime "base64" Hmime). reflexivity. }
  split; [|split; [|split]].
  - unfold dataURLtoFile. rewrite Hsplit. cbn [nth]. rewrite Hmatch.
    unfold str_or. rewrite (eqb_false_of_neq Hne).
    unfold bind, lift, ret, new_File. destruct (atob E payload); reflexivity.
  - intro Hlow. destruct (File_type_lower_printable mime Hlow) as [Hp Hm].
    unfold File_type. rewrite Hp. exact Hm.
  - intro Hp. unfold File_type. rewrite Hp. reflexivity.
  - intro Hp. unfold File_type. rewrite Hp. reflexivity.
Qed.

Lemma dataURLtoFile_of_data_url_witness :
  dataURLtoFile quota_env sample_audio "audio.webm" fresh_world
  = (Ok {| file_bits := "AAAA"; file_name := "audio.webm"; file_type := "audio/webm" |},
     fresh_world)
  /\ fst (dataURLtoFile quota_env "data:Audio/WebM;base64,AAAA" "audio.webm" fresh_world)
     = Ok {| file_bits := "AAAA"; file_name := "audio.webm"; file_type := "audio/webm" |}.
Proof.
  split.
  - destruct (@dataURLtoFile_of_data_url quota_env fresh_world "audio/webm" "AAAA"
                "audio.webm") as (Hrun & Hsame & _);
      [discriminate|reflexivity|reflexivity|].
    rewrite (Hsame eq_refl) in Hrun. exact Hrun.
  - destruct (@dataURLtoFile_of_data_url quota_env fresh_world "Audio/WebM" "AAAA"
                "audio.webm") as (Hrun & _ & Hlower & _);
      [discriminate|reflexivity|reflexivity|].
    rewrite (Hlower eq_refl) in Hrun. apply (f_equal fst) in Hrun. exact Hrun.
Defined.

(* ====================================================================== *)
(** * Properties of task editing                                           *)
(* ====================================================================== *)

Section ExcFacts.
Variables A B : Type.

Lemma map_exc_total (f : A -> Exc B) (g : A -> B) (xs : list A) :
  Forall (fun x => f x = Ok (g x)) xs -> map_exc f xs = Ok (map g xs).
Proof.
  induction 1 as [|x xs Hx _ IH]; simpl; [reflexivity|].
  rewrite Hx, IH. reflexivity.
Qed.

Lemma filter_exc_total (p : A -> Exc bool) (q : A -> bool) (xs : list A) :
  Forall (fun x => p x = Ok (q x)) xs -> filter_exc p xs = Ok (filter q xs).
Proof.
  induction 1 as [|x xs Hx _ IH]; simpl; [reflexivity|].
  rewrite Hx, IH. reflexivity.
Qed.
End ExcFacts.

Lemma id_is_item (t : JsVal) (id : string) :
  is_task_item t -> id_is t id = Ok (has_id id t).
Proof. intros (i & x & c & ->). reflexivity. Qed.

Lemma has_id_item (i : string) (x : JsVal) (c : bool) (id : string) :
  has_id id (TaskItem i x c) = String.eqb i id.
Proof. reflexivity. Qed.

Lemma flipped_item (i : string) (x : JsVal) (c : bool) (id : string) :
  flipped_if id (TaskItem i x c) = TaskItem i x (if String.eqb i id then negb c else c).
Proof. unfold flipped_if. rewrite has_id_item. destruct (String.eqb i id); reflexivity. Qed.


Lemma tasks_toggled_items (id : string) (ts : list JsVal) :
  Forall is_task_item ts -> tasks_toggled id ts = Ok (map (flipped_if id) ts).
Proof.
  intro Hwf. unfold tasks_toggled. apply map_exc_total.
  eapply Forall_impl; [|exact Hwf].
  intros t Ht. rewrite (id_is_item id Ht). unfold flipped_if.
  destruct (has_id id t); reflexivity.
Qed.


Lemma tasks_without_items (id : string) (ts : list JsVal) :
  Forall is_task_item ts ->
  tasks_without id ts = Ok (filter (fun t => negb (has_id id t)) ts).
Proof.
  intro Hwf. unfold tasks_without. apply filter_exc_total.
  eapply Forall_impl; [|exact Hwf].
  intros t Ht. rewrite (id_is_item id Ht). reflexivity.
Qed.

Lemma flipped_is_item (id : string) (t : JsVal) :
  is_task_item t -> is_task_item (flipped_if id t).
Proof.
  intros (i & x & c & ->). rewrite flipped_item. eexists. eexists. eexists. reflexivity.
Qed.


Lemma flipped_twice (id : string) (t : JsVal) :
  is_task_item t -> flipped_if id (flipped_if id t) = t.
Proof.
  intros (i & x & c & ->). rewrite !flipped_item.
  destruct (String.eqb i id); [rewrite negb_involutive|]; reflexivity.
Qed.

Lemma with_md_tasks_same (md : MoodData) : with_md_tasks md (md_tasks md) = md.
Proof. destruct md; reflexivity. Qed.

(** X15. Toggling a task.  On a mood state whose tasks are well formed,
    [toggleTask(id)] returns normally; the mood fields and the number and
    order of the tasks are kept, every task keeps its id and text, and the
    flag is negated on exactly the tasks that carry the id.  Without a mood
    state nothing happens. *)
Theorem toggleTask_flips_matching (md : MoodData) (id : string) :
  Forall is_task_item (md_tasks md) ->
  toggleTask None id = Ok None
  /\ exists md',
       toggleTask (Some md) id = Ok (Some md')
       /\ emoji md' = emoji md /\ desc md' = desc md
       /\ key md' = key md /\ score md' = score md
       /\ length (md_tasks md') = length (md_tasks md)
       /\ Forall is_task_item (md_tasks md')
       /\ forall n i x c,
            nth_error (md_tasks md) n = Some (TaskItem i x c) ->
            nth_error (md_tasks md') n
            = Some (TaskItem i x (if String.eqb i id then negb c else c)).
Proof.
  intro Hwf. split; [reflexivity|].
  exists (with_md_tasks md (map (flipped_if id) (md_tasks md))).
  unfold toggleTask. rewrite (tasks_toggled_items id Hwf).
  split; [reflexivity|]. repeat split.
  - simpl. apply length_map.
  - simpl. apply Forall_map. eapply Forall_impl; [|exact Hwf].
    intros t Ht. apply flipped_is_item. exact Ht.
  - intros n i x c Hn. simpl. rewrite nth_error_map, Hn. simpl.
    rewrite flipped_item. reflexivity.
Qed.

Lemma toggleTask_flips_matching_witness :
  exists md',
    toggleTask (Some sample_moodData) "ai-1704412600000-0" = Ok (Some md')
    /\ nth_error (md_tasks md') 1
       = Some (TaskItem "ai-1704412600000-0" (JStr "buy milk") true)
    /\ nth_error (md_tasks md') 0
       = Some (TaskItem "manual-1704412700000" (JStr "Go to Settings") true).
Proof.
  destruct (@toggleTask_flips_matching sample_moodData "ai-1704412600000-0")
    as (_ & md' & Hrun & _ & _ & _ & _ & _ & _ & Hnth).
  - repeat constructor; eexists; eexists; eexists; reflexivity.
  - exists md'. split; [exact Hrun|]. split.
    + apply (Hnth 1%nat "ai-1704412600000-0" (JStr "buy milk") false). reflexivity.
    + apply (Hnth 0%nat "manual-1704412700000" (JStr "Go to Settings") true). reflexivity.
Defined.

(** X16. Toggling twice.  On well-formed tasks a second [toggleTask] with
    the same id restores the mood state exactly. *)
Theorem toggleTask_twice (md : MoodData) (id : string) :
  Forall is_task_item (md_tasks md) ->
  exists md',
    toggleTask (Some md) id = Ok (Some md')
    /\ toggleTask (Some md') id = Ok (Some md).
Proof.
  intro Hwf.
  exists (with_md_tasks md (map (flipped_if id) (md_tasks md))).
  unfold toggleTask. rewrite (tasks_toggled_items id Hwf).
  split; [reflexivity|].
  cbn [md_tasks with_md_tasks].
  rewrite tasks_toggled_items.
  - rewrite map_map.
    assert (Hback : map (fun t => flipped_if id (flipped_if id t)) (md_tasks md)
                    = md_tasks md).
    { clear -Hwf. induction Hwf as [|t ts Ht _ IH]; simpl; [reflexivity|].
      rewrite (flipped_twice id Ht), IH. reflexivity. }
    rewrite Hback. destruct md; reflexivity.
  - apply Forall_map. eapply Forall_impl; [|exact Hwf].
    intros t Ht. apply flipped_is_item. exact Ht.
Qed.

Lemma toggleTask_twice_witness :
  exists md',
    toggleTask (Some sample_moodData) "ai-1704412600000-0" = Ok (Some md')
    /\ toggleTask (Some md') "ai-1704412600000-0" = Ok (Some sample_moodData).
Proof.
  apply (@toggleTask_twice sample_moodData "ai-1704412600000-0").
  repeat constructor; eexists; eexists; eexists; reflexivity.
Defined.

(** X17. Deleting a task.  On well-formed tasks [deleteTask(id)] returns
    normally with the tasks that do not carry the id, in their order: no
    task with the id is left, every other task stays, the tasks are still
    well formed, and when no task carries the id the mood state is
    unchanged. *)
Theorem deleteTask_removes_matching (md : MoodData) (id : string) :
  Forall is_task_item (md_tasks md) ->
  exists md',
    deleteTask (Some md) id = Ok (Some md')
    /\ md_tasks md' = filter (fun t => negb (has_id id t)) (md_tasks md)
    /\ (forall x c, ~ In (TaskItem id x c) (md_tasks md'))
    /\ (forall i x c, i <> id -> In (TaskItem i x c) (md_tasks md) ->
                      In (TaskItem i x c) (md_tasks md'))
    /\ Forall is_task_item (md_tasks md')
    /\ (length (md_tasks md') <= length (md_tasks md))%nat
    /\ ((forall x c, ~ In (TaskItem id x c) (md_tasks md)) -> md' = md).
Proof.
  intro Hwf.
  exists (with_md_tasks md (filter (fun t => negb (has_id id t)) (md_tasks md))).
  unfold deleteTask. rewrite (tasks_without_items id Hwf).
  split; [reflexivity|]. split; [reflexivity|]. cbn [md_tasks with_md_tasks].
  split; [|split; [|split; [|split]]].
  - intros x c Hin. apply filter_In in Hin. destruct Hin as [_ Hneg].
    rewrite has_id_item, String.eqb_refl in Hneg. discriminate Hneg.
  - intros i x c Hne Hin. apply filter_In. split; [exact Hin|].
    rewrite has_id_item, (eqb_false_of_neq Hne). reflexivity.
  - apply Forall_forall. intros t Hin. apply filter_In in Hin.
    apply (proj1 (Forall_forall _ _) Hwf t (proj1 Hin)).
  - apply filter_length_le.
  - intro Hnone.
    assert (Hsame : filter (fun t => negb (has_id id t)) (md_tasks md) = md_tasks md).
    { clear -Hwf Hnone. induction Hwf as [|t ts Ht _ IH]; simpl; [reflexivity|].
      destruct Ht as (i & x & c & ->). rewrite has_id_item.
      destruct (String.eqb i id) eqn:Hi.
      - apply String.eqb_eq in Hi. subst i. exfalso. apply (Hnone x c). left. reflexivity.
      - simpl. f_equal. apply IH. intros x' c' Hin. apply (Hnone x' c'). right. exact Hin. }
    rewrite Hsame. apply with_md_tasks_same.
Qed.

Lemma deleteTask_removes_matching_witness :
  exists md',
    deleteTask (Some sample_moodData) "ai-1704412600000-0" = Ok (Some md')
    /\ md_tasks md' = [TaskItem "manual-1704412700000" (JStr "Go to Settings") true].
Proof.
  destruct (@deleteTask_removes_matching sample_moodData "ai-1704412600000-0")
    as (md' & Hrun & Htasks & _).
  - repeat constructor; eexists; eexists; eexists; reflexivity.
  - exists md'. split; [exact Hrun|]. rewrite Htasks. reflexivity.
Defined.

Example trim_is_empty_examples :
  trim_is_empty "" = true /\ trim_is_empty "   " = true
  /\ trim_is_empty ("  " ++ nl) = true /\ trim_is_empty "　" = true
  /\ trim_is_empty " buy milk " = false /\ trim_is_empty "买牛奶" = false.
Proof. repeat split; reflexivity. Qed.






(* ====================================================================== *)
(** * Ids minted in one batch are pairwise distinct                        *)
(* ====================================================================== *)

Lemma to_int_proper (z : Z) :
  Z.to_int z <> Decimal.Pos Decimal.Nil /\ Z.to_int z <> Decimal.Neg Decimal.Nil.
Proof.
  destruct z as [|p|p]; simpl; split; try discriminate;
    intro H; injection H as H; apply (DecimalPos.Unsigned.to_uint_nonnil p H).
Qed.

(** Distinct integers print differently. *)
Lemma Number_toString_inj (a b : Z) :
  Number_toString a = Number_toString b -> a = b.
Proof.
  unfold Number_toString. intro H.
  apply (f_equal NilZero.int_of_string) in H.
  destruct (to_int_proper a) as [Ha1 Ha2]. destruct (to_int_proper b) as [Hb1 Hb2].
  rewrite !NilZero.isi in H by assumption.
  injection H as H. apply DecimalZ.to_int_inj. exact H.
Qed.

Lemma index_toString_inj (i j : nat) : index_toString i = index_toString j -> i = j.
Proof.
  unfold index_toString. intro H. apply Nat2Z.inj. apply Number_toString_inj. exact H.
Qed.

Lemma digits_no_dash (d : Decimal.uint) : no_dash (NilEmpty.string_of_uint d) = true.
Proof. unfold no_dash. induction d; simpl; try exact IHd; reflexivity. Qed.

(** The text of an array index holds digits only. *)
Lemma index_toString_no_dash (i : nat) : no_dash (index_toString i) = true.
Proof.
  unfold index_toString, Number_toString.
  destruct (Z.of_nat i) as [|p|p] eqn:Hz.
  - reflexivity.
  - simpl. unfold NilZero.string_of_uint.
    destruct (Pos.to_uint p) eqn:Hp; try (rewrite <- Hp; apply digits_no_dash).
    reflexivity.
  - pose proof (Nat2Z.is_nonneg i). rewrite Hz in H. exfalso. apply H. reflexivity.
Qed.

Lemma no_dash_with_dash (b y : string) : no_dash (b ++ String "-" y) = false.
Proof.
  unfold no_dash. induction b as [|c b IH]; simpl; [reflexivity|].
  rewrite IH. apply andb_false_r.
Qed.

(** The part after the last [-] is determined by the whole text. *)
Lemma after_last_dash (a b x y : string) :
  no_dash x = true -> no_dash y = true ->
  a ++ String "-" x = b ++ String "-" y -> x = y.
Proof.
  intros Hx Hy. revert b.
  induction a as [|c a IH]; intros [|c' b] H; simpl in H.
  - injection H as H. exact H.
  - injection H as _ H. rewrite H, no_dash_with_dash in Hx. discriminate Hx.
  - injection H as _ H. rewrite <- H, no_dash_with_dash in Hy. discriminate Hy.
  - injection H as _ H. apply (IH b H).
Qed.

Section BatchIds.
Variable A : Type.
Variable E : Env.
Variable g : Z -> A -> nat -> JsVal.
Variable stem : Z -> string.
Hypothesis g_id : forall z x j, task_id (g z x j) = JStr (stem z ++ String "-" (index_toString j)).

Lemma stamped_ids_from (xs : list A) :
  forall k i v,
    In v (map task_id (stamped E g k i xs)) ->
    exists z j, (i <= j)%nat /\ v = JStr (stem z ++ String "-" (index_toString j)).
Proof.
  induction xs as [|x xs IH]; intros k i v Hin; simpl in Hin; [contradiction|].
  destruct Hin as [<-|Hin].
  - exists (Date_now_at E k), i. split; [lia|apply g_id].
  - destruct (IH _ _ _ Hin) as (z & j & Hj & Hv).
    exists z, j. split; [lia|exact Hv].
Qed.

Lemma stamped_ids_NoDup (xs : list A) :
  forall k i, NoDup (map task_id (stamped E g k i xs)).
Proof.
  induction xs as [|x xs IH]; intros k i; simpl; constructor; [|apply IH].
  intro Hin. destruct (stamped_ids_from _ _ _ _ Hin) as (z & j & Hj & Hv).
  rewrite g_id in Hv. injection Hv as Hv.
  apply after_last_dash in Hv; try apply index_toString_no_dash.
  apply index_toString_inj in Hv. lia.
Qed.
End BatchIds.

Lemma stamped_of_mapi (A B : Type) (E : Env) (f : A -> nat -> B) (xs : list A) :
  forall k i, stamped E (fun _ x j => f x j) k i xs = mapi_from f i xs.
Proof.
  induction xs as [|x xs IH]; intros k i; simpl; [reflexivity|].
  f_equal. apply IH.
Qed.

(** X20. Within one batch the minted ids are pairwise distinct: the tasks
    made from one analysis result ([ai-<timestamp>-<i>]), whatever the clock
    reads and even if it stands still, and the tasks migrated from one
    legacy list, by the calendar view ([legacy-<date>-<i>]) and by the
    record view ([legacy-<timestamp>-<i>]) alike. *)
Theorem batch_ids_distinct (E : Env) (w : World) :
  (forall analysis xs,
      r_tasks analysis = JArr xs ->
      exists l w', aiTasks E analysis w = (Ok l, w')
                   /\ length l = length xs
                   /\ NoDup (map task_id l))
  /\ (forall entry s ts,
         tasks entry = Some (JStr s :: ts) ->
         length (getTasksForEntry entry) = S (length ts)
         /\ NoDup (map task_id (getTasksForEntry entry)))
  /\ (forall s ts,
         exists l w', normalizeTasks E (Some (JStr s :: ts)) w = (Ok l, w')
                      /\ length l = S (length ts)
                      /\ NoDup (map task_id l)).
Proof.
  split; [|split].
  - intros analysis xs Ht. eexists. eexists.
    split; [apply (aiTasks_stamped E w analysis Ht)|].
    split; [apply stamped_length|].
    apply (stamped_ids_NoDup E _ (fun z => "ai-" ++ Number_toString z)).
    intros z x j. reflexivity.
  - intros entry s ts Ht. unfold getTasksForEntry. rewrite Ht.
    cbn [length Nat.ltb Nat.leb nth is_string andb]. unfold mapi.
    split; [apply mapi_from_length|].
    rewrite <- (stamped_of_mapi E _ (JStr s :: ts) 0 0).
    apply (stamped_ids_NoDup E _ (fun _ => "legacy-" ++ date entry)).
    intros z x j. reflexivity.
  - intros s ts. unfold normalizeTasks.
    cbn [length Nat.eqb nth is_string]. unfold mapiM.
    rewrite (mapiM_from_stamped E
               (fun now t i =>
                  TaskItem ("legacy-" ++ Number_toString now ++ "-" ++ index_toString i)
                           t false)).
    eexists. eexists. split; [reflexivity|]. split; [apply stamped_length|].
    apply (stamped_ids_NoDup E _ (fun z => "legacy-" ++ Number_toString z)).
    intros z x j. reflexivity.
Qed.

Lemma batch_ids_distinct_witness :
  exists l w',
    aiTasks offline_env (getMockAnalysis "") fresh_world = (Ok l, w')
    /\ length l = 2%nat
    /\ NoDup (map task_id l).
Proof.
  destruct (@batch_ids_distinct offline_env fresh_world) as (Hai & _).
  apply (Hai (getMockAnalysis "") [JStr "Go to Settings"; JStr "Enter OpenAI API Key"]).
  reflexivity.
Defined.

(* ====================================================================== *)
(** * Properties of the colour conversion                                  *)
(* ====================================================================== *)

Lemma hex_digit_range (c : ascii) (v : Z) : hex_digit c = Some v -> 0 <= v <= 15.
Proof.
  unfold hex_digit.
  destruct ((48 <=? nat_of_ascii c) && (nat_of_ascii c <=? 57))%nat eqn:H1.
  - intros [= <-]. apply andb_prop in H1. destruct H1 as [Ha Hb].
    apply Nat.leb_le in Ha, Hb. lia.
  - destruct ((65 <=? nat_of_ascii c) && (nat_of_ascii c <=? 70))%nat eqn:H2.
    + intros [= <-]. apply andb_prop in H2. destruct H2 as [Ha Hb].
      apply Nat.leb_le in Ha, Hb. lia.
    + destruct ((97 <=? nat_of_ascii c) && (nat_of_ascii c <=? 102))%nat eqn:H3;
        [|discriminate].
      intros [= <-]. apply andb_prop in H3. destruct H3 as [Ha Hb].
      apply Nat.leb_le in Ha, Hb. lia.
Qed.

Lemma is_hex_digit_of (c : ascii) (v : Z) : hex_digit c = Some v -> is_hex_digit c = true.
Proof. unfold is_hex_digit. intros ->. reflexivity. Qed.

Lemma land_255_range (a : Z) : 0 <= Z.land a 255 <= 255.
Proof.
  change 255 with (Z.ones 8) at 1 2. rewrite Z.land_ones by lia.
  pose proof (Z.mod_pos_bound a (2 ^ 8)). change (2 ^ 8) with 256 in *. lia.
Qed.

(** X21. The three-digit shorthand.  [hexToRgba] gives a shorthand colour
    [#abc] exactly what it gives the full form [#aabbcc]. *)
Theorem hexToRgba_shorthand (a b c : ascii) (alpha_text : string) :
  is_hex_digit a = true -> is_hex_digit b = true -> is_hex_digit c = true ->
  hexToRgba (hex3 a b c) alpha_text = hexToRgba (hex6 a a b b c c) alpha_text.
Proof.
  intros Ha Hb Hc. unfold hexToRgba, hex3, hex6, test_hex_color.
  cbn [String.length list_ascii_of_string forallb Nat.eqb orb andb Ascii.eqb Bool.eqb].
  rewrite Ha, Hb, Hc. reflexivity.
Qed.

Lemma hexToRgba_shorthand_witness :
  hexToRgba "#fa0" "0.4" = hexToRgba "#ffaa00" "0.4"
  /\ hexToRgba "#fa0" "0.4" = "rgba(255,170,0,0.4)".
Proof.
  split; [|reflexivity].
  apply (@hexToRgba_shorthand "f"%char "a"%char "0"%char "0.4"); reflexivity.
Defined.

(** X22. Six digits.  For a colour [#c1c2c3c4c5c6] of hexadecimal digits,
    upper or lower case, [hexToRgba] writes [rgba(r,g,b,alpha)] where red,
    green and blue are the values of the three digit pairs, each from 0 to
    255, and alpha is passed through. *)
Theorem hexToRgba_six_digits (c1 c2 c3 c4 c5 c6 : ascii) (v1 v2 v3 v4 v5 v6 : Z)
    (alpha_text : string) :
  hex_digit c1 = Some v1 -> hex_digit c2 = Some v2 -> hex_digit c3 = Some v3 ->
  hex_digit c4 = Some v4 -> hex_digit c5 = Some v5 -> hex_digit c6 = Some v6 ->
  hexToRgba (hex6 c1 c2 c3 c4 c5 c6) alpha_text
  = rgba_text (16 * v1 + v2) (16 * v3 + v4) (16 * v5 + v6) alpha_text
  /\ 0 <= 16 * v1 + v2 <= 255 /\ 0 <= 16 * v3 + v4 <= 255 /\ 0 <= 16 * v5 + v6 <= 255.
Proof.
  intros H1 H2 H3 H4 H5 H6.
  pose proof (hex_digit_range _ H1). pose proof (hex_digit_range _ H2).
  pose proof (hex_digit_range _ H3). pose proof (hex_digit_range _ H4).
  pose proof (hex_digit_range _ H5). pose proof (hex_digit_range _ H6).
  split; [|lia].
  unfold hexToRgba, hex6, test_hex_color.
  cbn [String.length list_ascii_of_string forallb Nat.eqb orb andb Ascii.eqb Bool.eqb].
  rewrite (is_hex_digit_of _ H1), (is_hex_digit_of _ H2), (is_hex_digit_of _ H3),
          (is_hex_digit_of _ H4), (is_hex_digit_of _ H5), (is_hex_digit_of _ H6).
  cbn [andb Nat.sub String.substring list_ascii_of_string hex_number fold_left].
  rewrite H1, H2, H3, H4, H5, H6.
  set (n := (((((0 * 16 + v1) * 16 + v2) * 16 + v3) * 16 + v4) * 16 + v5) * 16 + v6).
  assert (Hr : Z.land (Z.shiftr n 16) 255 = 16 * v1 + v2).
  { change 255 with (Z.ones 8). rewrite Z.land_ones, Z.shiftr_div_pow2 by lia.
    change (2 ^ 16) with 65536. change (2 ^ 8) with 256. unfold n.
    assert (Hq : ((((((0 * 16 + v1) * 16 + v2) * 16 + v3) * 16 + v4) * 16 + v5) * 16 + v6)
                 / 65536 = 16 * v1 + v2)
      by (symmetry; apply (Z.div_unique _ 65536 _
                             (4096 * v3 + 256 * v4 + 16 * v5 + v6)); lia).
    rewrite Hq. apply Z.mod_small. lia. }
  assert (Hg : Z.land (Z.shiftr n 8) 255 = 16 * v3 + v4).
  { change 255 with (Z.ones 8). rewrite Z.land_ones, Z.shiftr_div_pow2 by lia.
    change (2 ^ 8) with 256. unfold n.
    assert (Hq : ((((((0 * 16 + v1) * 16 + v2) * 16 + v3) * 16 + v4) * 16 + v5) * 16 + v6)
                 / 256 = 4096 * v1 + 256 * v2 + 16 * v3 + v4)
      by (symmetry; apply (Z.div_unique _ 256 _ (16 * v5 + v6)); lia).
    rewrite Hq. symmetry.
    apply (Z.mod_unique _ 256 (16 * v1 + v2)); lia. }
  assert (Hb : Z.land n 255 = 16 * v5 + v6).
  { change 255 with (Z.ones 8). rewrite Z.land_ones by lia.
    change (2 ^ 8) with 256. unfold n. symmetry.
    apply (Z.mod_unique _ 256 (4096 * v1 + 256 * v2 + 16 * v3 + v4)); lia. }
  rewrite Hr, Hg, Hb. reflexivity.
Qed.

Lemma hexToRgba_six_digits_witness :
  hexToRgba "#F4B942" "0.12" = "rgba(244,185,66,0.12)".
Proof.
  destruct (@hexToRgba_six_digits "F"%char "4"%char "B"%char "9"%char "4"%char "2"%char
              15 4 11 9 4 2 "0.12" eq_refl eq_refl eq_refl eq_refl eq_refl eq_refl)
    as (H & _).
  exact H.
Defined.

Lemma hexToRgba_valid (hex alpha_text : string) :
  test_hex_color hex = true ->
  exists r g b,
    0 <= r <= 255 /\ 0 <= g <= 255 /\ 0 <= b <= 255
    /\ hexToRgba hex alpha_text = rgba_text r g b alpha_text.
Proof.
  intro Hvalid. unfold hexToRgba. rewrite Hvalid.
  eexists. eexists. eexists.
  split; [apply land_255_range|]. split; [apply land_255_range|].
  split; [apply land_255_range|]. reflexivity.
Qed.

Lemma table_get_own_in (A : Type) (table : list (string * A)) (k : string) (v : A) :
  table_get table k = Own v -> In v (map snd table).
Proof.
  unfold table_get.
  destruct (find (fun p => String.eqb (fst p) k) table) as [p|] eqn:Hfind.
  - intros [= <-]. apply find_some in Hfind. apply in_map. exact (proj1 Hfind).
  - destruct (existsb (String.eqb k) Object_prototype_names); discriminate.
Qed.

(** X23. The resolver and the converter compose.  Every colour that
    [getMoodColor] returns, for whatever key, score and tier, is a colour
    text [hexToRgba] accepts: it is turned into [rgba(r,g,b,alpha)] with
    components from 0 to 255, never handed back unconverted.  A text that is
    no [#] colour of three or six hexadecimal digits is handed back as it
    is. *)
Theorem palette_colours_convert (k : string) (score : Z) (type : MoodIntensity)
    (col alpha_text : string) :
  (getMoodColor k score type = Some col ->
     test_hex_color col = true
     /\ exists r g b,
          0 <= r <= 255 /\ 0 <= g <= 255 /\ 0 <= b <= 255
          /\ hexToRgba col alpha_text = rgba_text r g b alpha_text)
  /\ (test_hex_color col = false -> hexToRgba col alpha_text = col).
Proof.
  split.
  - intro Hcol.
    assert (Hvalid : test_hex_color col = true).
    { unfold getMoodColor, palette_shade in Hcol.
      destruct (table_get MOOD_PALETTE (safeKey_of k)) as [def| |] eqn:Hslot;
        try discriminate Hcol.
      injection Hcol as <-.
      apply table_get_own_in in Hslot. simpl in Hslot.
      destruct Hslot as [<-|[<-|[<-|[<-|[<-|[<-|[<-|[]]]]]]]];
        destruct type; reflexivity. }
    split; [exact Hvalid|]. apply hexToRgba_valid. exact Hvalid.
  - intro Hinvalid. unfold hexToRgba. rewrite Hinvalid. reflexivity.
Qed.

Lemma palette_colours_convert_witness :
  (exists r g b,
      0 <= r <= 255 /\ 0 <= g <= 255 /\ 0 <= b <= 255
      /\ hexToRgba "#5C5C54" "0.25" = rgba_text r g b "0.25")
  /\ hexToRgba "transparent" "0.25" = "transparent".
Proof.
  destruct (@palette_colours_convert "unknown_key" 5 Strong "#5C5C54" "0.25") as (H & _).
  destruct (@palette_colours_convert "unknown_key" 5 Strong "transparent" "0.25") as (_ & H').
  split.
  - apply H. reflexivity.
  - apply H'. reflexivity.
Defined.

(* ====================================================================== *)
(** * Properties of dates and durations                                    *)
(* ====================================================================== *)

Lemma string_length_app (a b : string) :
  String.length (a ++ b) = (String.length a + String.length b)%nat.
Proof. induction a as [|c a IH]; simpl; [reflexivity|f_equal; exact IH]. Qed.

(** Two texts that agree and end in tails of the same length agree on the
    heads and on the tails. *)
Lemma string_app_inj_tail (a b x y : string) :
  String.length x = String.length y -> a ++ x = b ++ y -> a = b /\ x = y.
Proof.
  intro Hlen. revert b.
  induction a as [|c a IH]; intros [|c' b] H; simpl in H.
  - split; [reflexivity|exact H].
  - exfalso. apply (f_equal String.length) in H. simpl in H.
    rewrite string_length_app in H. lia.
  - exfalso. apply (f_equal String.length) in H. simpl in H.
    rewrite string_length_app in H. lia.
  - injection H as -> H. destruct (IH b H) as [-> ->]. split; reflexivity.
Qed.

(** Two digits for every number from 0 to 99, and the number can be read
    back from them. *)
Lemma pad2_facts (n : Z) :
  0 <= n <= 99 ->
  String.length (padStart0 (Number_toString n) 2) = 2%nat
  /\ option_map Z.of_int (NilZero.int_of_string (padStart0 (Number_toString n) 2)) = Some n.
Proof.
  intro Hn.
  assert (Hk : exists k, (k < 100)%nat /\ n = Z.of_nat k)
    by (exists (Z.to_nat n); lia).
  destruct Hk as (k & Hk & ->). clear Hn.
  do 100 (destruct k as [|k]; [split; reflexivity|]).
  lia.
Qed.

Lemma pad2_inj (a b : Z) :
  0 <= a <= 99 -> 0 <= b <= 99 ->
  padStart0 (Number_toString a) 2 = padStart0 (Number_toString b) 2 -> a = b.
Proof.
  intros Ha Hb H.
  destruct (pad2_facts Ha) as [_ Hva]. destruct (pad2_facts Hb) as [_ Hvb].
  rewrite H in Hva. rewrite Hva in Hvb. injection Hvb as ->. reflexivity.
Qed.

(** X24. Storage keys of distinct days are distinct.  [formatDate] writes
    year, two-digit month and two-digit day separated by hyphens, and two
    dates with months from 0 to 11 and days from 1 to 31 that format to the
    same text are the same date. *)
Theorem formatDate_injective (d1 d2 : JsDate) :
  0 <= Month d1 <= 11 -> 1 <= DayOfMonth d1 <= 31 ->
  0 <= Month d2 <= 11 -> 1 <= DayOfMonth d2 <= 31 ->
  formatDate d1 = formatDate d2 ->
  d1 = d2.
Proof.
  intros Hm1 Hd1 Hm2 Hd2 H.
  destruct d1 as [y1 m1 dd1], d2 as [y2 m2 dd2].
  unfold formatDate in H. cbn [FullYear Month DayOfMonth] in *.
  destruct (@pad2_facts (m1 + 1)) as [Lm1 _]; [lia|].
  destruct (@pad2_facts (m2 + 1)) as [Lm2 _]; [lia|].
  destruct (@pad2_facts dd1) as [Ld1 _]; [lia|].
  destruct (@pad2_facts dd2) as [Ld2 _]; [lia|].
  apply string_app_inj_tail in H.
  - destruct H as [Hy H]. apply Number_toString_inj in Hy.
    simpl in H. injection H as H.
    apply string_app_inj_tail in H.
    + destruct H as [Hm H]. simpl in H. injection H as Hd.
      apply pad2_inj in Hm; [|lia|lia]. apply pad2_inj in Hd; [|lia|lia].
      f_equal; lia.
    + simpl. rewrite Ld1, Ld2. reflexivity.
  - rewrite !string_length_app, Lm1, Lm2, Ld1, Ld2. reflexivity.
Qed.

Lemma formatDate_injective_witness :
  formatDate {| FullYear := 2024; Month := 0; DayOfMonth := 5 |} = "2024-01-05"
  /\ ({| FullYear := 2024; Month := 0; DayOfMonth := 5 |}
      = {| FullYear := 2024; Month := 0; DayOfMonth := 5 |}).
Proof.
  split; [reflexivity|].
  apply (@formatDate_injective {| FullYear := 2024; Month := 0; DayOfMonth := 5 |}
           {| FullYear := 2024; Month := 0; DayOfMonth := 5 |});
    simpl; try lia; reflexivity.
Defined.

Lemma days_in_month_range (y m : Z) : 28 <= days_in_month y m <= 31.
Proof.
  unfold days_in_month.
  destruct (m =? 1); [destruct (is_leap_year y); lia|].
  destruct ((m =? 3) || (m =? 5) || (m =? 8) || (m =? 10)); lia.
Qed.

Lemma calendar_next_inside (y m k : Z) :
  k + 1 <= days_in_month y m ->
  calendar_next {| FullYear := y; Month := m; DayOfMonth := k |}
  = {| FullYear := y; Month := m; DayOfMonth := k + 1 |}.
Proof.
  intro H. unfold calendar_next. cbn [FullYear Month DayOfMonth].
  assert (Hin : (k + 1 <=? days_in_month y m) = true) by (apply Z.leb_le; lia).
  rewrite Hin. reflexivity.
Qed.

Lemma calendar_next_leaves_month (y m : Z) :
  0 <= m <= 11 ->
  (Month (calendar_next {| FullYear := y; Month := m;
                           DayOfMonth := days_in_month y m |}) =? m) = false
  /\ DayOfMonth (calendar_next {| FullYear := y; Month := m;
                                  DayOfMonth := days_in_month y m |}) = 1.
Proof.
  intro Hm. unfold calendar_next. cbn [FullYear Month DayOfMonth].
  assert (Hover : (days_in_month y m + 1 <=? days_in_month y m) = false)
    by (apply Z.leb_gt; lia).
  rewrite Hover.
  destruct (m =? 11) eqn:H11; cbn [Month DayOfMonth]; split; try reflexivity;
    apply Z.eqb_neq.
  - apply Z.eqb_eq in H11. lia.
  - lia.
Qed.

(** Past the last day of a month, the local date lies in another month. *)
Lemma next_day_leaves_month (zone : TimeZone) (y m : Z) :
  0 <= m <= 11 ->
  (Month (next_day zone {| FullYear := y; Month := m;
                           DayOfMonth := days_in_month y m |}) =? m) = false.
Proof.
  intro Hm. destruct (calendar_next_leaves_month y Hm) as [Hmonth Hday].
  unfold next_day, local_date.
  destruct (zone _); [|exact Hmonth].
  destruct (calendar_next {| FullYear := y; Month := m; DayOfMonth := days_in_month y m |})
    as [y' m' k'].
  cbn [Month DayOfMonth] in Hmonth, Hday. subst k'.
  rewrite calendar_next_inside; [exact Hmonth|].
  pose proof (days_in_month_range y' m'). lia.
Qed.

(** The loop, started on day [k] of the month with [r] more days to come,
    collects those of these [r + 1] days that the zone has and stops behind
    the month, given fuel for it. *)
Lemma getMonthDays_loop_collects (zone : TimeZone) (y m : Z) :
  0 <= m <= 11 ->
  (forall k, 1 <= k < days_in_month y m ->
             zone {| FullYear := y; Month := m; DayOfMonth := k |} = true ->
             zone {| FullYear := y; Month := m; DayOfMonth := k + 1 |} = false) ->
  forall (r fuel : nat) (k : Z) (acc : list JsDate),
    1 <= k -> k + Z.of_nat r = days_in_month y m -> (r < fuel)%nat ->
    zone {| FullYear := y; Month := m; DayOfMonth := k |} = false ->
    getMonthDays_loop zone fuel m {| FullYear := y; Month := m; DayOfMonth := k |} acc
    = Some (acc ++ filter (fun d => negb (zone d)) (days_from y m k (S r)))%list.
Proof.
  intros Hm Hgap r.
  induction r as [r IH] using lt_wf_ind.
  intros fuel k acc Hk Hlast Hfuel Hhere.
  destruct fuel as [|fuel]; [lia|].
  cbn [getMonthDays_loop Month]. rewrite Z.eqb_refl.
  cbn [days_from filter]. rewrite Hhere. cbn [negb].
  destruct r as [|r].
  - (* the last day of the month *)
    assert (Hk' : k = days_in_month y m) by lia. subst k.
    pose proof (next_day_leaves_month zone y Hm) as Hout.
    destruct fuel; cbn [getMonthDays_loop]; rewrite Hout; reflexivity.
  - unfold next_day at 1. rewrite calendar_next_inside by lia.
    unfold local_date.
    destruct (zone {| FullYear := y; Month := m; DayOfMonth := k + 1 |}) eqn:Hnext.
    + (* the zone lacks the next day *)
      cbn [days_from filter]. rewrite Hnext. cbn [negb].
      destruct r as [|r].
      * assert (Hk' : k + 1 = days_in_month y m) by lia. rewrite Hk'.
        destruct (calendar_next_leaves_month y Hm) as [Hout _].
        destruct fuel; cbn [getMonthDays_loop]; rewrite Hout; reflexivity.
      * rewrite calendar_next_inside by lia.
        assert (Hthen : zone {| FullYear := y; Month := m; DayOfMonth := k + 1 + 1 |} = false)
          by (apply Hgap; [lia|exact Hnext]).
        assert (Hlt : (r < S (S r))%nat) by lia.
        rewrite (IH r Hlt fuel (k + 1 + 1)
                    (acc ++ [{| FullYear := y; Month := m; DayOfMonth := k |}])%list);
          [|lia|lia|lia|exact Hthen].
        rewrite <- app_assoc. reflexivity.
    + assert (Hlt : (r < S r)%nat) by lia.
      rewrite (IH r Hlt fuel (k + 1)
                  (acc ++ [{| FullYear := y; Month := m; DayOfMonth := k |}])%list);
        [|lia|lia|lia|exact Hnext].
      cbn [days_from filter]. rewrite Hnext. cbn [negb].
      rewrite <- app_assoc. reflexivity.
Qed.

Lemma days_from_length (y m k : Z) (n : nat) : length (days_from y m k n) = n.
Proof. revert k. induction n as [|n IH]; intro k; simpl; [reflexivity|f_equal; apply IH]. Qed.

Lemma days_from_nth (y m : Z) (n : nat) :
  forall k i, (i < n)%nat ->
              nth_error (days_from y m k n) i
              = Some {| FullYear := y; Month := m; DayOfMonth := k + Z.of_nat i |}.
Proof.
  induction n as [|n IH]; intros k i Hi; [lia|].
  destruct i as [|i]; simpl.
  - rewrite Z.add_0_r. reflexivity.
  - rewrite IH by lia. do 2 f_equal. lia.
Qed.

Lemma days_from_In (y m : Z) (n : nat) :
  forall k d, In d (days_from y m k n) ->
              exists j, k <= j < k + Z.of_nat n
                        /\ d = {| FullYear := y; Month := m; DayOfMonth := j |}.
Proof.
  induction n as [|n IH]; intros k d Hin; [destruct Hin|].
  destruct Hin as [<-|Hin].
  - exists k. split; [lia|reflexivity].
  - destruct (IH (k + 1) d Hin) as (j & Hj & ->). exists j. split; [lia|reflexivity].
Qed.

Lemma filter_keeps_all (A : Type) (f : A -> bool) (l : list A) :
  (forall x, In x l -> f x = true) -> filter f l = l.
Proof.
  induction l as [|a l IH]; intro H; [reflexivity|].
  simpl. rewrite (H a (or_introl eq_refl)). f_equal. apply IH.
  intros x Hx. apply H. right. exact Hx.
Qed.

(** X25. The days of a month.  For a month index from 0 to 11 and a year
    whose days are all time values (a year from 0 to 99 is read as
    1900 + year), in a time zone that lacks no two days in a row,
    [getMonthDays] stops by its own condition and returns the days of that
    month that the zone has, once and in order.  In a zone that has every
    day of the month these are all of them, from day 1 to the last: 28 to
    31 dates, 29 for February exactly in leap years.  For a month index
    outside 0 to 11 the list is empty. *)
Theorem getMonthDays_lists_the_month (zone : TimeZone) (year month : Z) :
  (-271820 <= year <= 275759 -> 0 <= month <= 11 ->
     let y := if (0 <=? year) && (year <=? 99) then 1900 + year else year in
     (forall k, 1 <= k < days_in_month y month ->
                zone {| FullYear := y; Month := month; DayOfMonth := k |} = true ->
                zone {| FullYear := y; Month := month; DayOfMonth := k + 1 |} = false) ->
     exists days,
       getMonthDays zone year month = Some days
       /\ days = local_days zone y month
       /\ ((forall k, 1 <= k <= days_in_month y month ->
                      zone {| FullYear := y; Month := month; DayOfMonth := k |} = false) ->
           Z.of_nat (length days) = days_in_month y month
           /\ (28 <= length days <= 31)%nat
           /\ (month = 1 -> length days = if is_leap_year y then 29%nat else 28%nat)
           /\ forall i, (i < length days)%nat ->
                        nth_error days i
                        = Some {| FullYear := y; Month := month;
                                  DayOfMonth := 1 + Z.of_nat i |}))
  /\ (~ 0 <= month <= 11 -> getMonthDays zone year month = Some []).
Proof.
  split.
  - intros _ Hm y Hgap.
    pose proof (days_in_month_range y month) as Hrange.
    exists (local_days zone y month).
    assert (Hrun : getMonthDays zone year month = Some (local_days zone y month)).
    { unfold getMonthDays, new_Date_first, local_days. fold y.
      rewrite (Z.div_small month 12), (Z.mod_small month 12), Z.add_0_r by lia.
      replace (Z.to_nat (days_in_month y month))
        with (S (S (Z.to_nat (days_in_month y month - 2)))) by lia.
      unfold local_date.
      destruct (zone {| FullYear := y; Month := month; DayOfMonth := 1 |}) eqn:Hfirst.
      - rewrite calendar_next_inside by lia.
        cbn [days_from filter]. rewrite Hfirst. cbn [negb].
        apply (@getMonthDays_loop_collects zone y month Hm Hgap
                 (Z.to_nat (days_in_month y month - 2)) 32%nat (1 + 1) []); try lia.
        apply Hgap; [lia|exact Hfirst].
      - apply (@getMonthDays_loop_collects zone y month Hm Hgap
                 (S (Z.to_nat (days_in_month y month - 2))) 32%nat 1 []); try lia.
        exact Hfirst. }
    split; [exact Hrun|]. split; [reflexivity|].
    intro Hall.
    assert (Hsame : local_days zone y month
                    = days_from y month 1 (Z.to_nat (days_in_month y month))).
    { unfold local_days. apply filter_keeps_all. intros d Hin.
      destruct (days_from_In _ _ _ _ _ Hin) as (j & Hj & ->).
      rewrite Hall by lia. reflexivity. }
    rewrite Hsame, days_from_length.
    split; [lia|]. split; [lia|]. split.
    + intros ->. unfold days_in_month. simpl. destruct (is_leap_year y); reflexivity.
    + intros i Hi. apply days_from_nth. exact Hi.
  - intro Hout. unfold getMonthDays, new_Date_first.
    pose proof (Z.mod_pos_bound month 12 ltac:(lia)) as Hmod.
    set (yr := (if (0 <=? year) && (year <=? 99) then 1900 + year else year) + month / 12).
    assert (Hne : (Month (local_date zone {| FullYear := yr; Month := month mod 12;
                                              DayOfMonth := 1 |}) =? month) = false).
    { apply Z.eqb_neq. unfold local_date. destruct (zone _).
      - rewrite calendar_next_inside; cbn [Month];
          [lia|pose proof (days_in_month_range yr (month mod 12)); lia].
      - cbn [Month]. lia. }
    cbn [getMonthDays_loop]. rewrite Hne. reflexivity.
Qed.

Lemma getMonthDays_lists_the_month_witness :
  exists days,
    getMonthDays Pacific_Apia 2011 11 = Some days
    /\ length days = 30%nat
    /\ nth_error days 28 = Some {| FullYear := 2011; Month := 11; DayOfMonth := 29 |}
    /\ nth_error days 29 = Some {| FullYear := 2011; Month := 11; DayOfMonth := 31 |}.
Proof.
  destruct (@getMonthDays_lists_the_month Pacific_Apia 2011 11) as (H & _).
  destruct H as (days & Hrun & Hdays & _); [lia|lia| |].
  - intros k Hk Hlost. unfold Pacific_Apia, same_day in *.
    cbn [FullYear Month DayOfMonth] in *.
    apply andb_prop in Hlost. destruct Hlost as [_ Hlost].
    apply Z.eqb_eq in Hlost. subst k. reflexivity.
  - exists days. split; [exact Hrun|]. rewrite Hdays.
    repeat split; reflexivity.
Defined.

Example getMonthDays_edges :
  option_map (@length JsDate) (getMonthDays every_day 1900 1) = Some 28%nat
  /\ option_map (@length JsDate) (getMonthDays every_day 2000 1) = Some 29%nat
  /\ option_map (@length JsDate) (getMonthDays every_day 2023 11) = Some 31%nat
  /\ getMonthDays every_day 2024 12 = Some []
  /\ option_map (@length JsDate) (getMonthDays Pacific_Apia 2011 11) = Some 30%nat
  /\ option_map (@length JsDate) (getMonthDays every_day 2011 11) = Some 31%nat.
Proof. repeat split; reflexivity. Qed.

(** X26. Recording durations.  For a duration of [sec] seconds, zero or
    more, [formatDuration] writes the minutes, a colon and the seconds on
    exactly two digits, seconds staying below 60; two such durations that
    are written alike are equal. *)
Theorem formatDuration_two_digits (a b : Z) :
  0 <= a -> 0 <= b ->
  (exists seconds,
      formatDuration a = Number_toString (a / 60) ++ ":" ++ seconds
      /\ String.length seconds = 2%nat
      /\ option_map Z.of_int (NilZero.int_of_string seconds) = Some (a mod 60)
      /\ 0 <= a mod 60 < 60)
  /\ (formatDuration a = formatDuration b -> a = b).
Proof.
  intros Ha Hb.
  pose proof (Z.mod_pos_bound a 60 ltac:(lia)) as Hma.
  pose proof (Z.mod_pos_bound b 60 ltac:(lia)) as Hmb.
  assert (Hra : Z.rem a 60 = a mod 60) by (apply Z.rem_mod_nonneg; lia).
  assert (Hrb : Z.rem b 60 = b mod 60) by (apply Z.rem_mod_nonneg; lia).
  destruct (@pad2_facts (a mod 60)) as [La Va]; [lia|].
  destruct (@pad2_facts (b mod 60)) as [Lb Vb]; [lia|].
  unfold formatDuration. rewrite Hra, Hrb. split.
  - eexists. split; [reflexivity|]. split; [exact La|]. split; [exact Va|exact Hma].
  - intro H. apply string_app_inj_tail in H.
    + destruct H as [Hm Hs]. apply Number_toString_inj in Hm.
      simpl in Hs. injection Hs as Hs. apply pad2_inj in Hs; [|lia|lia].
      rewrite (Z.div_mod a 60), (Z.div_mod b 60) by lia. lia.
    + simpl. rewrite La, Lb. reflexivity.
Qed.

Lemma formatDuration_two_digits_witness :
  exists seconds,
    formatDuration 65 = "1:" ++ seconds
    /\ String.length seconds = 2%nat
    /\ (formatDuration 65 = formatDuration 600 -> 65 = 600).
Proof.
  destruct (@formatDuration_two_digits 65 600) as (H & Hinj); [lia|lia|].
  destruct H as (seconds & Hfmt & Hlen & _).
  exists seconds. split; [exact Hfmt|]. split; [exact Hlen|exact Hinj].
Defined.

(* ====================================================================== *)
(** * Properties of the analyze handler                                    *)
(* ====================================================================== *)

Lemma guard_passes (st : AnalyzeInput) :
  has_input st ->
  (match audioBlob st with None => true | Some _ => false end
   && String.eqb (textInput st) ""
   && (length (in_images st) =? 0)%nat) = false.
Proof.
  intros [Hb|[Ht|Hi]].
  - destruct (audioBlob st); [reflexivity|contradiction].
  - rewrite (eqb_false_of_neq Ht). rewrite andb_false_r. reflexivity.
  - destruct (in_images st); [contradiction|]. simpl. apply andb_false_r.
Qed.

(** X27. What the analyze handler does not start.  With no recording, no
    text and no image, [handleAnalyze] does nothing: no request, no state
    change.  With a recording that cannot be read, it shows one alert,
    sends no request and sets neither the text nor the mood. *)
Theorem handleAnalyze_guards (E : Env) (st : AnalyzeInput) (w : World) :
  (audioBlob st = None -> textInput st = "" -> in_images st = [] ->
     handleAnalyze E st w = (Ok None, w))
  /\ (forall err,
        audioBlob st = Some (Throw err) ->
        handleAnalyze E st w
        = (Ok (Some {| set_textInput := None; set_moodData := None;
                       isAnalyzing := false |}),
           snd (alert "AI 分析出错" w))
        /\ requests (snd (handleAnalyze E st w)) = requests w).
Proof.
  split.
  - intros Hb Ht Hi. unfold handleAnalyze. rewrite Hb, Ht, Hi. reflexivity.
  - intros err Hb.
    assert (Hrun : handleAnalyze E st w
                   = (Ok (Some {| set_textInput := None; set_moodData := None;
                                  isAnalyzing := false |}),
                      snd (alert "AI 分析出错" w))).
    { unfold handleAnalyze. rewrite Hb. cbn [andb].
      unfold audio_for_analysis. rewrite Hb. reflexivity. }
    split; [exact Hrun|]. rewrite Hrun. reflexivity.
Qed.

Lemma handleAnalyze_guards_witness :
  handleAnalyze quota_env empty_draft keyed_world = (Ok None, keyed_world)
  /\ requests (snd (handleAnalyze quota_env unreadable_draft keyed_world)) = [].
Proof.
  split.
  - destruct (@handleAnalyze_guards quota_env empty_draft keyed_world) as (H & _).
    apply H; reflexivity.
  - destruct (@handleAnalyze_guards quota_env unreadable_draft keyed_world) as (_ & H).
    destruct (H (Error "NotReadableError") eq_refl) as (_ & Hreq). exact Hreq.
Defined.

(** X28. A half-applied analysis.  When the analysis returns a result whose
    tasks are not an array, [handleAnalyze] has already replaced the text by
    the returned transcription when the merge raises: it then shows one
    alert and leaves the mood state, tasks included, as it was. *)
Theorem handleAnalyze_half_applied (E : Env) (st : AnalyzeInput) (w w1 : World)
    (analysis : AnalysisResult) :
  has_input st ->
  analysis_run E st w = (Ok analysis, w1) ->
  (forall xs, r_tasks analysis <> JArr xs) ->
  handleAnalyze E st w
  = (Ok (Some {| set_textInput := Some (js_or (r_transcription analysis) (JStr ""));
                 set_moodData := None;
                 isAnalyzing := false |}),
     snd (alert "AI 分析出错" w1)).
Proof.
  intros Hin Hrun Hnot.
  unfold handleAnalyze. rewrite (guard_passes Hin).
  fold (analysis_run E st). rewrite Hrun.
  unfold handleAnalyze_moodData, mergedTasks, aiTasks, bind, js_map.
  destruct (r_tasks analysis) as [| | | | |xs|] eqn:Ht; try reflexivity.
  exfalso. apply (Hnot xs). reflexivity.
Qed.

Lemma handleAnalyze_half_applied_witness :
  exists w',
    handleAnalyze string_tasks_env text_draft keyed_world
    = (Ok (Some {| set_textInput := Some (JStr "Walked the dog.");
                   set_moodData := None;
                   isAnalyzing := false |}), w')
    /\ alerts w' = ["AI 分析出错"].
Proof.
  eexists. split.
  - apply (@handleAnalyze_half_applied string_tasks_env text_draft keyed_world
             (snd (analysis_run string_tasks_env text_draft keyed_world))
             {| r_transcription := JStr "Walked the dog.";
                r_moodEmoji := JStr "📝";
                r_moodDescription := JStr "记录中";
                r_moodKey := JStr "calm";
                r_moodScore := JNum 5;
                r_tasks := JStr "buy milk" |}).
    + right. left. discriminate.
    + reflexivity.
    + intros xs H. discriminate H.
  - reflexivity.
Defined.


